(** * Inventory accounting of the office floor-plan server

    A shallow embedding of the inventory routes of the Express/Prisma
    server: the per-floor stock ([FloorInventory]), the per-zone
    allocations ([ZoneInventory]) and the placed objects ([ZoneObject]).

    The store is modelled after the migrations: every table is a finite
    map from its SERIAL primary key to its row, with the foreign keys
    [ZoneInventory.floorInventoryId] and [ZoneObject.zoneInventoryId]
    declared ON DELETE CASCADE.  The inventory routes read the [Zone]
    table through the foreign key [ZoneInventory.zoneId] and never write
    it: the routes that depend on it take the set [zones] of its ids as an
    argument.  The tables [Floor] and [InventoryCatalog] are not part of
    the model.  Path parameters and body fields are typed, so the
    [Number.isInteger] and [typeof] checks of the routes are discharged by
    the types and only the sign and presence checks remain.

    Scope of the model.

    - A route runs from its first client call to its answer with no other
      request in between, and [transaction] is then all or nothing.  Where
      a statement is about requests that overlap, the client calls of the
      two requests are run in the interleaved order, one call at a time.
    - Integers are mathematical integers, while an INTEGER column holds 32
      bits ([int4]): a statement that says that a write is accepted carries
      the bound as a hypothesis.
    - The numbers [x], [y] and [rotation] are kept as they are sent, while
      the client rounds what it stores and refuses infinities: a statement
      that says that a placement is accepted is about [ordinary] numbers,
      and says nothing of the stored digits.
    - A refused insert and a rolled-back transaction leave the id sequences
      where they were, while PostgreSQL keeps the value that was drawn: a
      statement about a refused insert is about the [tables]. *)

From Stdlib Require Import ZArith SpecFloat.
From stdpp Require Import gmap strings pretty list fin_maps.

Local Open Scope Z_scope.

(** ** Rows and tables *)

Record FloorInventory := {
  fi_floorId : Z;
  fi_catalogId : string;
  fi_count : Z }.

Record ZoneInventory := {
  zi_zoneId : Z;
  zi_floorInventoryId : Z;
  zi_quantity : Z }.

(** [x], [y] and [rotation] are DOUBLE PRECISION columns fed from JSON
    numbers. *)
Record ZoneObject := {
  zo_zoneId : Z;
  zo_zoneInventoryId : Z;
  zo_x : spec_float;
  zo_y : spec_float;
  zo_rotation : spec_float }.

#[global] Instance spec_float_eq_dec : EqDecision spec_float.
Proof. solve_decision. Defined.
#[global] Instance FloorInventory_eq_dec : EqDecision FloorInventory.
Proof. solve_decision. Defined.
#[global] Instance ZoneInventory_eq_dec : EqDecision ZoneInventory.
Proof. solve_decision. Defined.
#[global] Instance ZoneObject_eq_dec : EqDecision ZoneObject.
Proof. solve_decision. Defined.

(** The database: three tables and the two id sequences the routes draw
    from. *)
Record DB := {
  floorInventory : gmap Z FloorInventory;
  zoneInventory : gmap Z ZoneInventory;
  zoneObject : gmap Z ZoneObject;
  zoneInventory_id_seq : Z;
  zoneObject_id_seq : Z }.

Definition set_floorInventory (t : gmap Z FloorInventory) (s : DB) : DB :=
  {| floorInventory := t;
     zoneInventory := zoneInventory s;
     zoneObject := zoneObject s;
     zoneInventory_id_seq := zoneInventory_id_seq s;
     zoneObject_id_seq := zoneObject_id_seq s |}.

Definition set_zoneInventory (t : gmap Z ZoneInventory) (s : DB) : DB :=
  {| floorInventory := floorInventory s;
     zoneInventory := t;
     zoneObject := zoneObject s;
     zoneInventory_id_seq := zoneInventory_id_seq s;
     zoneObject_id_seq := zoneObject_id_seq s |}.

Definition set_zoneObject (t : gmap Z ZoneObject) (s : DB) : DB :=
  {| floorInventory := floorInventory s;
     zoneInventory := zoneInventory s;
     zoneObject := t;
     zoneInventory_id_seq := zoneInventory_id_seq s;
     zoneObject_id_seq := zoneObject_id_seq s |}.

Definition with_quantity (q : Z) (r : ZoneInventory) : ZoneInventory :=
  {| zi_zoneId := zi_zoneId r;
     zi_floorInventoryId := zi_floorInventoryId r;
     zi_quantity := q |}.

Definition with_count (c : Z) (r : FloorInventory) : FloorInventory :=
  {| fi_floorId := fi_floorId r;
     fi_catalogId := fi_catalogId r;
     fi_count := c |}.

(** The three tables of a store, without its id sequences. *)
Definition tables (s : DB)
    : gmap Z FloorInventory * gmap Z ZoneInventory * gmap Z ZoneObject :=
  (floorInventory s, zoneInventory s, zoneObject s).

(** The values of an INTEGER column. *)
Definition int4 (n : Z) : Prop := -2147483648 ≤ n ≤ 2147483647.

(** JSON numbers well inside the range of a DOUBLE PRECISION column: zero,
    and [m * 2^e] with [m] below [2^53] and [e] between -1000 and 900. *)
Definition ordinary (x : spec_float) : Prop :=
  match x with
  | S754_zero _ => True
  | S754_finite _ m e => Z.pos m < 2 ^ 53 ∧ -1000 ≤ e ≤ 900
  | S754_infinity _ | S754_nan => False
  end.

(** ** Exceptions and the request monad *)

(** Codes of [PrismaClientKnownRequestError]: unique constraint failed,
    foreign key constraint failed, record not found. *)
Inductive PrismaCode := P2002 | P2003 | P2025.

#[global] Instance PrismaCode_eq_dec : EqDecision PrismaCode.
Proof. solve_decision. Defined.

Inductive exn :=
  | HttpError (status : Z) (message : string)
  | PrismaError (code : PrismaCode)
  | TypeError.

Inductive outcome (A : Type) :=
  | Return (a : A)
  | Throw (e : exn).
Arguments Return {A} a.
Arguments Throw {A} e.

(** A client call reads and writes the store and may throw.  Outside a
    transaction every call commits on its own, so the store a throwing
    computation leaves behind keeps the writes made before the throw. *)
Definition M (A : Type) : Type := DB → outcome A * DB.

Definition ret {A} (a : A) : M A := λ s, (Return a, s).
Definition throw {A} (e : exn) : M A := λ s, (Throw e, s).

Definition bind {A B} (m : M A) (k : A → M B) : M B := λ s,
  match m s with
  | (Return a, s') => k a s'
  | (Throw e, s') => (Throw e, s')
  end.

Notation "'let*' x ':=' m 'in' k" := (bind m (λ x, k))
  (at level 10, x name, m at level 100, k at level 200).

(** [promise.catch(h)] *)
Definition catch {A} (m : M A) (h : exn → M A) : M A := λ s,
  match m s with
  | (Return a, s') => (Return a, s')
  | (Throw e, s') => h e s'
  end.

(** [prisma.$transaction(async (tx) => ...)], for a request that runs
    alone: a throw rolls every write of the body back.  The call sets no
    isolation level and takes no lock, so between two client calls of the
    body another request can commit; the statements that depend on it run
    the calls of the body one by one. *)
Definition transaction {A} (m : M A) : M A := λ s,
  match m s with
  | (Return a, s') => (Return a, s')
  | (Throw e, _) => (Throw e, s)
  end.

(** ** The Prisma client *)

(** [_sum: { quantity: true }] over a set of rows. *)
Definition sum_quantity (rows : gmap Z ZoneInventory) : Z :=
  map_fold (λ _ r acc, zi_quantity r + acc) 0 rows.

Definition floorInventory_findUnique (id : Z) : M (option FloorInventory) :=
  λ s, (Return (floorInventory s !! id), s).

(** [data: { ...(count != null ? { count } : {}) }] *)
Definition floorInventory_update (id : Z) (count : option Z) : M FloorInventory :=
  λ s,
  match floorInventory s !! id with
  | None => (Throw (PrismaError P2025), s)
  | Some r =>
      let r' := match count with Some c => with_count c r | None => r end in
      (Return r', set_floorInventory (<[id := r']> (floorInventory s)) s)
  end.

(** Deleting allocation rows deletes, by the cascading foreign key, the
    objects that reference them. *)
Definition zoneInventory_drop (gone : gmap Z ZoneInventory) (s : DB) : DB :=
  set_zoneObject
    (filter (λ kr, gone !! zo_zoneInventoryId kr.2 = None) (zoneObject s))
    (set_zoneInventory (zoneInventory s ∖ gone) s).

Definition zoneInventory_deleteMany (P : Z * ZoneInventory → Prop)
    `{!∀ kr, Decision (P kr)} : M nat :=
  λ s,
  let gone := filter P (zoneInventory s) in
  (Return (size gone), zoneInventory_drop gone s).

Definition zoneInventory_delete (id : Z) : M ZoneInventory := λ s,
  match zoneInventory s !! id with
  | None => (Throw (PrismaError P2025), s)
  | Some r => (Return r, zoneInventory_drop {[id := r]} s)
  end.

(** Deleting a stock row cascades to its allocations and on to their
    objects. *)
Definition floorInventory_delete (id : Z) : M FloorInventory := λ s,
  match floorInventory s !! id with
  | None => (Throw (PrismaError P2025), s)
  | Some r =>
      (Return r,
       zoneInventory_drop
         (filter (λ kr, zi_floorInventoryId kr.2 = id) (zoneInventory s))
         (set_floorInventory (delete id (floorInventory s)) s))
  end.

Definition zoneInventory_findUnique (id : Z) : M (option ZoneInventory) :=
  λ s, (Return (zoneInventory s !! id), s).

(** Lookup through the unique index on [(zoneId, floorInventoryId)]. *)
Definition zoneInventory_findUnique_zoneId_floorInventoryId
    (zoneId floorInventoryId : Z) : M (option (Z * ZoneInventory)) :=
  λ s,
  (Return (head (map_to_list
     (filter (λ kr, zi_zoneId kr.2 = zoneId
                    ∧ zi_floorInventoryId kr.2 = floorInventoryId)
        (zoneInventory s)))), s).

(** [aggregate({ where, _sum: { quantity: true } })]: [_sum.quantity] is
    null when no row matches. *)
Definition zoneInventory_aggregate (P : Z * ZoneInventory → Prop)
    `{!∀ kr, Decision (P kr)} : M (option Z) :=
  λ s,
  let rows := filter P (zoneInventory s) in
  (Return (if decide (rows = ∅) then None else Some (sum_quantity rows)), s).

(** The insert takes the next value of the id sequence and is refused on a
    primary key or unique index collision (P2002) and on a missing stock
    row or a missing zone (P2003); [zones] holds the ids of the [Zone]
    table. *)
Definition zoneInventory_create (zones : gset Z) (data : ZoneInventory)
    : M (Z * ZoneInventory) :=
  λ s,
  let id := zoneInventory_id_seq s in
  if decide (is_Some (zoneInventory s !! id)) then (Throw (PrismaError P2002), s)
  else if decide (filter (λ kr, zi_zoneId kr.2 = zi_zoneId data
                               ∧ zi_floorInventoryId kr.2 = zi_floorInventoryId data)
                    (zoneInventory s) = ∅) then
    match floorInventory s !! zi_floorInventoryId data with
    | None => (Throw (PrismaError P2003), s)
    | Some _ =>
        if decide (zi_zoneId data ∈ zones) then
          (Return (id, data),
           {| floorInventory := floorInventory s;
              zoneInventory := <[id := data]> (zoneInventory s);
              zoneObject := zoneObject s;
              zoneInventory_id_seq := id + 1;
              zoneObject_id_seq := zoneObject_id_seq s |})
        else (Throw (PrismaError P2003), s)
    end
  else (Throw (PrismaError P2002), s).

(** [update({ where: { id }, data })], the new row computed from the old
    one ([{ quantity }], [{ quantity: { increment: 1 } }], ...). *)
Definition zoneInventory_update (id : Z) (data : ZoneInventory → ZoneInventory)
    : M ZoneInventory :=
  λ s,
  match zoneInventory s !! id with
  | None => (Throw (PrismaError P2025), s)
  | Some r =>
      (Return (data r), set_zoneInventory (<[id := data r]> (zoneInventory s)) s)
  end.

Definition zoneObject_findUnique (id : Z) : M (option ZoneObject) :=
  λ s, (Return (zoneObject s !! id), s).

(** The insert is refused on a primary key collision (P2002) and on a
    missing allocation (P2003).  The routes insert an object only into the
    zone of its allocation, whose own foreign key holds that zone in place:
    the key [ZoneObject.zoneId] is not looked at again. *)
Definition zoneObject_create (data : ZoneObject) : M (Z * ZoneObject) := λ s,
  let id := zoneObject_id_seq s in
  if decide (is_Some (zoneObject s !! id)) then (Throw (PrismaError P2002), s)
  else
    match zoneInventory s !! zo_zoneInventoryId data with
    | None => (Throw (PrismaError P2003), s)
    | Some _ =>
        (Return (id, data),
         {| floorInventory := floorInventory s;
            zoneInventory := zoneInventory s;
            zoneObject := <[id := data]> (zoneObject s);
            zoneInventory_id_seq := zoneInventory_id_seq s;
            zoneObject_id_seq := id + 1 |})
    end.

Definition zoneObject_update (id : Z) (data : ZoneObject → ZoneObject)
    : M ZoneObject :=
  λ s,
  match zoneObject s !! id with
  | None => (Throw (PrismaError P2025), s)
  | Some r => (Return (data r), set_zoneObject (<[id := data r]> (zoneObject s)) s)
  end.

Definition zoneObject_delete (id : Z) : M ZoneObject := λ s,
  match zoneObject s !! id with
  | None => (Throw (PrismaError P2025), s)
  | Some r => (Return r, set_zoneObject (delete id (zoneObject s)) s)
  end.

(** ** Responses *)

Inductive response (A : Type) :=
  | Json (status : Z) (body : A)
  | ErrorJson (status : Z) (error : string)
  | End (status : Z)
  | Next (e : exn).
Arguments Json {A} status body.
Arguments ErrorJson {A} status error.
Arguments End {A} status.
Arguments Next {A} e.

(** [if (e.status) return res.status(e.status).json({ error: e.message })] *)
Definition status_or {A} (e : exn) (otherwise : response A) : response A :=
  match e with
  | HttpError status message => ErrorJson status message
  | _ => otherwise
  end.

(** [if (e.code === code) return res.status(status).json({ error })] *)
Definition code_or {A} (code : PrismaCode) (status : Z) (error : string)
    (e : exn) (otherwise : response A) : response A :=
  match e with
  | PrismaError c => if decide (c = code) then ErrorJson status error else otherwise
  | _ => otherwise
  end.

(** The message of the 409 answers of the allocation routes:
    [`Not enough available. left=${available}`]. *)
Definition not_enough (available : Z) : string :=
  "Not enough available. left=" +:+ pretty available.

(** ** Floor inventory routes *)

Record usage := {
  u_id : Z;
  u_floorId : Z;
  u_catalogId : string;
  u_count : Z;
  u_used : Z;
  u_available : Z }.

#[global] Instance usage_eq_dec : EqDecision usage.
Proof. solve_decision. Defined.

(** The callback of [items.map] in the with-usage route. *)
Definition with_usage (it : Z * FloorInventory) : M usage :=
  let* agg := zoneInventory_aggregate (λ kr, zi_floorInventoryId kr.2 = it.1) in
  let used := default 0 agg in
  ret {| u_id := it.1;
         u_floorId := fi_floorId it.2;
         u_catalogId := fi_catalogId it.2;
         u_count := fi_count it.2;
         u_used := used;
         u_available := Z.max (fi_count it.2 - used) 0 |}.

Fixpoint all {A B} (f : A → M B) (l : list A) : M (list B) :=
  match l with
  | [] => ret []
  | a :: l => let* b := f a in let* bs := all f l in ret (b :: bs)
  end.

(** GET /offices/:officeId/floors/:floorId/inventory/with-usage.  The
    order of the array (by catalog display name) is not modelled. *)
Definition get_inventory_with_usage (floorId : Z) (s : DB)
    : response (list usage) * DB :=
  match
    (let* items := (λ s, (Return (map_to_list
        (filter (λ kr, fi_floorId kr.2 = floorId) (floorInventory s))), s)) in
     all with_usage items) s
  with
  | (Return result, s') => (Json 200 result, s')
  | (Throw e, s') => (Next e, s')
  end.

(** PATCH /offices/:officeId/floors/:floorId/inventory/:id *)
Definition patch_floor_inventory (id : Z) (count : option Z) (s : DB)
    : response FloorInventory * DB :=
  if match count with Some c => bool_decide (c < 0) | None => false end then
    (ErrorJson 400 "count must be integer >= 0", s)
  else
    match floorInventory_update id count s with
    | (Return updated, s') => (Json 200 updated, s')
    | (Throw e, s') =>
        (code_or P2025 404 "Inventory item not found" e (Next e), s')
    end.

(** DELETE /offices/:officeId/floors/:floorId/inventory/:id *)
Definition delete_floor_inventory (id : Z) (s : DB) : response unit * DB :=
  match
    (let* _ := zoneInventory_deleteMany (λ kr, zi_floorInventoryId kr.2 = id) in
     floorInventory_delete id) s
  with
  | (Return _, s') => (End 204, s')
  | (Throw e, s') =>
      (code_or P2025 404 "Inventory item not found" e (Next e), s')
  end.

(** ** Zone inventory routes *)

(** The reads of the transaction of the allocation route, up to its
    insert: the stock row, the sum of its allocations, the allocation of the
    pair.  A read that ends the request throws its answer. *)
Definition post_zone_inventory_reads (zoneId floorInventoryId quantity : Z)
    : M unit :=
  let* fi := floorInventory_findUnique floorInventoryId in
  match fi with
  | None => throw (HttpError 404 "Inventory item not found")
  | Some fi =>
      let* agg := zoneInventory_aggregate
                    (λ kr, zi_floorInventoryId kr.2 = floorInventoryId) in
      let used := default 0 agg in
      let available := fi_count fi - used in
      if decide (quantity > available) then
        throw (HttpError 409 (not_enough available))
      else
        let* exists_ := zoneInventory_findUnique_zoneId_floorInventoryId
                          zoneId floorInventoryId in
        match exists_ with
        | Some _ => throw (HttpError 409 "Already attached, use PATCH")
        | None => ret tt
        end
  end.

(** POST /offices/:officeId/floors/:floorId/zones/:zoneId/inventory *)
Definition post_zone_inventory (zones : gset Z)
    (zoneId floorInventoryId quantity : Z) (s : DB)
    : response (Z * ZoneInventory) * DB :=
  if decide (quantity < 0) then (ErrorJson 400 "quantity must be int >= 0", s)
  else
    match
      transaction
        (let* _ := post_zone_inventory_reads zoneId floorInventoryId quantity in
         zoneInventory_create zones
           {| zi_zoneId := zoneId;
              zi_floorInventoryId := floorInventoryId;
              zi_quantity := quantity |}) s
    with
    | (Return created, s') => (Json 201 created, s')
    | (Throw e, s') =>
        (status_or e
           (code_or P2002 409 "Duplicate (zoneId,floorInventoryId)" e (Next e)),
         s')
    end.

(** PATCH /offices/:officeId/floors/:floorId/zones/:zoneId/inventory/:id *)
Definition patch_zone_inventory (id quantity : Z) (s : DB)
    : response ZoneInventory * DB :=
  if decide (quantity < 0) then (ErrorJson 400 "quantity must be int >= 0", s)
  else
    match
      transaction
        (let* row := zoneInventory_findUnique id in
         match row with
         | None => throw (HttpError 404 "Not found")
         | Some row =>
             let* row_floorInventory :=
               floorInventory_findUnique (zi_floorInventoryId row) in
             let* agg := zoneInventory_aggregate
                           (λ kr, zi_floorInventoryId kr.2 = zi_floorInventoryId row
                                  ∧ ¬ kr.1 = id) in
             let usedOthers := default 0 agg in
             match row_floorInventory with
             | None => throw TypeError
             | Some row_floorInventory =>
                 let availableForThis := fi_count row_floorInventory - usedOthers in
                 if decide (quantity > availableForThis) then
                   throw (HttpError 409 (not_enough availableForThis))
                 else zoneInventory_update id (with_quantity quantity)
             end
         end) s
    with
    | (Return updated, s') => (Json 200 updated, s')
    | (Throw e, s') => (status_or e (Next e), s')
    end.

(** DELETE /offices/:officeId/floors/:floorId/zones/:zoneId/inventory/:id *)
Definition delete_zone_inventory (id : Z) (s : DB) : response unit * DB :=
  match zoneInventory_delete id s with
  | (Return _, s') => (End 204, s')
  | (Throw e, s') => (code_or P2025 404 "Not found" e (Next e), s')
  end.

(** ** Zone object routes *)

(** The JSON number [0]. *)
Definition zero : spec_float := S754_zero false.

(** POST /offices/:officeId/floors/:floorId/zones/:zoneId/objects *)
Definition post_zone_objects (zoneId zoneInventoryId : Z) (x y : spec_float)
    (rotation : option spec_float) (s : DB) : response (Z * ZoneObject) * DB :=
  match
    transaction
      (let* zi := zoneInventory_findUnique zoneInventoryId in
       match zi with
       | None => throw (HttpError 404 "Zone inventory not found")
       | Some zi =>
           if decide (zi_zoneId zi ≠ zoneId) then
             throw (HttpError 400 "zoneInventoryId does not belong to this zone")
           else
             let* _ := zoneInventory_update zoneInventoryId
                         (λ r, with_quantity (zi_quantity r + 1) r) in
             let* obj := zoneObject_create
                           {| zo_zoneId := zoneId;
                              zo_zoneInventoryId := zoneInventoryId;
                              zo_x := x;
                              zo_y := y;
                              zo_rotation := default zero rotation |} in
             ret obj
       end) s
  with
  | (Return created, s') => (Json 201 created, s')
  | (Throw e, s') => (status_or e (Next e), s')
  end.

(** The [data] object of the move route: only the supplied fields. *)
Definition move_data (x y rotation : option spec_float) (o : ZoneObject)
    : ZoneObject :=
  {| zo_zoneId := zo_zoneId o;
     zo_zoneInventoryId := zo_zoneInventoryId o;
     zo_x := default (zo_x o) x;
     zo_y := default (zo_y o) y;
     zo_rotation := default (zo_rotation o) rotation |}.

(** PATCH /offices/:officeId/floors/:floorId/zones/:zoneId/objects/:id *)
Definition patch_zone_objects (zoneId id : Z) (x y rotation : option spec_float)
    (s : DB) : response ZoneObject * DB :=
  if decide (x = None ∧ y = None ∧ rotation = None) then
    (ErrorJson 400 "No fields to update", s)
  else
    match
      (let* obj := zoneObject_findUnique id in
       match obj with
       | None => ret (ErrorJson 404 "Object not found")
       | Some obj =>
           if decide (zo_zoneId obj ≠ zoneId) then
             ret (ErrorJson 400 "Object does not belong to this zone")
           else
             let* updated := zoneObject_update id (move_data x y rotation) in
             ret (Json 200 updated)
       end) s
    with
    | (Return r, s') => (r, s')
    | (Throw e, s') => (Next e, s')
    end.

(** DELETE /offices/:officeId/floors/:floorId/zones/:zoneId/objects/:id *)
Definition delete_zone_objects (zoneId id : Z) (s : DB) : response unit * DB :=
  match
    transaction
      (let* obj := zoneObject_findUnique id in
       match obj with
       | None => throw (HttpError 404 "Object not found")
       | Some obj =>
           if decide (zo_zoneId obj ≠ zoneId) then
             throw (HttpError 400 "Object does not belong to this zone")
           else
             let* _ := zoneObject_delete id in
             catch
               (let* _ := zoneInventory_update (zo_zoneInventoryId obj)
                            (λ r, with_quantity (zi_quantity r - 1) r) in
                ret tt)
               (λ e,
                  let* zi := zoneInventory_findUnique (zo_zoneInventoryId obj) in
                  match zi with
                  | Some zi => if decide (zi_quantity zi > 0) then throw e else ret tt
                  | None => ret tt
                  end)
       end) s
  with
  | (Return _, s') => (End 204, s')
  | (Throw e, s') =>
      (status_or e (code_or P2025 404 "Object not found" e (Next e)), s')
  end.

(** ** Derived figures *)

(** The allocations that reference a stock row. *)
Definition allocations_of (floorInventoryId : Z) (s : DB) : gmap Z ZoneInventory :=
  filter (λ kr, zi_floorInventoryId kr.2 = floorInventoryId) (zoneInventory s).

(** Σ quantity over the allocations of a stock row. *)
Definition used (floorInventoryId : Z) (s : DB) : Z :=
  sum_quantity (allocations_of floorInventoryId s).

(** Some allocation row holds the pair [(zoneId, floorInventoryId)]. *)
Definition attached (zoneId floorInventoryId : Z) (s : DB) : Prop :=
  ∃ id r, zoneInventory s !! id = Some r
          ∧ zi_zoneId r = zoneId ∧ zi_floorInventoryId r = floorInventoryId.

(** ** States and figures used in the statements *)

(** The store after a successful allocation. *)
Definition allocated (zoneId f quantity : Z) (s : DB) : DB :=
  {| floorInventory := floorInventory s;
     zoneInventory :=
       <[zoneInventory_id_seq s :=
           {| zi_zoneId := zoneId; zi_floorInventoryId := f;
              zi_quantity := quantity |}]> (zoneInventory s);
     zoneObject := zoneObject s;
     zoneInventory_id_seq := zoneInventory_id_seq s + 1;
     zoneObject_id_seq := zoneObject_id_seq s |}.

(** Σ quantity over the other allocations of the same stock row. *)
Definition usedOthers (f id : Z) (s : DB) : Z :=
  sum_quantity (delete id (allocations_of f s)).

Inductive ledger_op :=
  | Allocate (zoneId floorInventoryId quantity : Z)
  | Reallocate (id quantity : Z)
  | Deallocate (id : Z).

(** The store an operation leaves behind; a refused operation leaves the
    store as it was. *)
Definition ledger_step (zones : gset Z) (op : ledger_op) (s : DB) : DB :=
  match op with
  | Allocate zoneId f quantity =>
      (post_zone_inventory zones zoneId f quantity s).2
  | Reallocate id quantity => (patch_zone_inventory id quantity s).2
  | Deallocate id => (delete_zone_inventory id s).2
  end.

(** The stores after each operation of a sequence, in order. *)
Fixpoint ledger_trace (zones : gset Z) (ops : list ledger_op) (s : DB)
    : list DB :=
  match ops with
  | [] => []
  | op :: ops =>
      ledger_step zones op s :: ledger_trace zones ops (ledger_step zones op s)
  end.

Definition no_overcommit (s : DB) : Prop :=
  map_Forall (λ f fi, used f s ≤ fi_count fi) (floorInventory s).

Definition quantities_nonneg (s : DB) : Prop :=
  map_Forall (λ _ r, 0 ≤ zi_quantity r) (zoneInventory s).

Definition ledger_ok (s : DB) : Prop := quantities_nonneg s ∧ no_overcommit s.

(** The store after a successful placement. *)
Definition placed (zoneId zoneInventoryId : Z) (x y : spec_float)
    (rotation : option spec_float) (zi : ZoneInventory) (s : DB) : DB :=
  {| floorInventory := floorInventory s;
     zoneInventory :=
       <[zoneInventoryId := with_quantity (zi_quantity zi + 1) zi]>
         (zoneInventory s);
     zoneObject :=
       <[zoneObject_id_seq s :=
           {| zo_zoneId := zoneId; zo_zoneInventoryId := zoneInventoryId;
              zo_x := x; zo_y := y; zo_rotation := default zero rotation |}]>
         (zoneObject s);
     zoneInventory_id_seq := zoneInventory_id_seq s;
     zoneObject_id_seq := zoneObject_id_seq s + 1 |}.

(** The usage entry the with-usage route reports for a stock row. *)
Definition usage_of (s : DB) (it : Z * FloorInventory) : usage :=
  {| u_id := it.1;
     u_floorId := fi_floorId it.2;
     u_catalogId := fi_catalogId it.2;
     u_count := fi_count it.2;
     u_used := used it.1 s;
     u_available := Z.max (fi_count it.2 - used it.1 s) 0 |}.

(** Referential integrity, as the foreign keys of the migrations keep it. *)
Definition fk_ok (s : DB) : Prop :=
  map_Forall (λ _ r, is_Some (floorInventory s !! zi_floorInventoryId r))
    (zoneInventory s)
  ∧ map_Forall (λ _ o, is_Some (zoneInventory s !! zo_zoneInventoryId o))
      (zoneObject s).

(** The store after the stock row [id] and everything below it is gone. *)
Definition without_stock (id : Z) (s : DB) : DB :=
  {| floorInventory := delete id (floorInventory s);
     zoneInventory :=
       filter (λ kr, zi_floorInventoryId kr.2 ≠ id) (zoneInventory s);
     zoneObject :=
       filter (λ kr, allocations_of id s !! zo_zoneInventoryId kr.2 = None)
         (zoneObject s);
     zoneInventory_id_seq := zoneInventory_id_seq s;
     zoneObject_id_seq := zoneObject_id_seq s |}.

(** The [Zone] table of the scenarios: zones 1, 2 and 3. *)
Definition three_zones : gset Z := {[1; 2; 3]}.

(** One stock row, id 1: [count] chairs on floor 1; nothing allocated. *)
Definition chair_stock (count : Z) : DB :=
  {| floorInventory :=
       {[ 1 := {| fi_floorId := 1; fi_catalogId := "chair"; fi_count := count |} ]};
     zoneInventory := ∅;
     zoneObject := ∅;
     zoneInventory_id_seq := 1;
     zoneObject_id_seq := 1 |}.

(** Place an object at the origin of zone 1 on allocation 1. *)
Definition place_at_origin (s : DB) : response (Z * ZoneObject) * DB :=
  post_zone_objects 1 1 zero zero None s.

Definition origin_object : ZoneObject :=
  {| zo_zoneId := 1; zo_zoneInventoryId := 1;
     zo_x := zero; zo_y := zero; zo_rotation := zero |}.

(** The quantity held by an allocation row, if the row exists. *)
Definition quantity_of (id : Z) (s : DB) : option Z :=
  zi_quantity <$> zoneInventory s !! id.

(** The store after [n] placements at the origin. *)
Definition place_times (n : nat) (s : DB) : DB :=
  Nat.iter n (λ s, (place_at_origin s).2) s.

(** Scenario C: stock 1 (count 5) with an allocation in zone 1 and one in
    zone 2, and an object placed on each. *)
Definition scenario_C : DB :=
  (post_zone_objects 2 2 zero zero None
     (post_zone_objects 1 1 zero zero None
        (allocated 2 1 1 (allocated 1 1 2 (chair_stock 5)))).2).2.

(** ** Requests and figures of the whole inventory *)

(** A response that reports a failure. *)
Definition refused {A} (r : response A) : Prop :=
  match r with
  | ErrorJson _ _ | Next _ => True
  | Json _ _ | End _ => False
  end.

(** The placement routes. *)
Inductive placement_op :=
  | Place (zoneId zoneInventoryId : Z) (x y : spec_float)
      (rotation : option spec_float)
  | Move (zoneId id : Z) (x y rotation : option spec_float)
  | Remove (zoneId id : Z).

Definition placement_step (op : placement_op) (s : DB) : DB :=
  match op with
  | Place zoneId zoneInventoryId x y rotation =>
      (post_zone_objects zoneId zoneInventoryId x y rotation s).2
  | Move zoneId id x y rotation => (patch_zone_objects zoneId id x y rotation s).2
  | Remove zoneId id => (delete_zone_objects zoneId id s).2
  end.

(** Every writing route of the inventory. *)
Inductive request :=
  | Ledger (op : ledger_op)
  | Placement (op : placement_op)
  | UpdateCount (id : Z) (count : option Z)
  | DeleteStock (id : Z).

Definition step (zones : gset Z) (r : request) (s : DB) : DB :=
  match r with
  | Ledger op => ledger_step zones op s
  | Placement op => placement_step op s
  | UpdateCount id count => (patch_floor_inventory id count s).2
  | DeleteStock id => (delete_floor_inventory id s).2
  end.

(** The placement rows of an allocation, and their number. *)
Definition placements_of (zoneInventoryId : Z) (s : DB) : gmap Z ZoneObject :=
  filter (λ kr, zo_zoneInventoryId kr.2 = zoneInventoryId) (zoneObject s).

(** Quantity of an allocation minus the number of its placement rows. *)
Definition slack (zoneInventoryId : Z) (s : DB) : option Z :=
  (λ q, q - Z.of_nat (size (placements_of zoneInventoryId s)))
    <$> quantity_of zoneInventoryId s.

(** The id sequences are ahead of every id in use. *)
Definition seq_ok (s : DB) : Prop :=
  map_Forall (λ id _, id < zoneInventory_id_seq s) (zoneInventory s)
  ∧ map_Forall (λ id _, id < zoneObject_id_seq s) (zoneObject s).

(** The unique index on [(zoneId, floorInventoryId)]. *)
Definition unique_pairs (s : DB) : Prop :=
  ∀ i j ri rj,
    zoneInventory s !! i = Some ri → zoneInventory s !! j = Some rj →
    zi_zoneId ri = zi_zoneId rj →
    zi_floorInventoryId ri = zi_floorInventoryId rj → i = j.

(** No stock row has a negative count. *)
Definition counts_nonneg (s : DB) : Prop :=
  map_Forall (λ _ fi, 0 ≤ fi_count fi) (floorInventory s).

(** What a request can do to the store: nothing, or one of the writes of
    the routes. *)
Inductive effect (s : DB) : DB → Prop :=
  | effect_none : effect s s
  | effect_allocate zoneId f quantity fi :
      floorInventory s !! f = Some fi →
      zoneInventory s !! zoneInventory_id_seq s = None →
      ¬ attached zoneId f s →
      effect s (allocated zoneId f quantity s)
  | effect_quantity id quantity row :
      zoneInventory s !! id = Some row →
      effect s (set_zoneInventory
                  (<[id := with_quantity quantity row]> (zoneInventory s)) s)
  | effect_drop gone :
      gone ⊆ zoneInventory s →
      effect s (zoneInventory_drop gone s)
  | effect_place zoneId zoneInventoryId x y rotation zi :
      zoneInventory s !! zoneInventoryId = Some zi →
      zoneObject s !! zoneObject_id_seq s = None →
      effect s (placed zoneId zoneInventoryId x y rotation zi s)
  | effect_move id obj x y rotation :
      zoneObject s !! id = Some obj →
      effect s (set_zoneObject
                  (<[id := move_data x y rotation obj]> (zoneObject s)) s)
  | effect_remove id obj :
      zoneObject s !! id = Some obj →
      effect s (set_zoneObject (delete id (zoneObject s)) s)
  | effect_remove_decrement id obj zi :
      zoneObject s !! id = Some obj →
      zoneInventory s !! zo_zoneInventoryId obj = Some zi →
      effect s (set_zoneInventory
                  (<[zo_zoneInventoryId obj :=
                       with_quantity (zi_quantity zi - 1) zi]>
                     (zoneInventory s))
                  (set_zoneObject (delete id (zoneObject s)) s))
  | effect_count id count fi :
      floorInventory s !! id = Some fi →
      0 ≤ count →
      effect s (set_floorInventory
                  (<[id := with_count count fi]> (floorInventory s)) s)
  | effect_delete_stock id fi :
      floorInventory s !! id = Some fi →
      effect s (without_stock id s).

(** ** Offices, floors, layers and zones

    The rest of the store and its routes.  The tables are those of the
    migrations, every foreign key among them ON DELETE CASCADE; the
    inventory tables hang below floors and zones.  Uploaded files, the
    clock and the token check are outside the model: an upload route takes
    the file that the upload middleware wrote before the handler ran as
    its path below the upload root, and the file stays whatever the
    handler answers; answers carry no [updatedAt]; and a request carries
    what the token check made of its Authorization header.  Strings that a
    route trims come in as the route's [trim()] of them.  As in the
    inventory, requests run one at a time, a refused insert and a
    rolled-back transaction leave the id sequences where they were, and
    the JSON numbers of the coordinates are kept as they are sent, while
    the client rounds what it stores: the statements speak of the tables
    and of the number of coordinates, not of their digits. *)

Module Plan.

Inductive LayerType := firesafe | custom.
Inductive ZoneStatus := free | occupied.

#[global] Instance LayerType_eq_dec : EqDecision LayerType.
Proof. solve_decision. Defined.
#[global] Instance ZoneStatus_eq_dec : EqDecision ZoneStatus.
Proof. solve_decision. Defined.

(** JSON values, for the coordinates of a zone. *)
#[local] Unset Elimination Schemes.
Inductive json :=
  | JNull
  | JBool (b : bool)
  | JNumber (x : spec_float)
  | JString (s : string)
  | JArray (l : list json)
  | JObject (l : list (string * json)).
#[local] Set Elimination Schemes.

Record Office := {
  of_name : string;
  of_address : string;
  of_city : string;
  of_country : string }.

Record Floor := {
  fl_number : Z;
  fl_officeId : Z;
  fl_planImageUrl : option string;
  fl_firesafeImageUrl : option string }.

Record Layer := {
  la_name : string;
  la_floorId : Z;
  la_type : LayerType }.

Record Zone := {
  zn_name : string;
  zn_description : string;
  zn_status : ZoneStatus;
  zn_coordinates : list json;
  zn_layerId : Z;
  zn_floorId : Z }.

Record Site := {
  office : gmap Z Office;
  floor : gmap Z Floor;
  layer : gmap Z Layer;
  zone : gmap Z Zone;
  office_id_seq : Z;
  floor_id_seq : Z;
  layer_id_seq : Z;
  zone_id_seq : Z;
  inventory : DB }.

Definition set_office (t : gmap Z Office) (s : Site) : Site :=
  {| office := t; floor := floor s; layer := layer s; zone := zone s;
     office_id_seq := office_id_seq s; floor_id_seq := floor_id_seq s;
     layer_id_seq := layer_id_seq s; zone_id_seq := zone_id_seq s;
     inventory := inventory s |}.

Definition set_floor (t : gmap Z Floor) (s : Site) : Site :=
  {| office := office s; floor := t; layer := layer s; zone := zone s;
     office_id_seq := office_id_seq s; floor_id_seq := floor_id_seq s;
     layer_id_seq := layer_id_seq s; zone_id_seq := zone_id_seq s;
     inventory := inventory s |}.

Definition set_layer (t : gmap Z Layer) (s : Site) : Site :=
  {| office := office s; floor := floor s; layer := t; zone := zone s;
     office_id_seq := office_id_seq s; floor_id_seq := floor_id_seq s;
     layer_id_seq := layer_id_seq s; zone_id_seq := zone_id_seq s;
     inventory := inventory s |}.

Definition set_zone (t : gmap Z Zone) (s : Site) : Site :=
  {| office := office s; floor := floor s; layer := layer s; zone := t;
     office_id_seq := office_id_seq s; floor_id_seq := floor_id_seq s;
     layer_id_seq := layer_id_seq s; zone_id_seq := zone_id_seq s;
     inventory := inventory s |}.

Definition set_inventory (d : DB) (s : Site) : Site :=
  {| office := office s; floor := floor s; layer := layer s; zone := zone s;
     office_id_seq := office_id_seq s; floor_id_seq := floor_id_seq s;
     layer_id_seq := layer_id_seq s; zone_id_seq := zone_id_seq s;
     inventory := d |}.

(** *** The request monad over the whole store *)

Definition P (A : Type) : Type := Site → outcome A * Site.

Definition ret {A} (a : A) : P A := λ s, (Return a, s).
Definition throw {A} (e : exn) : P A := λ s, (Throw e, s).

Definition bind {A B} (m : P A) (k : A → P B) : P B := λ s,
  match m s with
  | (Return a, s') => k a s'
  | (Throw e, s') => (Throw e, s')
  end.

Notation "'let!' x ':=' m 'in' k" := (bind m (λ x, k))
  (at level 10, x name, m at level 100, k at level 200).

Definition catch {A} (m : P A) (h : exn → P A) : P A := λ s,
  match m s with
  | (Return a, s') => (Return a, s')
  | (Throw e, s') => h e s'
  end.

Definition transaction {A} (m : P A) : P A := λ s,
  match m s with
  | (Return a, s') => (Return a, s')
  | (Throw e, _) => (Throw e, s)
  end.

(** *** Cascading deletes *)

(** Stock rows go with their allocations and the objects placed on
    them. *)
Definition floorInventory_drop (gone : gmap Z FloorInventory) (d : DB) : DB :=
  zoneInventory_drop
    (filter (λ kr, is_Some (gone !! zi_floorInventoryId kr.2)) (zoneInventory d))
    (set_floorInventory (floorInventory d ∖ gone) d).

(** Zones go with their allocations and their objects. *)
Definition drop_zones (gone : gmap Z Zone) (s : Site) : Site :=
  let d := zoneInventory_drop
             (filter (λ kr, is_Some (gone !! zi_zoneId kr.2))
                (zoneInventory (inventory s)))
             (inventory s) in
  set_inventory
    (set_zoneObject
       (filter (λ kr, gone !! zo_zoneId kr.2 = None) (zoneObject d)) d)
    (set_zone (zone s ∖ gone) s).

(** Layers go with their zones. *)
Definition drop_layers (gone : gmap Z Layer) (s : Site) : Site :=
  set_layer (layer s ∖ gone)
    (drop_zones (filter (λ kr, is_Some (gone !! zn_layerId kr.2)) (zone s)) s).

(** Floors go with their layers, their zones and their stock. *)
Definition drop_floors (gone : gmap Z Floor) (s : Site) : Site :=
  let s1 := drop_layers
              (filter (λ kr, is_Some (gone !! la_floorId kr.2)) (layer s)) s in
  let s2 := drop_zones
              (filter (λ kr, is_Some (gone !! zn_floorId kr.2)) (zone s1)) s1 in
  set_floor (floor s ∖ gone)
    (set_inventory
       (floorInventory_drop
          (filter (λ kr, is_Some (gone !! fi_floorId kr.2))
             (floorInventory (inventory s2)))
          (inventory s2))
       s2).

(** Offices go with their floors. *)
Definition drop_offices (gone : gmap Z Office) (s : Site) : Site :=
  set_office (office s ∖ gone)
    (drop_floors (filter (λ kr, is_Some (gone !! fl_officeId kr.2)) (floor s)) s).

(** *** The Prisma client *)

Definition office_create (data : Office) : P (Z * Office) := λ s,
  let id := office_id_seq s in
  if decide (is_Some (office s !! id)) then (Throw (PrismaError P2002), s)
  else
    (Return (id, data),
     {| office := <[id := data]> (office s); floor := floor s;
        layer := layer s; zone := zone s;
        office_id_seq := id + 1; floor_id_seq := floor_id_seq s;
        layer_id_seq := layer_id_seq s; zone_id_seq := zone_id_seq s;
        inventory := inventory s |}).

Definition office_update (id : Z) (data : Office → Office) : P Office := λ s,
  match office s !! id with
  | None => (Throw (PrismaError P2025), s)
  | Some r => (Return (data r), set_office (<[id := data r]> (office s)) s)
  end.

Definition office_delete (id : Z) : P Office := λ s,
  match office s !! id with
  | None => (Throw (PrismaError P2025), s)
  | Some r => (Return r, drop_offices {[id := r]} s)
  end.

(** [prisma.floor.count({ where: { officeId } })] *)
Definition floor_count (officeId : Z) : P nat := λ s,
  (Return (size (filter (λ kr, fl_officeId kr.2 = officeId) (floor s))), s).

(** [findFirst({ where: { id, officeId } })] *)
Definition floor_findFirst (id officeId : Z) : P (option Floor) := λ s,
  (Return (match floor s !! id with
           | Some r => if decide (fl_officeId r = officeId) then Some r else None
           | None => None
           end), s).

Definition floor_findUnique (id : Z) : P (option Floor) := λ s,
  (Return (floor s !! id), s).

(** The insert is refused on a primary key collision or a second floor
    with the same number in the office (P2002) and on a missing office
    (P2003). *)
Definition floor_create (officeId number : Z) : P (Z * Floor) := λ s,
  let id := floor_id_seq s in
  let data := {| fl_number := number; fl_officeId := officeId;
                 fl_planImageUrl := None; fl_firesafeImageUrl := None |} in
  if decide (is_Some (floor s !! id)) then (Throw (PrismaError P2002), s)
  else if decide (filter (λ kr, fl_officeId kr.2 = officeId
                               ∧ fl_number kr.2 = number) (floor s) = ∅) then
    match office s !! officeId with
    | None => (Throw (PrismaError P2003), s)
    | Some _ =>
        (Return (id, data),
         {| office := office s; floor := <[id := data]> (floor s);
            layer := layer s; zone := zone s;
            office_id_seq := office_id_seq s; floor_id_seq := id + 1;
            layer_id_seq := layer_id_seq s; zone_id_seq := zone_id_seq s;
            inventory := inventory s |})
    end
  else (Throw (PrismaError P2002), s).

Definition floor_update (id : Z) (data : Floor → Floor) : P Floor := λ s,
  match floor s !! id with
  | None => (Throw (PrismaError P2025), s)
  | Some r => (Return (data r), set_floor (<[id := data r]> (floor s)) s)
  end.

Definition floor_delete (id : Z) : P Floor := λ s,
  match floor s !! id with
  | None => (Throw (PrismaError P2025), s)
  | Some r => (Return r, drop_floors {[id := r]} s)
  end.

(** [findFirst({ where: { id, floorId } })] *)
Definition layer_findFirst (id floorId : Z) : P (option Layer) := λ s,
  (Return (match layer s !! id with
           | Some r => if decide (la_floorId r = floorId) then Some r else None
           | None => None
           end), s).

Definition layer_findUnique (id : Z) : P (option Layer) := λ s,
  (Return (layer s !! id), s).

Definition layer_create (data : Layer) : P (Z * Layer) := λ s,
  let id := layer_id_seq s in
  if decide (is_Some (layer s !! id)) then (Throw (PrismaError P2002), s)
  else
    match floor s !! la_floorId data with
    | None => (Throw (PrismaError P2003), s)
    | Some _ =>
        (Return (id, data),
         {| office := office s; floor := floor s;
            layer := <[id := data]> (layer s); zone := zone s;
            office_id_seq := office_id_seq s; floor_id_seq := floor_id_seq s;
            layer_id_seq := id + 1; zone_id_seq := zone_id_seq s;
            inventory := inventory s |})
    end.

Definition layer_delete (id : Z) : P Layer := λ s,
  match layer s !! id with
  | None => (Throw (PrismaError P2025), s)
  | Some r => (Return r, drop_layers {[id := r]} s)
  end.

Definition layer_deleteMany (Q : Z * Layer → Prop) `{!∀ kr, Decision (Q kr)}
    : P nat :=
  λ s, let gone := filter Q (layer s) in (Return (size gone), drop_layers gone s).

(** [findFirst({ where: { id, layerId } })] *)
Definition zone_findFirst (id layerId : Z) : P (option Zone) := λ s,
  (Return (match zone s !! id with
           | Some r => if decide (zn_layerId r = layerId) then Some r else None
           | None => None
           end), s).

(** [findMany({ where, select: { id: true } })] *)
Definition zone_findMany_ids (Q : Z * Zone → Prop) `{!∀ kr, Decision (Q kr)}
    : P (list Z) :=
  λ s, (Return ((map_to_list (filter Q (zone s))).*1), s).

Definition zone_create (data : Zone) : P (Z * Zone) := λ s,
  let id := zone_id_seq s in
  if decide (is_Some (zone s !! id)) then (Throw (PrismaError P2002), s)
  else
    match layer s !! zn_layerId data, floor s !! zn_floorId data with
    | Some _, Some _ =>
        (Return (id, data),
         {| office := office s; floor := floor s; layer := layer s;
            zone := <[id := data]> (zone s);
            office_id_seq := office_id_seq s; floor_id_seq := floor_id_seq s;
            layer_id_seq := layer_id_seq s; zone_id_seq := id + 1;
            inventory := inventory s |})
    | _, _ => (Throw (PrismaError P2003), s)
    end.

Definition zone_update (id : Z) (data : Zone → Zone) : P Zone := λ s,
  match zone s !! id with
  | None => (Throw (PrismaError P2025), s)
  | Some r => (Return (data r), set_zone (<[id := data r]> (zone s)) s)
  end.

Definition zone_deleteMany (Q : Z * Zone → Prop) `{!∀ kr, Decision (Q kr)}
    : P nat :=
  λ s, let gone := filter Q (zone s) in (Return (size gone), drop_zones gone s).

(** The inventory calls of the floor deletion fallback. *)
Definition zoneObject_deleteMany (Q : Z * ZoneObject → Prop)
    `{!∀ kr, Decision (Q kr)} : P nat :=
  λ s,
  let gone := filter Q (zoneObject (inventory s)) in
  (Return (size gone),
   set_inventory
     (set_zoneObject (zoneObject (inventory s) ∖ gone) (inventory s)) s).

Definition zoneInventory_deleteMany (Q : Z * ZoneInventory → Prop)
    `{!∀ kr, Decision (Q kr)} : P nat :=
  λ s,
  let gone := filter Q (zoneInventory (inventory s)) in
  (Return (size gone),
   set_inventory (zoneInventory_drop gone (inventory s)) s).

Definition floorInventory_deleteMany (Q : Z * FloorInventory → Prop)
    `{!∀ kr, Decision (Q kr)} : P nat :=
  λ s,
  let gone := filter Q (floorInventory (inventory s)) in
  (Return (size gone),
   set_inventory (floorInventory_drop gone (inventory s)) s).

(** *** Middleware *)

(** What the token check makes of the Authorization header: no bearer
    token, a token that does not verify, or the role in the payload of a
    verified one. *)
Inductive authorization :=
  | NoBearer
  | BadToken
  | Verified (role : string).

Definition authRequired {A} (auth : authorization)
    (next : Site → response A * Site) (s : Site) : response A * Site :=
  match auth with
  | NoBearer => (ErrorJson 401 "Missing Bearer token", s)
  | BadToken => (ErrorJson 401 "Invalid or expired token", s)
  | Verified _ => next s
  end.

Definition requireRole {A} (roles : list string) (auth : authorization)
    (next : Site → response A * Site) (s : Site) : response A * Site :=
  match auth with
  | Verified role =>
      if decide (role ∈ roles) then next s else (ErrorJson 403 "Forbidden", s)
  | _ => (ErrorJson 401 "Unauthorized", s)
  end.

Definition admins : list string := ["WORKSPACE_ADMIN"; "PROJECT_ADMIN"].

(** *** Floor routes *)

(** The handler of POST /offices/:officeId/floors *)
Definition post_floors (officeId floorNumber : Z) (s : Site)
    : response Z * Site :=
  match
    catch
      (let! floor :=
         transaction
           (let! floor := floor_create officeId floorNumber in
            let! _ := layer_create
                        {| la_name := "Пожарный план";
                           la_floorId := floor.1;
                           la_type := firesafe |} in
            ret floor) in
       ret (Some floor.1))
      (λ e, match e with
            | PrismaError P2002 => ret None
            | _ => throw e
            end) s
  with
  | (Return None, s') => (ErrorJson 409 "Floor number already exists", s')
  | (Return (Some floorId), s') => (Json 201 floorId, s')
  | (Throw e, s') => (Next e, s')
  end.

(** The handler of DELETE /offices/:officeId/floors/:floorId; the removal
    of the upload directory is outside the model. *)
Definition delete_floor (officeId floorId : Z) (s : Site)
    : response unit * Site :=
  match
    (let! floor := floor_findFirst floorId officeId in
     match floor with
     | None => ret (ErrorJson 404 "Floor not found")
     | Some _ =>
         let! _ :=
           catch
             (let! _ := floor_delete floorId in ret tt)
             (λ _,
                transaction
                  (let! zoneIds :=
                     zone_findMany_ids (λ kr, zn_floorId kr.2 = floorId) in
                   let! _ :=
                     if decide (zoneIds = []) then ret tt
                     else
                       let! _ := zoneObject_deleteMany
                                   (λ kr, zo_zoneId kr.2 ∈ zoneIds) in
                       let! _ := zoneInventory_deleteMany
                                   (λ kr, zi_zoneId kr.2 ∈ zoneIds) in
                       ret tt in
                   let! _ := zone_deleteMany (λ kr, zn_floorId kr.2 = floorId) in
                   let! _ := floorInventory_deleteMany
                               (λ kr, fi_floorId kr.2 = floorId) in
                   let! _ := layer_deleteMany (λ kr, la_floorId kr.2 = floorId) in
                   let! _ := floor_delete floorId in
                   ret tt)) in
         ret (End 204)
     end) s
  with
  | (Return r, s') => (r, s')
  | (Throw e, s') => (code_or P2025 404 "Floor not found" e (Next e), s')
  end.

Definition route_delete_floor (auth : authorization) (officeId floorId : Z)
    : Site → response unit * Site :=
  authRequired auth (requireRole admins auth (delete_floor officeId floorId)).

(** [toPublicUrl], of the path of the stored file below the upload
    root. *)
Definition toPublicUrl (rel : string) : string := "/uploads/" +:+ rel.

Definition with_planImageUrl (url : string) (f : Floor) : Floor :=
  {| fl_number := fl_number f; fl_officeId := fl_officeId f;
     fl_planImageUrl := Some url;
     fl_firesafeImageUrl := fl_firesafeImageUrl f |}.

Definition with_firesafeImageUrl (url : string) (f : Floor) : Floor :=
  {| fl_number := fl_number f; fl_officeId := fl_officeId f;
     fl_planImageUrl := fl_planImageUrl f;
     fl_firesafeImageUrl := Some url |}.

(** POST /offices/:officeId/floors/:floorId/plan-image; [file] is
    [req.file]. *)
Definition post_plan_image (floorId : Z) (file : option string) (s : Site)
    : response string * Site :=
  match file with
  | None => (ErrorJson 400 "image is required", s)
  | Some rel =>
      let imageUrl := toPublicUrl rel in
      match floor_update floorId (with_planImageUrl imageUrl) s with
      | (Return _, s') => (Json 200 imageUrl, s')
      | (Throw e, s') => (Next e, s')
      end
  end.

(** [!url]: null and the empty string count as not set. *)
Definition not_set (url : option string) : bool :=
  match url with
  | None => true
  | Some u => bool_decide (u = "")
  end.

(** GET /offices/:officeId/floors/:floorId/plan-image *)
Definition get_plan_image (floorId : Z) (s : Site)
    : response (option string) * Site :=
  match floor_findUnique floorId s with
  | (Return None, s') => (ErrorJson 404 "Floor not found", s')
  | (Return (Some f), s') =>
      if not_set (fl_planImageUrl f) then
        (ErrorJson 404 "Plan image not set", s')
      else (Json 200 (fl_planImageUrl f), s')
  | (Throw e, s') => (Next e, s')
  end.

(** POST /offices/:officeId/floors/:floorId/firesafe-image *)
Definition post_firesafe_image (floorId : Z) (file : option string) (s : Site)
    : response string * Site :=
  match file with
  | None => (ErrorJson 400 "image is required", s)
  | Some rel =>
      let imageUrl := toPublicUrl rel in
      match floor_update floorId (with_firesafeImageUrl imageUrl) s with
      | (Return _, s') => (Json 200 imageUrl, s')
      | (Throw e, s') => (Next e, s')
      end
  end.

(** GET /offices/:officeId/floors/:floorId/firesafe-image *)
Definition get_firesafe_image (floorId : Z) (s : Site)
    : response (option string) * Site :=
  match floor_findUnique floorId s with
  | (Return None, s') => (ErrorJson 404 "Floor not found", s')
  | (Return (Some f), s') =>
      if not_set (fl_firesafeImageUrl f) then
        (ErrorJson 404 "FireSafe image not set", s')
      else (Json 200 (fl_firesafeImageUrl f), s')
  | (Throw e, s') => (Next e, s')
  end.

(** *** Layer routes *)

(** POST /offices/:officeId/floors/:floorId/layers; [name] is
    [name?.trim()]. *)
Definition post_layers (floorId : Z) (name : option string) (s : Site)
    : response (Z * string) * Site :=
  match name with
  | None => (ErrorJson 400 "name required", s)
  | Some name =>
      if decide (name = "") then (ErrorJson 400 "name required", s)
      else
        match layer_create {| la_name := name; la_floorId := floorId;
                              la_type := custom |} s with
        | (Return layer, s') => (Json 201 (layer.1, la_name layer.2), s')
        | (Throw e, s') => (Next e, s')
        end
  end.

(** DELETE /offices/:officeId/floors/:floorId/layers/:layerId *)
Definition delete_layer (floorId layerId : Z) (s : Site)
    : response unit * Site :=
  match
    (let! layer := layer_findFirst layerId floorId in
     match layer with
     | None => ret (ErrorJson 404 "Layer not found")
     | Some layer =>
         if decide (la_type layer = firesafe) then
           ret (ErrorJson 400 "Cannot delete firesafe layer")
         else
           let! _ := layer_delete layerId in
           ret (End 204)
     end) s
  with
  | (Return r, s') => (r, s')
  | (Throw e, s') => (Next e, s')
  end.

(** *** Zone routes *)

(** [["free", "occupied"].includes(status)] *)
Definition parse_status (status : string) : option ZoneStatus :=
  if decide (status = "free") then Some free
  else if decide (status = "occupied") then Some occupied
  else None.

(** POST /offices/:officeId/floors/:floorId/layers/:layerId/zones.  The
    body fields with their defaults: [name] and [description] are strings,
    [status] is absent or a string, [coordinates] is [None] when it is not
    an array. *)
Definition post_zones (layerId : Z) (name description : string)
    (status : option string) (coordinates : option (list json)) (s : Site)
    : response (Z * list json) * Site :=
  match coordinates with
  | None =>
      (ErrorJson 400 "coordinates must be [x1,y1,] with >= 3 points", s)
  | Some coordinates =>
      if decide (length coordinates < 6)%nat then
        (ErrorJson 400 "coordinates must be [x1,y1,] with >= 3 points", s)
      else
        match parse_status (default "free" status) with
        | None => (ErrorJson 400 "status must be 'free' or 'occupied'", s)
        | Some status =>
            match
              (let! layer := layer_findUnique layerId in
               match layer with
               | None => ret (ErrorJson 404 "Layer not found")
               | Some layer =>
                   if decide (la_type layer ≠ custom) then
                     ret (ErrorJson 400 "Zones allowed only for custom layers")
                   else
                     let! z := zone_create
                                 {| zn_name := name;
                                    zn_description := description;
                                    zn_status := status;
                                    zn_coordinates := coordinates;
                                    zn_layerId := layerId;
                                    zn_floorId := la_floorId layer |} in
                     ret (Json 201 (z.1, coordinates))
               end) s
            with
            | (Return r, s') => (r, s')
            | (Throw e, s') => (Next e, s')
            end
        end
  end.

(** The [data] object of the zone update: only the supplied fields. *)
Definition zone_data (name description : option string)
    (status : option ZoneStatus) (coordinates : option (list json)) (z : Zone)
    : Zone :=
  {| zn_name := default (zn_name z) name;
     zn_description := default (zn_description z) description;
     zn_status := default (zn_status z) status;
     zn_coordinates := default (zn_coordinates z) coordinates;
     zn_layerId := zn_layerId z;
     zn_floorId := zn_floorId z |}.

(** PATCH /offices/:officeId/floors/:floorId/layers/:layerId/zones/:zoneId.
    A field is [None] when the body does not hold it with the type the
    route looks for. *)
Definition patch_zone (layerId zoneId : Z) (name description status : option string)
    (coordinates : option (list json)) (s : Site) : response Z * Site :=
  match
    (let! zone := zone_findFirst zoneId layerId in
     match zone with
     | None => ret (ErrorJson 404 "Zone not found")
     | Some _ =>
         match status, mjoin (parse_status <$> status) with
         | Some _, None =>
             ret (ErrorJson 400 "status must be 'free' or 'occupied'")
         | _, parsed =>
             if match coordinates with
                | Some c => bool_decide (length c < 6)%nat
                | None => false
                end
             then ret (ErrorJson 400 "coordinates must have >= 3 points")
             else
               match name, description, parsed, coordinates with
               | None, None, None, None =>
                   ret (ErrorJson 400 "No fields to update")
               | _, _, _, _ =>
                   let! _ := zone_update zoneId
                               (zone_data name description parsed coordinates) in
                   ret (Json 200 zoneId)
               end
         end
     end) s
  with
  | (Return r, s') => (r, s')
  | (Throw e, s') => (Next e, s')
  end.

(** DELETE /offices/:officeId/floors/:floorId/layers/:layerId/zones/:zoneId *)
Definition delete_zone (layerId zoneId : Z) (s : Site) : response unit * Site :=
  match
    zone_deleteMany (λ kr, kr.1 = zoneId ∧ zn_layerId kr.2 = layerId) s
  with
  | (Return count, s') =>
      if decide (count = 0%nat) then (ErrorJson 404 "Zone not found", s')
      else (End 204, s')
  | (Throw e, s') => (Next e, s')
  end.

(** *** Office routes *)

(** The handler of POST /offices.  A field is [None] when it is not a
    string and its [trim()] otherwise. *)
Definition post_offices (name address city country : option string) (s : Site)
    : response Z * Site :=
  match name, address, city, country with
  | Some name, Some address, Some city, Some country =>
      if decide (name = "" ∨ address = "" ∨ city = "" ∨ country = "") then
        (ErrorJson 400 "name,address,city,country are required", s)
      else
        match office_create {| of_name := name; of_address := address;
                               of_city := city; of_country := country |} s with
        | (Return created, s') => (Json 201 created.1, s')
        | (Throw e, s') => (Next e, s')
        end
  | _, _, _, _ =>
      (ErrorJson 400 "name,address,city,country are required", s)
  end.

Definition office_data (name address city country : option string) (o : Office)
    : Office :=
  {| of_name := default (of_name o) name;
     of_address := default (of_address o) address;
     of_city := default (of_city o) city;
     of_country := default (of_country o) country |}.

(** The handler of PUT /offices/:id *)
Definition put_office (id : Z) (name address city country : option string)
    (s : Site) : response unit * Site :=
  if decide (name = None ∧ address = None ∧ city = None ∧ country = None) then
    (ErrorJson 400 "No fields to update", s)
  else
    match office_update id (office_data name address city country) s with
    | (Return _, s') => (Json 200 tt, s')
    | (Throw e, s') =>
        (code_or P2025 404 "Office not found" e (Next e), s')
    end.

(** The handler of DELETE /offices/:id *)
Definition delete_office (id : Z) (s : Site) : response unit * Site :=
  match
    (let! floorsCount := floor_count id in
     if decide (0 < floorsCount)%nat then
       ret (ErrorJson 409 "Office has floors, delete them first")
     else
       let! _ := office_delete id in
       ret (End 204)) s
  with
  | (Return r, s') => (r, s')
  | (Throw e, s') =>
      (code_or P2025 404 "Office not found" e (Next e), s')
  end.

Definition route_post_offices (auth : authorization)
    (name address city country : option string)
    : Site → response Z * Site :=
  authRequired auth
    (requireRole admins auth (post_offices name address city country)).

Definition route_put_office (auth : authorization) (id : Z)
    (name address city country : option string)
    : Site → response unit * Site :=
  authRequired auth
    (requireRole admins auth (put_office id name address city country)).

Definition route_delete_office (auth : authorization) (id : Z)
    : Site → response unit * Site :=
  authRequired auth (requireRole admins auth (delete_office id)).

(** *** Reading a layer *)

(** What a zone shows in the answer of a layer. *)
Record ZoneView := {
  zv_name : string;
  zv_description : string;
  zv_status : ZoneStatus;
  zv_coordinates : list json;
}.

Definition zone_view (z : Zone) : ZoneView :=
  {| zv_name := zn_name z; zv_description := zn_description z;
     zv_status := zn_status z; zv_coordinates := zn_coordinates z |}.

(** [zone.findMany({ where: { layerId }, select })], by id. *)
Definition zones_of (layerId : Z) (s : Site) : gmap Z ZoneView :=
  zone_view <$> filter (λ kr, zn_layerId kr.2 = layerId) (zone s).

Inductive LayerView :=
  | FiresafeView (id : Z) (name : string) (imageUrl : option string)
  | ZonesView (id : Z) (name : string) (type : LayerType)
      (zones : gmap Z ZoneView).

(** GET /offices/:officeId/floors/:floorId/layers/:layerId.  The zones of
    the answer are keyed by their id.  [layer.floor] is the floor row of
    the layer; the foreign key rules out a layer without one, and reading
    the image of a missing one goes to [next]. *)
Definition get_layer (floorId layerId : Z) (s : Site)
    : response LayerView * Site :=
  match layer_findFirst layerId floorId s with
  | (Return None, s') => (ErrorJson 404 "Layer not found", s')
  | (Return (Some layer), s') =>
      if decide (la_type layer = firesafe) then
        match floor s' !! la_floorId layer with
        | Some f =>
            (Json 200 (FiresafeView layerId (la_name layer)
                         (fl_firesafeImageUrl f)), s')
        | None => (Next TypeError, s')
        end
      else
        (Json 200 (ZonesView layerId (la_name layer) (la_type layer)
                     (zones_of layerId s')), s')
  | (Throw e, s') => (Next e, s')
  end.

(** *** Users *)

(** [Math.min(Math.max(parseInt(limit, 10) || 50, 1), 200)] and
    [Math.max(parseInt(offset, 10) || 0, 0)], of what [parseInt] returns:
    [None] for NaN. *)
Definition or_default (parsed : option Z) (d : Z) : Z :=
  match parsed with
  | Some n => if decide (n = 0) then d else n
  | None => d
  end.

Definition take (limit : option Z) : Z :=
  Z.min (Z.max (or_default limit 50) 1) 200.

Definition skip (offset : option Z) : Z :=
  Z.max (or_default offset 0) 0.

(** The role a registration ends up with; [role] is [None] when the body
    holds no string there. *)
Definition finalRole (usersCount : nat) (role : option string) : string :=
  if decide (usersCount = 0%nat) then "PROJECT_ADMIN"
  else
    match role with
    | Some role =>
        if decide (role ∈ ["USER"; "WORKSPACE_ADMIN"; "PROJECT_ADMIN"])
        then role else "USER"
    | None => "USER"
    end.

End Plan.

(** ** Requests and invariants of the plan *)

(** The writing routes of offices, floors, layers and zones. *)
Inductive plan_request :=
  | PostOffice (auth : Plan.authorization)
      (name address city country : option string)
  | PutOffice (auth : Plan.authorization) (id : Z)
      (name address city country : option string)
  | DeleteOffice (auth : Plan.authorization) (id : Z)
  | PostFloor (officeId floorNumber : Z)
  | DeleteFloor (auth : Plan.authorization) (officeId floorId : Z)
  | PostPlanImage (floorId : Z) (file : option string)
  | PostFiresafeImage (floorId : Z) (file : option string)
  | PostLayer (floorId : Z) (name : option string)
  | DeleteLayer (floorId layerId : Z)
  | PostZone (layerId : Z) (name description : string)
      (status : option string) (coordinates : option (list Plan.json))
  | PatchZone (layerId zoneId : Z) (name description status : option string)
      (coordinates : option (list Plan.json))
  | DeleteZone (layerId zoneId : Z).

Definition plan_step (r : plan_request) (s : Plan.Site) : Plan.Site :=
  match r with
  | PostOffice auth name address city country =>
      (Plan.route_post_offices auth name address city country s).2
  | PutOffice auth id name address city country =>
      (Plan.route_put_office auth id name address city country s).2
  | DeleteOffice auth id => (Plan.route_delete_office auth id s).2
  | PostFloor officeId floorNumber => (Plan.post_floors officeId floorNumber s).2
  | DeleteFloor auth officeId floorId =>
      (Plan.route_delete_floor auth officeId floorId s).2
  | PostPlanImage floorId file => (Plan.post_plan_image floorId file s).2
  | PostFiresafeImage floorId file =>
      (Plan.post_firesafe_image floorId file s).2
  | PostLayer floorId name => (Plan.post_layers floorId name s).2
  | DeleteLayer floorId layerId => (Plan.delete_layer floorId layerId s).2
  | PostZone layerId name description status coordinates =>
      (Plan.post_zones layerId name description status coordinates s).2
  | PatchZone layerId zoneId name description status coordinates =>
      (Plan.patch_zone layerId zoneId name description status coordinates s).2
  | DeleteZone layerId zoneId => (Plan.delete_zone layerId zoneId s).2
  end.

(** Every floor belongs to an office, every layer to a floor, and every
    zone to a custom layer and to the floor of that layer. *)
Definition plan_ok (s : Plan.Site) : Prop :=
  map_Forall (λ _ f, is_Some (Plan.office s !! Plan.fl_officeId f))
    (Plan.floor s)
  ∧ map_Forall (λ _ l, is_Some (Plan.floor s !! Plan.la_floorId l))
      (Plan.layer s)
  ∧ map_Forall (λ _ z, ∃ l, Plan.layer s !! Plan.zn_layerId z = Some l
                            ∧ Plan.la_floorId l = Plan.zn_floorId z
                            ∧ Plan.la_type l = Plan.custom)
      (Plan.zone s).

(** Layer [k] is a firesafe layer of floor [floorId]. *)
Definition firesafe_layer (s : Plan.Site) (floorId k : Z) : Prop :=
  ∃ l, Plan.layer s !! k = Some l
       ∧ Plan.la_floorId l = floorId ∧ Plan.la_type l = Plan.firesafe.

(** Every floor has one firesafe layer and no other. *)
Definition one_firesafe (s : Plan.Site) : Prop :=
  ∀ floorId, is_Some (Plan.floor s !! floorId) →
    ∃ l, ∀ k, firesafe_layer s floorId k ↔ k = l.

(** What a plan request can do to the four tables: nothing, or one of the
    writes of the routes. *)
Inductive plan_effect (s : Plan.Site) : Plan.Site → Prop :=
  | plan_effect_none : plan_effect s s
  | plan_effect_office o :
      Plan.office s !! Plan.office_id_seq s = None →
      plan_effect s
        {| Plan.office := <[Plan.office_id_seq s := o]> (Plan.office s);
           Plan.floor := Plan.floor s; Plan.layer := Plan.layer s;
           Plan.zone := Plan.zone s;
           Plan.office_id_seq := Plan.office_id_seq s + 1;
           Plan.floor_id_seq := Plan.floor_id_seq s;
           Plan.layer_id_seq := Plan.layer_id_seq s;
           Plan.zone_id_seq := Plan.zone_id_seq s;
           Plan.inventory := Plan.inventory s |}
  | plan_effect_office_update id o o' :
      Plan.office s !! id = Some o →
      plan_effect s (Plan.set_office (<[id := o']> (Plan.office s)) s)
  | plan_effect_office_delete id o :
      Plan.office s !! id = Some o →
      filter (λ kr, Plan.fl_officeId kr.2 = id) (Plan.floor s) = ∅ →
      plan_effect s (Plan.drop_offices {[id := o]} s)
  | plan_effect_floor officeId number :
      is_Some (Plan.office s !! officeId) →
      Plan.floor s !! Plan.floor_id_seq s = None →
      Plan.layer s !! Plan.layer_id_seq s = None →
      filter (λ kr, Plan.fl_officeId kr.2 = officeId
                    ∧ Plan.fl_number kr.2 = number) (Plan.floor s) = ∅ →
      plan_effect s
        {| Plan.office := Plan.office s;
           Plan.floor :=
             <[Plan.floor_id_seq s :=
                 {| Plan.fl_number := number; Plan.fl_officeId := officeId;
                    Plan.fl_planImageUrl := None;
                    Plan.fl_firesafeImageUrl := None |}]> (Plan.floor s);
           Plan.layer :=
             <[Plan.layer_id_seq s :=
                 {| Plan.la_name := "Пожарный план";
                    Plan.la_floorId := Plan.floor_id_seq s;
                    Plan.la_type := Plan.firesafe |}]> (Plan.layer s);
           Plan.zone := Plan.zone s;
           Plan.office_id_seq := Plan.office_id_seq s;
           Plan.floor_id_seq := Plan.floor_id_seq s + 1;
           Plan.layer_id_seq := Plan.layer_id_seq s + 1;
           Plan.zone_id_seq := Plan.zone_id_seq s;
           Plan.inventory := Plan.inventory s |}
  | plan_effect_floor_update id f f' :
      Plan.floor s !! id = Some f →
      Plan.fl_officeId f' = Plan.fl_officeId f →
      Plan.fl_number f' = Plan.fl_number f →
      plan_effect s (Plan.set_floor (<[id := f']> (Plan.floor s)) s)
  | plan_effect_floor_delete id f :
      Plan.floor s !! id = Some f →
      plan_effect s (Plan.drop_floors {[id := f]} s)
  | plan_effect_layer floorId name :
      is_Some (Plan.floor s !! floorId) →
      Plan.layer s !! Plan.layer_id_seq s = None →
      plan_effect s
        {| Plan.office := Plan.office s; Plan.floor := Plan.floor s;
           Plan.layer :=
             <[Plan.layer_id_seq s :=
                 {| Plan.la_name := name; Plan.la_floorId := floorId;
                    Plan.la_type := Plan.custom |}]> (Plan.layer s);
           Plan.zone := Plan.zone s;
           Plan.office_id_seq := Plan.office_id_seq s;
           Plan.floor_id_seq := Plan.floor_id_seq s;
           Plan.layer_id_seq := Plan.layer_id_seq s + 1;
           Plan.zone_id_seq := Plan.zone_id_seq s;
           Plan.inventory := Plan.inventory s |}
  | plan_effect_layer_delete id l :
      Plan.layer s !! id = Some l → Plan.la_type l ≠ Plan.firesafe →
      plan_effect s (Plan.drop_layers {[id := l]} s)
  | plan_effect_zone z l :
      Plan.layer s !! Plan.zn_layerId z = Some l →
      Plan.la_type l = Plan.custom →
      Plan.zn_floorId z = Plan.la_floorId l →
      Plan.zone s !! Plan.zone_id_seq s = None →
      (6 ≤ length (Plan.zn_coordinates z))%nat →
      plan_effect s
        {| Plan.office := Plan.office s; Plan.floor := Plan.floor s;
           Plan.layer := Plan.layer s;
           Plan.zone := <[Plan.zone_id_seq s := z]> (Plan.zone s);
           Plan.office_id_seq := Plan.office_id_seq s;
           Plan.floor_id_seq := Plan.floor_id_seq s;
           Plan.layer_id_seq := Plan.layer_id_seq s;
           Plan.zone_id_seq := Plan.zone_id_seq s + 1;
           Plan.inventory := Plan.inventory s |}
  | plan_effect_zone_update id z z' :
      Plan.zone s !! id = Some z →
      Plan.zn_layerId z' = Plan.zn_layerId z →
      Plan.zn_floorId z' = Plan.zn_floorId z →
      ((6 ≤ length (Plan.zn_coordinates z))%nat →
       (6 ≤ length (Plan.zn_coordinates z'))%nat) →
      plan_effect s (Plan.set_zone (<[id := z']> (Plan.zone s)) s)
  | plan_effect_zone_delete gone :
      gone ⊆ Plan.zone s →
      plan_effect s (Plan.drop_zones gone s).

(** No two floors of an office share their number. *)
Definition floor_numbers_unique (s : Plan.Site) : Prop :=
  ∀ i j fi fj,
    Plan.floor s !! i = Some fi → Plan.floor s !! j = Some fj →
    Plan.fl_officeId fi = Plan.fl_officeId fj →
    Plan.fl_number fi = Plan.fl_number fj → i = j.

(** Every zone is a polygon of at least three points. *)
Definition zones_are_polygons (s : Plan.Site) : Prop :=
  map_Forall (λ _ z, (6 ≤ length (Plan.zn_coordinates z))%nat) (Plan.zone s).

(** A store with one office, one floor with its firesafe layer and a
    custom layer that carries zones 1 and 2, over the inventory of
    Scenario C. *)
Definition triangle : list Plan.json :=
  [Plan.JNumber zero; Plan.JNumber zero; Plan.JNumber zero;
   Plan.JNumber zero; Plan.JNumber zero; Plan.JNumber zero].

Definition demo_site : Plan.Site :=
  {| Plan.office :=
       {[ 1 := {| Plan.of_name := "HQ"; Plan.of_address := "1 Main St";
                  Plan.of_city := "Riga"; Plan.of_country := "LV" |} ]};
     Plan.floor :=
       {[ 1 := {| Plan.fl_number := 3; Plan.fl_officeId := 1;
                  Plan.fl_planImageUrl := None;
                  Plan.fl_firesafeImageUrl := None |} ]};
     Plan.layer :=
       <[ 1 := {| Plan.la_name := "Пожарный план"; Plan.la_floorId := 1;
                  Plan.la_type := Plan.firesafe |} ]>
         {[ 2 := {| Plan.la_name := "Desks"; Plan.la_floorId := 1;
                    Plan.la_type := Plan.custom |} ]};
     Plan.zone :=
       <[ 1 := {| Plan.zn_name := "A"; Plan.zn_description := "";
                  Plan.zn_status := Plan.free;
                  Plan.zn_coordinates := triangle;
                  Plan.zn_layerId := 2; Plan.zn_floorId := 1 |} ]>
         {[ 2 := {| Plan.zn_name := "B"; Plan.zn_description := "";
                    Plan.zn_status := Plan.occupied;
                    Plan.zn_coordinates := triangle;
                    Plan.zn_layerId := 2; Plan.zn_floorId := 1 |} ]};
     Plan.office_id_seq := 2;
     Plan.floor_id_seq := 2;
     Plan.layer_id_seq := 3;
     Plan.zone_id_seq := 3;
     Plan.inventory := scenario_C |}.

(** A token that carries the role PROJECT_ADMIN. *)
Definition admin : Plan.authorization := Plan.Verified "PROJECT_ADMIN".

(** * Properties *)

(** ** Sums over tables *)

Section sums.
Implicit Types (m : gmap Z ZoneInventory) (r : ZoneInventory) (i : Z).

Lemma sum_quantity_empty : sum_quantity ∅ = 0.
Proof. apply map_fold_empty. Qed.

Lemma sum_quantity_insert m i r :
  m !! i = None → sum_quantity (<[i := r]> m) = zi_quantity r + sum_quantity m.
Proof.
  intros Hi. unfold sum_quantity.
  rewrite map_fold_insert_L; [done | intros; lia | done].
Qed.

Lemma sum_quantity_delete m i r :
  m !! i = Some r → sum_quantity m = zi_quantity r + sum_quantity (delete i m).
Proof.
  intros Hi. rewrite <- (sum_quantity_insert (delete i m) i r).
  - by rewrite insert_delete_id.
  - apply lookup_delete_eq.
Qed.

Lemma sum_quantity_nonneg m :
  map_Forall (λ _ r, 0 ≤ zi_quantity r) m → 0 ≤ sum_quantity m.
Proof.
  induction m as [|i r m Hi IH] using map_ind; intros Hall.
  - by rewrite sum_quantity_empty.
  - rewrite sum_quantity_insert by done.
    apply map_Forall_insert in Hall as [Hr Hm]; [|done].
    specialize (IH Hm). lia.
Qed.
End sums.

(** ** The client calls in terms of the derived figures *)

Lemma aggregate_default (P : Z * ZoneInventory → Prop) `{!∀ kr, Decision (P kr)}
    (s : DB) :
  ∃ agg, zoneInventory_aggregate P s = (Return agg, s)
         ∧ default 0 agg = sum_quantity (filter P (zoneInventory s)).
Proof.
  unfold zoneInventory_aggregate. eexists; split; [reflexivity|].
  case_decide as Hrows; simpl; [|done].
  by rewrite Hrows, sum_quantity_empty.
Qed.

Lemma filter_pair_empty (zoneId floorInventoryId : Z) (s : DB) :
  filter (λ kr : Z * ZoneInventory,
            zi_zoneId kr.2 = zoneId ∧ zi_floorInventoryId kr.2 = floorInventoryId)
    (zoneInventory s) = ∅
  ↔ ¬ attached zoneId floorInventoryId s.
Proof.
  rewrite map_empty. unfold attached. split.
  - intros Hnone (id & r & Hr & Hz & Hf).
    specialize (Hnone id). apply map_lookup_filter_None in Hnone as [Hn|Hn].
    + congruence.
    + by apply (Hn r).
  - intros Hnot id. apply map_lookup_filter_None. right. intros r Hr HP.
    apply Hnot. exists id, r. simpl in HP. tauto.
Qed.

Lemma findUnique_pair_None (zoneId floorInventoryId : Z) (s : DB) :
  ¬ attached zoneId floorInventoryId s →
  zoneInventory_findUnique_zoneId_floorInventoryId zoneId floorInventoryId s
  = (Return None, s).
Proof.
  intros Hnot. unfold zoneInventory_findUnique_zoneId_floorInventoryId.
  apply filter_pair_empty in Hnot. rewrite Hnot, map_to_list_empty. done.
Qed.

Lemma findUnique_pair_Some (zoneId floorInventoryId : Z) (s : DB) :
  attached zoneId floorInventoryId s →
  ∃ x, zoneInventory_findUnique_zoneId_floorInventoryId zoneId floorInventoryId s
       = (Return (Some x), s).
Proof.
  intros Hatt. unfold zoneInventory_findUnique_zoneId_floorInventoryId.
  destruct (head _) as [x|] eqn:Hhead; [by exists x|].
  exfalso. apply head_None, map_to_list_empty_iff, filter_pair_empty in Hhead.
  done.
Qed.

(** Excluding one id from the rows of a stock entry ([NOT: { id }]). *)
Lemma allocations_of_others (f id : Z) (s : DB) :
  filter (λ kr : Z * ZoneInventory, zi_floorInventoryId kr.2 = f ∧ ¬ kr.1 = id)
    (zoneInventory s)
  = delete id (allocations_of f s).
Proof.
  unfold allocations_of. apply map_eq. intros j. apply option_eq. intros r.
  rewrite lookup_delete_Some, !map_lookup_filter_Some. simpl.
  intuition congruence.
Qed.

Lemma allocations_of_insert (f id : Z) (r : ZoneInventory) (s : DB) :
  allocations_of f (set_zoneInventory (<[id := r]> (zoneInventory s)) s)
  = if decide (zi_floorInventoryId r = f)
    then <[id := r]> (delete id (allocations_of f s))
    else delete id (allocations_of f s).
Proof.
  unfold allocations_of. simpl. rewrite map_filter_insert. simpl.
  case_decide.
  - by rewrite insert_delete_eq.
  - by rewrite map_filter_delete.
Qed.

Lemma used_insert (f id : Z) (r : ZoneInventory) (s : DB) :
  used f (set_zoneInventory (<[id := r]> (zoneInventory s)) s)
  = (if decide (zi_floorInventoryId r = f) then zi_quantity r else 0)
    + sum_quantity (delete id (allocations_of f s)).
Proof.
  unfold used. rewrite allocations_of_insert. case_decide; [|lia].
  rewrite sum_quantity_insert; [done | apply lookup_delete_eq].
Qed.

Lemma used_others (f id : Z) (s : DB) :
  sum_quantity (delete id (allocations_of f s))
  = used f s - match zoneInventory s !! id with
               | Some r => if decide (zi_floorInventoryId r = f)
                           then zi_quantity r else 0
               | None => 0
               end.
Proof.
  unfold used. destruct (allocations_of f s !! id) as [r|] eqn:Hid.
  - rewrite (sum_quantity_delete _ _ _ Hid).
    apply map_lookup_filter_Some in Hid as [Hr Hf]. simpl in Hf.
    rewrite Hr, decide_True by done. lia.
  - rewrite delete_id by done.
    destruct (zoneInventory s !! id) as [r|] eqn:Hr; [|lia].
    case_decide; [|lia].
    unfold allocations_of in Hid.
    apply map_lookup_filter_None in Hid as [Hid|Hid]; [congruence|].
    exfalso. by apply (Hid r).
Qed.

(** ** Allocate: POST .../zones/:zoneId/inventory *)

Lemma post_zone_inventory_400 {zones : gset Z} (zoneId f quantity : Z) (s : DB) :
  quantity < 0 →
  post_zone_inventory zones zoneId f quantity s
  = (ErrorJson 400 "quantity must be int >= 0", s).
Proof. intros Hq. unfold post_zone_inventory, post_zone_inventory_reads. by rewrite decide_True. Qed.

Lemma post_zone_inventory_404 {zones : gset Z} (zoneId f quantity : Z) (s : DB) :
  0 ≤ quantity → floorInventory s !! f = None →
  post_zone_inventory zones zoneId f quantity s
  = (ErrorJson 404 "Inventory item not found", s).
Proof.
  intros Hq Hfi. unfold post_zone_inventory, post_zone_inventory_reads.
  rewrite decide_False by lia.
  unfold transaction, bind, floorInventory_findUnique. by rewrite Hfi.
Qed.

Lemma post_zone_inventory_409_left {zones : gset Z} (zoneId f quantity : Z) (s : DB) fi :
  0 ≤ quantity → floorInventory s !! f = Some fi →
  quantity > fi_count fi - used f s →
  post_zone_inventory zones zoneId f quantity s
  = (ErrorJson 409 (not_enough (fi_count fi - used f s)), s).
Proof.
  intros Hq Hfi Hgt. unfold post_zone_inventory, post_zone_inventory_reads.
  rewrite decide_False by lia.
  unfold transaction, bind, floorInventory_findUnique. rewrite Hfi.
  destruct (aggregate_default (λ kr, zi_floorInventoryId kr.2 = f) s)
    as (agg & -> & Hagg).
  fold (allocations_of f s) in Hagg. fold (used f s) in Hagg. rewrite Hagg.
  by rewrite decide_True.
Qed.

Lemma post_zone_inventory_409_attached {zones : gset Z} (zoneId f quantity : Z) (s : DB) fi :
  0 ≤ quantity → floorInventory s !! f = Some fi →
  quantity ≤ fi_count fi - used f s →
  attached zoneId f s →
  post_zone_inventory zones zoneId f quantity s
  = (ErrorJson 409 "Already attached, use PATCH", s).
Proof.
  intros Hq Hfi Hle Hatt. unfold post_zone_inventory, post_zone_inventory_reads.
  rewrite decide_False by lia.
  unfold transaction, bind, floorInventory_findUnique. rewrite Hfi.
  destruct (aggregate_default (λ kr, zi_floorInventoryId kr.2 = f) s)
    as (agg & -> & Hagg).
  fold (allocations_of f s) in Hagg. fold (used f s) in Hagg. rewrite Hagg.
  rewrite decide_False by lia.
  destruct (findUnique_pair_Some _ _ _ Hatt) as [x ->]. done.
Qed.

Lemma post_zone_inventory_201 {zones : gset Z} (zoneId f quantity : Z) (s : DB) fi :
  0 ≤ quantity → floorInventory s !! f = Some fi →
  quantity ≤ fi_count fi - used f s →
  ¬ attached zoneId f s →
  zoneInventory s !! zoneInventory_id_seq s = None →
  zoneId ∈ zones →
  post_zone_inventory zones zoneId f quantity s
  = (Json 201 (zoneInventory_id_seq s,
               {| zi_zoneId := zoneId; zi_floorInventoryId := f;
                  zi_quantity := quantity |}),
     allocated zoneId f quantity s).
Proof.
  intros Hq Hfi Hle Hatt Hfresh Hzone.
  unfold post_zone_inventory, post_zone_inventory_reads.
  rewrite decide_False by lia.
  unfold transaction, bind, floorInventory_findUnique. rewrite Hfi.
  destruct (aggregate_default (λ kr, zi_floorInventoryId kr.2 = f) s)
    as (agg & -> & Hagg).
  fold (allocations_of f s) in Hagg. fold (used f s) in Hagg. rewrite Hagg.
  rewrite decide_False by lia.
  rewrite (findUnique_pair_None _ _ _ Hatt).
  unfold zoneInventory_create. simpl.
  rewrite decide_False by (rewrite Hfresh; by intros [? ?]).
  rewrite decide_True by (by apply filter_pair_empty).
  rewrite Hfi. by rewrite decide_True.
Qed.

(** The zone of the request is not in the [Zone] table: the insert fails on
    the foreign key and the error goes to the default handler. *)
Lemma post_zone_inventory_no_zone {zones : gset Z} (zoneId f quantity : Z)
    (s : DB) fi :
  0 ≤ quantity → floorInventory s !! f = Some fi →
  quantity ≤ fi_count fi - used f s →
  ¬ attached zoneId f s →
  zoneInventory s !! zoneInventory_id_seq s = None →
  zoneId ∉ zones →
  post_zone_inventory zones zoneId f quantity s = (Next (PrismaError P2003), s).
Proof.
  intros Hq Hfi Hle Hatt Hfresh Hzone.
  unfold post_zone_inventory, post_zone_inventory_reads.
  rewrite decide_False by lia.
  unfold transaction, bind, floorInventory_findUnique. rewrite Hfi.
  destruct (aggregate_default (λ kr, zi_floorInventoryId kr.2 = f) s)
    as (agg & -> & Hagg).
  fold (allocations_of f s) in Hagg. fold (used f s) in Hagg. rewrite Hagg.
  rewrite decide_False by lia.
  rewrite (findUnique_pair_None _ _ _ Hatt).
  unfold zoneInventory_create. simpl.
  rewrite decide_False by (rewrite Hfresh; by intros [? ?]).
  rewrite decide_True by (by apply filter_pair_empty).
  rewrite Hfi. by rewrite decide_False.
Qed.

Lemma post_zone_inventory_409_duplicate {zones : gset Z} (zoneId f quantity : Z) (s : DB) fi :
  0 ≤ quantity → floorInventory s !! f = Some fi →
  quantity ≤ fi_count fi - used f s →
  ¬ attached zoneId f s →
  is_Some (zoneInventory s !! zoneInventory_id_seq s) →
  post_zone_inventory zones zoneId f quantity s
  = (ErrorJson 409 "Duplicate (zoneId,floorInventoryId)", s).
Proof.
  intros Hq Hfi Hle Hatt Hfresh. unfold post_zone_inventory, post_zone_inventory_reads.
  rewrite decide_False by lia.
  unfold transaction, bind, floorInventory_findUnique. rewrite Hfi.
  destruct (aggregate_default (λ kr, zi_floorInventoryId kr.2 = f) s)
    as (agg & -> & Hagg).
  fold (allocations_of f s) in Hagg. fold (used f s) in Hagg. rewrite Hagg.
  rewrite decide_False by lia.
  rewrite (findUnique_pair_None _ _ _ Hatt).
  unfold zoneInventory_create. simpl.
  by rewrite decide_True.
Qed.

(** Whatever the store, a request that is answered 201 has inserted
    exactly the requested row, within the available figure. *)
Lemma post_zone_inventory_inv {zones : gset Z} (zoneId f quantity : Z) (s s' : DB) body :
  post_zone_inventory zones zoneId f quantity s = (Json 201 body, s') →
  ∃ fi, floorInventory s !! f = Some fi
        ∧ 0 ≤ quantity ≤ fi_count fi - used f s
        ∧ zoneInventory s !! zoneInventory_id_seq s = None
        ∧ s' = allocated zoneId f quantity s.
Proof.
  intros Hpost.
  destruct (decide (quantity < 0)) as [Hneg|Hq].
  { by rewrite post_zone_inventory_400 in Hpost. }
  destruct (floorInventory s !! f) as [fi|] eqn:Hfi.
  2: { rewrite post_zone_inventory_404 in Hpost by (done || lia). done. }
  destruct (decide (quantity > fi_count fi - used f s)) as [Hgt|Hle].
  { rewrite (post_zone_inventory_409_left _ _ _ _ fi) in Hpost by (done || lia).
    done. }
  destruct (decide (attached zoneId f s)) as [Hatt|Hatt].
  { rewrite (post_zone_inventory_409_attached _ _ _ _ fi) in Hpost
      by (done || lia). done. }
  destruct (zoneInventory s !! zoneInventory_id_seq s) as [r|] eqn:Hfresh.
  { rewrite (post_zone_inventory_409_duplicate _ _ _ _ fi) in Hpost
      by (done || lia || (rewrite Hfresh; by eexists)). done. }
  destruct (decide (zoneId ∈ zones)) as [Hzone|Hzone].
  - rewrite (post_zone_inventory_201 _ _ _ _ fi) in Hpost by (done || lia).
    injection Hpost as _ <-. exists fi. repeat split; (done || lia).
  - rewrite (post_zone_inventory_no_zone _ _ _ _ fi) in Hpost by (done || lia).
    done.
Qed.

Lemma post_zone_inventory_zone {zones : gset Z} (zoneId f quantity : Z)
    (s s' : DB) body :
  post_zone_inventory zones zoneId f quantity s = (Json 201 body, s') →
  zoneId ∈ zones.
Proof.
  intros Hpost. pose proof Hpost as Hinv.
  apply post_zone_inventory_inv in Hinv as (fi & Hfi & Hq & Hfresh & _).
  destruct (decide (zoneId ∈ zones)) as [Hzone|Hzone]; [done|].
  destruct (decide (attached zoneId f s)) as [Hatt|Hatt].
  { rewrite (post_zone_inventory_409_attached _ _ _ _ fi) in Hpost
      by (done || lia). done. }
  rewrite (post_zone_inventory_no_zone _ _ _ _ fi) in Hpost by (done || lia).
  done.
Qed.

(** ** Re-allocate: PATCH .../zones/:zoneId/inventory/:id *)

Lemma patch_zone_inventory_400 (id quantity : Z) (s : DB) :
  quantity < 0 →
  patch_zone_inventory id quantity s
  = (ErrorJson 400 "quantity must be int >= 0", s).
Proof. intros Hq. unfold patch_zone_inventory. by rewrite decide_True. Qed.

Lemma patch_zone_inventory_404 (id quantity : Z) (s : DB) :
  0 ≤ quantity → zoneInventory s !! id = None →
  patch_zone_inventory id quantity s = (ErrorJson 404 "Not found", s).
Proof.
  intros Hq Hrow. unfold patch_zone_inventory.
  rewrite decide_False by lia.
  unfold transaction, bind, zoneInventory_findUnique. by rewrite Hrow.
Qed.

Lemma patch_zone_inventory_dangling (id quantity : Z) (s : DB) row :
  0 ≤ quantity → zoneInventory s !! id = Some row →
  floorInventory s !! zi_floorInventoryId row = None →
  patch_zone_inventory id quantity s = (Next TypeError, s).
Proof.
  intros Hq Hrow Hfi. unfold patch_zone_inventory.
  rewrite decide_False by lia.
  unfold transaction, bind, zoneInventory_findUnique, floorInventory_findUnique.
  rewrite Hrow, Hfi.
  destruct (aggregate_default
              (λ kr, zi_floorInventoryId kr.2 = zi_floorInventoryId row
                     ∧ ¬ kr.1 = id) s) as (agg & -> & _).
  done.
Qed.

Lemma patch_zone_inventory_409 (id quantity : Z) (s : DB) row fi :
  0 ≤ quantity → zoneInventory s !! id = Some row →
  floorInventory s !! zi_floorInventoryId row = Some fi →
  quantity > fi_count fi - usedOthers (zi_floorInventoryId row) id s →
  patch_zone_inventory id quantity s
  = (ErrorJson 409
       (not_enough (fi_count fi - usedOthers (zi_floorInventoryId row) id s)),
     s).
Proof.
  intros Hq Hrow Hfi Hgt. unfold patch_zone_inventory.
  rewrite decide_False by lia.
  unfold transaction, bind, zoneInventory_findUnique, floorInventory_findUnique.
  rewrite Hrow, Hfi.
  destruct (aggregate_default
              (λ kr, zi_floorInventoryId kr.2 = zi_floorInventoryId row
                     ∧ ¬ kr.1 = id) s) as (agg & -> & Hagg).
  rewrite allocations_of_others in Hagg.
  fold (usedOthers (zi_floorInventoryId row) id s) in Hagg. rewrite Hagg.
  by rewrite decide_True.
Qed.

Lemma patch_zone_inventory_200 (id quantity : Z) (s : DB) row fi :
  0 ≤ quantity → zoneInventory s !! id = Some row →
  floorInventory s !! zi_floorInventoryId row = Some fi →
  quantity ≤ fi_count fi - usedOthers (zi_floorInventoryId row) id s →
  patch_zone_inventory id quantity s
  = (Json 200 (with_quantity quantity row),
     set_zoneInventory (<[id := with_quantity quantity row]> (zoneInventory s)) s).
Proof.
  intros Hq Hrow Hfi Hle. unfold patch_zone_inventory.
  rewrite decide_False by lia.
  unfold transaction, bind, zoneInventory_findUnique, floorInventory_findUnique.
  rewrite Hrow, Hfi.
  destruct (aggregate_default
              (λ kr, zi_floorInventoryId kr.2 = zi_floorInventoryId row
                     ∧ ¬ kr.1 = id) s) as (agg & -> & Hagg).
  rewrite allocations_of_others in Hagg.
  fold (usedOthers (zi_floorInventoryId row) id s) in Hagg. rewrite Hagg.
  rewrite decide_False by lia.
  unfold zoneInventory_update. by rewrite Hrow.
Qed.

Lemma patch_zone_inventory_inv (id quantity : Z) (s s' : DB) body :
  patch_zone_inventory id quantity s = (Json 200 body, s') →
  ∃ row fi, zoneInventory s !! id = Some row
        ∧ floorInventory s !! zi_floorInventoryId row = Some fi
        ∧ 0 ≤ quantity ≤ fi_count fi - usedOthers (zi_floorInventoryId row) id s
        ∧ s' = set_zoneInventory
                 (<[id := with_quantity quantity row]> (zoneInventory s)) s.
Proof.
  intros Hpatch.
  destruct (decide (quantity < 0)) as [Hneg|Hq].
  { by rewrite patch_zone_inventory_400 in Hpatch. }
  destruct (zoneInventory s !! id) as [row|] eqn:Hrow.
  2: { rewrite patch_zone_inventory_404 in Hpatch by (done || lia). done. }
  destruct (floorInventory s !! zi_floorInventoryId row) as [fi|] eqn:Hfi.
  2: { rewrite (patch_zone_inventory_dangling _ _ _ row) in Hpatch
         by (done || lia). done. }
  destruct (decide (quantity
                    > fi_count fi - usedOthers (zi_floorInventoryId row) id s))
    as [Hgt|Hle].
  { rewrite (patch_zone_inventory_409 _ _ _ row fi) in Hpatch by (done || lia).
    done. }
  rewrite (patch_zone_inventory_200 _ _ _ row fi) in Hpatch by (done || lia).
  injection Hpatch as _ <-. exists row, fi. repeat split; (done || lia).
Qed.

(** ** Deallocate: DELETE .../zones/:zoneId/inventory/:id *)

Lemma difference_singleton {A} (m : gmap Z A) (i : Z) (x : A) :
  m ∖ {[i := x]} = delete i m.
Proof.
  apply map_eq. intros j. rewrite lookup_difference.
  destruct (decide (i = j)) as [->|Hne].
  - by rewrite lookup_singleton_eq, lookup_delete_eq.
  - by rewrite lookup_singleton_ne, lookup_delete_ne.
Qed.

Lemma delete_zone_inventory_404 (id : Z) (s : DB) :
  zoneInventory s !! id = None →
  delete_zone_inventory id s = (ErrorJson 404 "Not found", s).
Proof.
  intros Hrow. unfold delete_zone_inventory, zoneInventory_delete.
  by rewrite Hrow.
Qed.

Lemma delete_zone_inventory_204 (id : Z) (s : DB) row :
  zoneInventory s !! id = Some row →
  delete_zone_inventory id s = (End 204, zoneInventory_drop {[id := row]} s).
Proof.
  intros Hrow. unfold delete_zone_inventory, zoneInventory_delete.
  by rewrite Hrow.
Qed.

Lemma zoneInventory_drop_singleton (id : Z) (row : ZoneInventory) (s : DB) :
  zoneInventory (zoneInventory_drop {[id := row]} s) = delete id (zoneInventory s)
  ∧ floorInventory (zoneInventory_drop {[id := row]} s) = floorInventory s.
Proof. unfold zoneInventory_drop. simpl. by rewrite difference_singleton. Qed.

(** ** The allocation ledger *)

Lemma post_zone_inventory_cases {zones : gset Z} (zoneId f quantity : Z) (s : DB) :
  (∃ body s', post_zone_inventory zones zoneId f quantity s = (Json 201 body, s'))
  ∨ (∃ r, refused r ∧ post_zone_inventory zones zoneId f quantity s = (r, s)).
Proof.
  destruct (decide (quantity < 0)) as [Hneg|Hq].
  { rewrite post_zone_inventory_400 by done. right; eexists; (split; [|reflexivity]); exact I. }
  destruct (floorInventory s !! f) as [fi|] eqn:Hfi.
  2: { rewrite post_zone_inventory_404 by (done || lia). right; eexists; (split; [|reflexivity]); exact I. }
  destruct (decide (quantity > fi_count fi - used f s)) as [Hgt|Hle].
  { rewrite (post_zone_inventory_409_left _ _ _ _ fi) by (done || lia).
    right; eexists; (split; [|reflexivity]); exact I. }
  destruct (decide (attached zoneId f s)) as [Hatt|Hatt].
  { rewrite (post_zone_inventory_409_attached _ _ _ _ fi) by (done || lia).
    right; eexists; (split; [|reflexivity]); exact I. }
  destruct (zoneInventory s !! zoneInventory_id_seq s) as [r|] eqn:Hfresh.
  { rewrite (post_zone_inventory_409_duplicate _ _ _ _ fi)
      by (done || lia || (rewrite Hfresh; by eexists)). right; eexists; (split; [|reflexivity]); exact I. }
  destruct (decide (zoneId ∈ zones)) as [Hzone|Hzone].
  - rewrite (post_zone_inventory_201 _ _ _ _ fi) by (done || lia).
    left; eauto.
  - rewrite (post_zone_inventory_no_zone _ _ _ _ fi) by (done || lia).
    right; eexists; (split; [|reflexivity]); exact I.
Qed.

Lemma patch_zone_inventory_cases (id quantity : Z) (s : DB) :
  (∃ body s', patch_zone_inventory id quantity s = (Json 200 body, s'))
  ∨ (∃ status error,
       patch_zone_inventory id quantity s = (ErrorJson status error, s))
  ∨ (∃ e, patch_zone_inventory id quantity s = (Next e, s)).
Proof.
  destruct (decide (quantity < 0)) as [Hneg|Hq].
  { rewrite patch_zone_inventory_400 by done. right; left; eauto. }
  destruct (zoneInventory s !! id) as [row|] eqn:Hrow.
  2: { rewrite patch_zone_inventory_404 by (done || lia). right; left; eauto. }
  destruct (floorInventory s !! zi_floorInventoryId row) as [fi|] eqn:Hfi.
  2: { rewrite (patch_zone_inventory_dangling _ _ _ row) by (done || lia).
       right; right; eauto. }
  destruct (decide (quantity
                    > fi_count fi - usedOthers (zi_floorInventoryId row) id s))
    as [Hgt|Hle].
  { rewrite (patch_zone_inventory_409 _ _ _ row fi) by (done || lia).
    right; left; eauto. }
  rewrite (patch_zone_inventory_200 _ _ _ row fi) by (done || lia).
  left; eauto.
Qed.

Lemma used_ext (f : Z) (s1 s2 : DB) :
  zoneInventory s1 = zoneInventory s2 → used f s1 = used f s2.
Proof. unfold used, allocations_of. by intros ->. Qed.

Lemma used_delete (f id : Z) (s1 s2 : DB) :
  zoneInventory s2 = delete id (zoneInventory s1) →
  used f s2 = usedOthers f id s1.
Proof.
  intros Hdel. unfold used, usedOthers, allocations_of.
  by rewrite Hdel, map_filter_delete.
Qed.

Lemma usedOthers_le (f id : Z) (s : DB) :
  quantities_nonneg s → usedOthers f id s ≤ used f s.
Proof.
  intros Hnn. unfold usedOthers. rewrite used_others.
  destruct (zoneInventory s !! id) as [r|] eqn:Hr; [|lia].
  case_decide; [|lia]. specialize (Hnn id r Hr). simpl in Hnn. lia.
Qed.

Lemma ledger_step_ok {zones : gset Z} (op : ledger_op) (s : DB) :
  ledger_ok s → ledger_ok (ledger_step zones op s).
Proof.
  intros [Hnn Hno]. destruct op as [zoneId f quantity|id quantity|id]; simpl.
  - destruct (post_zone_inventory_cases (zones:=zones) zoneId f quantity s)
      as [(body & s' & Hpost)|(? & ? & ->)]; [|done].
    rewrite Hpost. simpl.
    apply post_zone_inventory_inv in Hpost
      as (fi & Hfi & Hq & Hfresh & ->).
    split.
    + unfold quantities_nonneg, allocated. simpl.
      apply map_Forall_insert; [done|]. split; [simpl; lia | done].
    + intros f' fi' Hfi'. simpl in Hfi'.
      rewrite (used_ext f' _
                 (set_zoneInventory
                    (<[zoneInventory_id_seq s :=
                         {| zi_zoneId := zoneId; zi_floorInventoryId := f;
                            zi_quantity := quantity |}]> (zoneInventory s)) s))
        by done.
      rewrite used_insert, used_others, Hfresh. simpl.
      specialize (Hno f' fi' Hfi'). simpl in Hno.
      case_decide as Hf; [|lia]. subst f'.
      assert (fi' = fi) as -> by congruence. lia.
  - destruct (patch_zone_inventory_cases id quantity s)
      as [(body & s' & Hpatch)|[(? & ? & ->)|(? & ->)]]; [|done..].
    rewrite Hpatch. simpl.
    apply patch_zone_inventory_inv in Hpatch
      as (row & fi & Hrow & Hfi & Hq & ->).
    split.
    + unfold quantities_nonneg. simpl.
      apply map_Forall_insert_2; [simpl; lia | done].
    + intros f' fi' Hfi'. simpl in Hfi'.
      rewrite used_insert. simpl.
      fold (usedOthers f' id s).
      specialize (Hno f' fi' Hfi'). simpl in Hno.
      pose proof (usedOthers_le f' id s Hnn).
      case_decide as Hf; [|lia]. subst f'.
      assert (fi' = fi) as -> by congruence. lia.
  - destruct (zoneInventory s !! id) as [row|] eqn:Hrow.
    2: { by rewrite delete_zone_inventory_404. }
    rewrite (delete_zone_inventory_204 _ _ row) by done. simpl.
    destruct (zoneInventory_drop_singleton id row s) as [Hzi Hfl].
    split.
    + unfold quantities_nonneg. rewrite Hzi. by apply map_Forall_delete.
    + intros f' fi' Hfi'. rewrite Hfl in Hfi'.
      rewrite (used_delete f' id s) by done.
      specialize (Hno f' fi' Hfi'). simpl in Hno.
      pose proof (usedOthers_le f' id s Hnn). lia.
Qed.

(** What the checks of the ledger routes do give.  When the requests run
    one after the other, from a store in which no stock row is
    overcommitted and no allocation is negative, after every operation of
    every sequence of Allocate, Re-allocate and Deallocate requests the
    allocations of each stock row sum to at most its count. *)
Lemma no_overcommit_serial (zones : gset Z) (ops : list ledger_op) (s : DB) :
  ledger_ok s →
  Forall (λ s', ∀ f fi, floorInventory s' !! f = Some fi →
                        used f s' ≤ fi_count fi)
    (ledger_trace zones ops s).
Proof.
  revert s. induction ops as [|op ops IH]; intros s Hok; simpl.
  - constructor.
  - pose proof (ledger_step_ok (zones:=zones) op s Hok) as Hok'. constructor.
    + intros f fi Hfi. by apply (proj2 Hok' f fi).
    + by apply IH.
Qed.

(** ** Place: POST .../zones/:zoneId/objects *)

Lemma post_zone_objects_404 zoneId zoneInventoryId x y rotation (s : DB) :
  zoneInventory s !! zoneInventoryId = None →
  post_zone_objects zoneId zoneInventoryId x y rotation s
  = (ErrorJson 404 "Zone inventory not found", s).
Proof.
  intros Hzi. unfold post_zone_objects, transaction, bind,
    zoneInventory_findUnique. by rewrite Hzi.
Qed.

Lemma post_zone_objects_400 zoneId zoneInventoryId x y rotation (s : DB) zi :
  zoneInventory s !! zoneInventoryId = Some zi →
  zi_zoneId zi ≠ zoneId →
  post_zone_objects zoneId zoneInventoryId x y rotation s
  = (ErrorJson 400 "zoneInventoryId does not belong to this zone", s).
Proof.
  intros Hzi Hzone. unfold post_zone_objects, transaction, bind,
    zoneInventory_findUnique. rewrite Hzi. by rewrite decide_True.
Qed.

Lemma post_zone_objects_collision zoneId zoneInventoryId x y rotation
    (s : DB) zi :
  zoneInventory s !! zoneInventoryId = Some zi →
  zi_zoneId zi = zoneId →
  is_Some (zoneObject s !! zoneObject_id_seq s) →
  post_zone_objects zoneId zoneInventoryId x y rotation s
  = (Next (PrismaError P2002), s).
Proof.
  intros Hzi Hzone Hseq. unfold post_zone_objects, transaction, bind,
    zoneInventory_findUnique. rewrite Hzi.
  rewrite decide_False by (by intros ?).
  unfold zoneInventory_update. rewrite Hzi.
  unfold zoneObject_create. simpl. by rewrite decide_True.
Qed.

Lemma post_zone_objects_201 zoneId zoneInventoryId x y rotation (s : DB) zi :
  zoneInventory s !! zoneInventoryId = Some zi →
  zi_zoneId zi = zoneId →
  zoneObject s !! zoneObject_id_seq s = None →
  post_zone_objects zoneId zoneInventoryId x y rotation s
  = (Json 201 (zoneObject_id_seq s,
               {| zo_zoneId := zoneId; zo_zoneInventoryId := zoneInventoryId;
                  zo_x := x; zo_y := y;
                  zo_rotation := default zero rotation |}),
     placed zoneId zoneInventoryId x y rotation zi s).
Proof.
  intros Hzi Hzone Hseq. unfold post_zone_objects, transaction, bind,
    zoneInventory_findUnique. rewrite Hzi.
  rewrite decide_False by (by intros ?).
  unfold zoneInventory_update. rewrite Hzi.
  unfold zoneObject_create. simpl.
  rewrite decide_False by (rewrite Hseq; by intros [? ?]).
  by rewrite lookup_insert_eq.
Qed.

Lemma post_zone_objects_inv zoneId zoneInventoryId x y rotation
    (s s' : DB) body :
  post_zone_objects zoneId zoneInventoryId x y rotation s = (Json 201 body, s') →
  ∃ zi, zoneInventory s !! zoneInventoryId = Some zi
        ∧ zi_zoneId zi = zoneId
        ∧ zoneObject s !! zoneObject_id_seq s = None
        ∧ body.1 = zoneObject_id_seq s
        ∧ s' = placed zoneId zoneInventoryId x y rotation zi s.
Proof.
  intros Hpost.
  destruct (zoneInventory s !! zoneInventoryId) as [zi|] eqn:Hzi.
  2: { by rewrite post_zone_objects_404 in Hpost. }
  destruct (decide (zi_zoneId zi = zoneId)) as [Hzone|Hzone].
  2: { by rewrite (post_zone_objects_400 _ _ _ _ _ _ zi) in Hpost. }
  destruct (zoneObject s !! zoneObject_id_seq s) as [o|] eqn:Hseq.
  { rewrite (post_zone_objects_collision _ _ _ _ _ _ zi) in Hpost
      by (done || (rewrite Hseq; by eexists)). done. }
  rewrite (post_zone_objects_201 _ _ _ _ _ _ zi) in Hpost by done.
  injection Hpost as <- <-. by exists zi.
Qed.

(** ** Remove: DELETE .../zones/:zoneId/objects/:id *)

Lemma delete_zone_objects_404 zoneId id (s : DB) :
  zoneObject s !! id = None →
  delete_zone_objects zoneId id s = (ErrorJson 404 "Object not found", s).
Proof.
  intros Hobj. unfold delete_zone_objects, transaction, bind,
    zoneObject_findUnique. by rewrite Hobj.
Qed.

Lemma delete_zone_objects_400 zoneId id (s : DB) obj :
  zoneObject s !! id = Some obj → zo_zoneId obj ≠ zoneId →
  delete_zone_objects zoneId id s
  = (ErrorJson 400 "Object does not belong to this zone", s).
Proof.
  intros Hobj Hzone. unfold delete_zone_objects, transaction, bind,
    zoneObject_findUnique. rewrite Hobj. by rewrite decide_True.
Qed.

Lemma delete_zone_objects_204 zoneId id (s : DB) obj zi :
  zoneObject s !! id = Some obj → zo_zoneId obj = zoneId →
  zoneInventory s !! zo_zoneInventoryId obj = Some zi →
  delete_zone_objects zoneId id s
  = (End 204,
     set_zoneInventory
       (<[zo_zoneInventoryId obj := with_quantity (zi_quantity zi - 1) zi]>
          (zoneInventory s))
       (set_zoneObject (delete id (zoneObject s)) s)).
Proof.
  intros Hobj Hzone Hzi. unfold delete_zone_objects, transaction, bind,
    zoneObject_findUnique. rewrite Hobj.
  rewrite decide_False by (by intros ?).
  unfold zoneObject_delete. rewrite Hobj.
  unfold catch, bind, zoneInventory_update. simpl. by rewrite Hzi.
Qed.

(** An object whose allocation row is gone (the foreign key rules this
    out): the failed decrement is swallowed by the [catch]. *)
Lemma delete_zone_objects_204_dangling zoneId id (s : DB) obj :
  zoneObject s !! id = Some obj → zo_zoneId obj = zoneId →
  zoneInventory s !! zo_zoneInventoryId obj = None →
  delete_zone_objects zoneId id s
  = (End 204, set_zoneObject (delete id (zoneObject s)) s).
Proof.
  intros Hobj Hzone Hzi. unfold delete_zone_objects, transaction, bind,
    zoneObject_findUnique. rewrite Hobj.
  rewrite decide_False by (by intros ?).
  unfold zoneObject_delete. rewrite Hobj.
  unfold catch, bind, zoneInventory_update, zoneInventory_findUnique. simpl.
  rewrite Hzi. simpl. by rewrite Hzi.
Qed.

(** ** Floor stock: usage, count update, deletion *)

Lemma with_usage_reads (it : Z * FloorInventory) (s : DB) :
  with_usage it s = (Return (usage_of s it), s).
Proof.
  unfold with_usage, bind.
  destruct (aggregate_default (λ kr, zi_floorInventoryId kr.2 = it.1) s)
    as (agg & -> & Hagg).
  fold (allocations_of it.1 s) in Hagg. fold (used it.1 s) in Hagg.
  unfold ret, usage_of. by rewrite Hagg.
Qed.

Lemma all_reads {A B} (f : A → M B) (g : A → B) (s : DB) (l : list A) :
  (∀ a, f a s = (Return (g a), s)) → all f l s = (Return (g <$> l), s).
Proof.
  intros Hf. induction l as [|a l IH]; [done|].
  simpl. unfold bind. by rewrite Hf, IH.
Qed.

Lemma get_inventory_with_usage_reads (floorId : Z) (s : DB) :
  get_inventory_with_usage floorId s
  = (Json 200
       (usage_of s <$> map_to_list
          (filter (λ kr, fi_floorId kr.2 = floorId) (floorInventory s))),
     s).
Proof.
  unfold get_inventory_with_usage, bind.
  by rewrite (all_reads with_usage (usage_of s) s _ (λ it, with_usage_reads it s)).
Qed.

Lemma patch_floor_inventory_404 (id c : Z) (s : DB) :
  0 ≤ c → floorInventory s !! id = None →
  patch_floor_inventory id (Some c) s
  = (ErrorJson 404 "Inventory item not found", s).
Proof.
  intros Hc Hfi. unfold patch_floor_inventory.
  rewrite bool_decide_eq_false_2 by lia.
  unfold floorInventory_update. by rewrite Hfi.
Qed.

Lemma patch_floor_inventory_200 (id c : Z) (s : DB) fi :
  0 ≤ c → floorInventory s !! id = Some fi →
  patch_floor_inventory id (Some c) s
  = (Json 200 (with_count c fi),
     set_floorInventory (<[id := with_count c fi]> (floorInventory s)) s).
Proof.
  intros Hc Hfi. unfold patch_floor_inventory.
  rewrite bool_decide_eq_false_2 by lia.
  unfold floorInventory_update. by rewrite Hfi.
Qed.

Lemma zoneInventory_drop_empty (s : DB) : zoneInventory_drop ∅ s = s.
Proof.
  unfold zoneInventory_drop, set_zoneObject, set_zoneInventory. simpl.
  rewrite map_difference_empty.
  rewrite (map_filter_id _ (zoneObject s)) by (intros; apply lookup_empty).
  by destruct s.
Qed.

Lemma allocations_of_absent (id : Z) (s : DB) :
  fk_ok s → floorInventory s !! id = None → allocations_of id s = ∅.
Proof.
  intros [Hfk _] Hfi. apply map_empty. intros k.
  apply map_lookup_filter_None. right. intros r Hr Heq. simpl in Heq.
  specialize (Hfk k r Hr). simpl in Hfk. rewrite Heq, Hfi in Hfk.
  by destruct Hfk.
Qed.

Lemma delete_floor_inventory_404 (id : Z) (s : DB) :
  fk_ok s → floorInventory s !! id = None →
  delete_floor_inventory id s = (ErrorJson 404 "Inventory item not found", s).
Proof.
  intros Hfk Hfi. unfold delete_floor_inventory, bind, zoneInventory_deleteMany.
  fold (allocations_of id s). rewrite allocations_of_absent by done.
  rewrite zoneInventory_drop_empty.
  unfold floorInventory_delete. by rewrite Hfi.
Qed.

Lemma difference_allocations_of (id : Z) (s : DB) :
  zoneInventory s ∖ allocations_of id s
  = filter (λ kr, zi_floorInventoryId kr.2 ≠ id) (zoneInventory s).
Proof.
  apply map_eq. intros k. apply option_eq. intros r.
  rewrite lookup_difference_Some, map_lookup_filter_Some. simpl.
  unfold allocations_of. rewrite map_lookup_filter_None. simpl. split.
  - intros [Hr [Hn|Hn]]; [congruence|]. split; [done|]. by apply Hn.
  - intros [Hr Hne]. split; [done|]. right. intros r' Hr'.
    by assert (r' = r) as -> by congruence.
Qed.

Lemma floorInventory_delete_Some (id : Z) (s : DB) fi :
  floorInventory s !! id = Some fi →
  floorInventory_delete id s
  = (Return fi,
     zoneInventory_drop (allocations_of id s)
       (set_floorInventory (delete id (floorInventory s)) s)).
Proof. intros Hfi. unfold floorInventory_delete. by rewrite Hfi. Qed.

Lemma allocations_of_dropped (id : Z) (s : DB) :
  allocations_of id (zoneInventory_drop (allocations_of id s) s) = ∅.
Proof.
  unfold allocations_of at 1. simpl. rewrite difference_allocations_of.
  apply map_empty. intros k. apply map_lookup_filter_None. right.
  intros r Hr. apply map_lookup_filter_Some in Hr as [_ Hr]. done.
Qed.

Lemma delete_floor_inventory_204 (id : Z) (s : DB) fi :
  floorInventory s !! id = Some fi →
  delete_floor_inventory id s = (End 204, without_stock id s).
Proof.
  intros Hfi. unfold delete_floor_inventory, bind, zoneInventory_deleteMany.
  fold (allocations_of id s). cbv zeta.
  rewrite (floorInventory_delete_Some id _ fi) by done.
  rewrite allocations_of_dropped. f_equal.
  unfold zoneInventory_drop, without_stock, set_zoneInventory, set_zoneObject,
    set_floorInventory. simpl.
  rewrite map_difference_empty, difference_allocations_of.
  f_equal. apply map_filter_id. intros; apply lookup_empty.
Qed.

Lemma without_stock_fk_ok (id : Z) (s : DB) :
  fk_ok s → fk_ok (without_stock id s).
Proof.
  intros [Hzi Hzo]. split.
  - intros k r Hr. simpl in *.
    apply map_lookup_filter_Some in Hr as [Hr Hne]. simpl in Hne.
    rewrite lookup_delete_ne by done. by apply (Hzi k r).
  - intros k o Ho. simpl in *.
    apply map_lookup_filter_Some in Ho as [Ho Hnone]. simpl in Hnone.
    destruct (Hzo k o Ho) as [r Hr]. exists r.
    apply map_lookup_filter_Some. split; [done|]. simpl.
    unfold allocations_of in Hnone.
    apply map_lookup_filter_None in Hnone as [Hn|Hn]; [congruence|].
    by apply Hn.
Qed.

(** ** The specification, statement by statement *)

(** The invariant along Scenario A followed by a re-allocation and a
    deallocation. *)
Lemma no_overcommit_serial_witness :
  ledger_ok (chair_stock 5)
  ∧ Forall (λ s', ∀ f fi, floorInventory s' !! f = Some fi →
                          used f s' ≤ fi_count fi)
      (ledger_trace three_zones
         [Allocate 1 1 3; Allocate 2 1 3; Allocate 2 1 2;
          Reallocate 1 1; Deallocate 2]
         (chair_stock 5)).
Proof.
  assert (ledger_ok (chair_stock 5)) as Hok.
  { split.
    - unfold quantities_nonneg. apply (bool_decide_unpack _). vm_compute.
      exact I.
    - unfold no_overcommit. apply (bool_decide_unpack _). vm_compute.
      exact I. }
  split; [exact Hok|].
  exact (no_overcommit_serial three_zones _ (chair_stock 5) Hok).
Defined.

(** C1.  Allocations that complete successfully overcommit a stock row.

    Two requests that overlap.  On five chairs, an Allocate of 3 for zone 1
    and an Allocate of 3 for zone 2 each run the reads of their transaction
    before the other has inserted: both see the stock row with nothing
    allocated and pass the check.  Then both inserts are accepted, and 6
    units are allocated out of 5.  Run one after the other, the second
    request is refused with left=2.

    Requests one after the other.  After the four requests that leave the
    allocation of zone 1 with quantity −1, an Allocate of 6 for zone 2 is
    answered 201 and the Deallocate of the allocation of zone 1 is answered
    204, which leaves 6 units allocated out of 5. *)
Theorem allocations_overcommit :
  let s0 := chair_stock 5 in
  let a := {| zi_zoneId := 1; zi_floorInventoryId := 1; zi_quantity := 3 |} in
  let b := {| zi_zoneId := 2; zi_floorInventoryId := 1; zi_quantity := 3 |} in
  let s1 := (zoneInventory_create three_zones a s0).2 in
  let s2 := (zoneInventory_create three_zones b s1).2 in
  let r1 := post_zone_inventory three_zones 1 1 0 s0 in
  let r2 := place_at_origin r1.2 in
  let r3 := patch_zone_inventory 1 0 r2.2 in
  let r4 := delete_zone_objects 1 1 r3.2 in
  let r5 := post_zone_inventory three_zones 2 1 6 r4.2 in
  let r6 := delete_zone_inventory 1 r5.2 in
  (post_zone_inventory_reads 1 1 3 s0 = (Return tt, s0)
   ∧ post_zone_inventory_reads 2 1 3 s0 = (Return tt, s0)
   ∧ zoneInventory_create three_zones a s0 = (Return (1, a), s1)
   ∧ zoneInventory_create three_zones b s1 = (Return (2, b), s2)
   ∧ fi_count <$> floorInventory s2 !! 1 = Some 5
   ∧ used 1 s2 = 6
   ∧ ¬ no_overcommit s2
   ∧ post_zone_inventory three_zones 1 1 3 s0 = (Json 201 (1, a), s1)
   ∧ post_zone_inventory three_zones 2 1 3 s1
     = (ErrorJson 409 "Not enough available. left=2", s1))
  ∧ (r1.1 = Json 201 (1, {| zi_zoneId := 1; zi_floorInventoryId := 1;
                            zi_quantity := 0 |})
     ∧ r2.1 = Json 201 (1, origin_object)
     ∧ r3.1 = Json 200 {| zi_zoneId := 1; zi_floorInventoryId := 1;
                          zi_quantity := 0 |}
     ∧ r4.1 = End 204
     ∧ quantity_of 1 r4.2 = Some (-1)
     ∧ r5.1 = Json 201 (2, {| zi_zoneId := 2; zi_floorInventoryId := 1;
                              zi_quantity := 6 |})
     ∧ used 1 r5.2 = 5
     ∧ r6.1 = End 204
     ∧ fi_count <$> floorInventory r6.2 !! 1 = Some 5
     ∧ used 1 r6.2 = 6
     ∧ ¬ no_overcommit r6.2).
Proof.
  assert (∀ s : DB, fi_count <$> floorInventory s !! 1 = Some 5 →
                    used 1 s = 6 → ¬ no_overcommit s) as Hover.
  { intros s Hcount Hused Hno.
    destruct (floorInventory s !! 1) as [fi|] eqn:Hfi; [|done].
    injection Hcount as Hcount.
    specialize (Hno 1 fi Hfi). simpl in Hno. lia. }
  split.
  - split; [by vm_compute|]. split; [by vm_compute|].
    split; [by vm_compute|]. split; [by vm_compute|].
    split; [by vm_compute|]. split; [by vm_compute|].
    split; [apply Hover; by vm_compute|].
    split; by vm_compute.
  - split; [by vm_compute|]. split; [by vm_compute|].
    split; [by vm_compute|]. split; [by vm_compute|].
    split; [by vm_compute|]. split; [by vm_compute|].
    split; [by vm_compute|]. split; [by vm_compute|].
    split; [by vm_compute|]. split; [by vm_compute|].
    apply Hover; by vm_compute.
Qed.

(** C2.  Allocate, for a quantity ≥ 0 and ids that fit an INTEGER column,
    taking the cases in the order of the route: 404 when the stock row is
    absent; otherwise 409 with the available figure (count minus the sum
    of the allocations of the stock row) when the quantity exceeds it;
    otherwise 409 when the zone already holds an allocation of the stock
    row; otherwise the row is inserted under the next id, when the zone
    exists and the quantity and the id fit the column.  A request that is
    refused by one of the checks leaves the store unchanged.  When the zone
    does not exist the insert fails on the foreign key: the error goes to
    the default handler and no table changes.  Scenario A: with count 5,
    zone 1 gets 3, zone 2 is refused 3 with left=2, zone 2 gets 2, and
    nothing is left. *)
Theorem allocate_behaviour (zones : gset Z) (zoneId f quantity : Z) (s : DB) :
  0 ≤ quantity → int4 zoneId → int4 f →
  (floorInventory s !! f = None →
     post_zone_inventory zones zoneId f quantity s
     = (ErrorJson 404 "Inventory item not found", s))
  ∧ (∀ fi, floorInventory s !! f = Some fi →
       let available := fi_count fi - used f s in
       (quantity > available →
          post_zone_inventory zones zoneId f quantity s
          = (ErrorJson 409 (not_enough available), s))
       ∧ (quantity ≤ available → attached zoneId f s →
            post_zone_inventory zones zoneId f quantity s
            = (ErrorJson 409 "Already attached, use PATCH", s))
       ∧ (quantity ≤ available → ¬ attached zoneId f s →
            zoneInventory s !! zoneInventory_id_seq s = None →
            zoneId ∉ zones →
            (post_zone_inventory zones zoneId f quantity s).1
            = Next (PrismaError P2003)
            ∧ tables (post_zone_inventory zones zoneId f quantity s).2
              = tables s)
       ∧ (quantity ≤ available → ¬ attached zoneId f s →
            zoneInventory s !! zoneInventory_id_seq s = None →
            zoneId ∈ zones →
            int4 quantity → int4 (zoneInventory_id_seq s) →
            post_zone_inventory zones zoneId f quantity s
            = (Json 201 (zoneInventory_id_seq s,
                         {| zi_zoneId := zoneId; zi_floorInventoryId := f;
                            zi_quantity := quantity |}),
               allocated zoneId f quantity s)))
  ∧ (let s1 := allocated 1 1 3 (chair_stock 5) in
     let s2 := allocated 2 1 2 s1 in
     post_zone_inventory three_zones 1 1 3 (chair_stock 5)
     = (Json 201 (1, {| zi_zoneId := 1; zi_floorInventoryId := 1;
                        zi_quantity := 3 |}), s1)
     ∧ 5 - used 1 s1 = 2
     ∧ post_zone_inventory three_zones 2 1 3 s1
       = (ErrorJson 409 "Not enough available. left=2", s1)
     ∧ post_zone_inventory three_zones 2 1 2 s1
       = (Json 201 (2, {| zi_zoneId := 2; zi_floorInventoryId := 1;
                          zi_quantity := 2 |}), s2)
     ∧ 5 - used 1 s2 = 0).
Proof.
  intros Hq _ _. split; [|split].
  - by apply post_zone_inventory_404.
  - intros fi Hfi available.
    split; [|split; [|split]].
    + intros Hgt. by apply (post_zone_inventory_409_left _ _ _ _ fi).
    + intros Hle Hatt. by apply (post_zone_inventory_409_attached _ _ _ _ fi).
    + intros Hle Hatt Hfresh Hzone.
      by rewrite (post_zone_inventory_no_zone _ _ _ _ fi).
    + intros Hle Hatt Hfresh Hzone _ _.
      by apply (post_zone_inventory_201 _ _ _ _ fi).
  - vm_compute. by repeat split.
Qed.

(** The third request of Scenario A, through the decision table. *)
Lemma allocate_behaviour_witness :
  0 ≤ 2
  ∧ int4 2 ∧ int4 1
  ∧ post_zone_inventory three_zones 2 1 2 (allocated 1 1 3 (chair_stock 5))
    = (Json 201 (2, {| zi_zoneId := 2; zi_floorInventoryId := 1;
                       zi_quantity := 2 |}),
       allocated 2 1 2 (allocated 1 1 3 (chair_stock 5))).
Proof.
  assert (int4 2) as H2 by (unfold int4; lia).
  assert (int4 1) as H1 by (unfold int4; lia).
  split; [lia|]. split; [exact H2|]. split; [exact H1|].
  destruct (allocate_behaviour three_zones 2 1 2
              (allocated 1 1 3 (chair_stock 5)) ltac:(lia) H2 H1)
    as (_ & Hpresent & _).
  destruct (Hpresent {| fi_floorId := 1; fi_catalogId := "chair"; fi_count := 5 |}
              ltac:(reflexivity)) as (_ & _ & _ & Hinsert).
  apply Hinsert.
  - vm_compute. discriminate.
  - intros (id & r & Hr & Hz & _). revert Hr Hz.
    destruct (decide (id = 1)) as [->|Hne].
    + vm_compute. intros [= <-]. simpl. discriminate.
    + simpl. rewrite lookup_insert_ne by done. by rewrite lookup_empty.
  - reflexivity.
  - apply (bool_decide_unpack _). vm_compute. exact I.
  - exact H2.
  - exact H2.
Defined.

(** C3.  Re-allocate, for a new quantity ≥ 0 and an id that fits an
    INTEGER column: 404 when the allocation is absent; otherwise, with
    usedOthers the sum of the other allocations of the same stock row, 409
    with the figure count − usedOthers when the new quantity exceeds it,
    which leaves the store unchanged; and otherwise, for a quantity that
    fits the column, 200: the row of the allocation then holds the new
    quantity with its zone and its stock row, every other allocation, the
    stock and the placements are as before, and the allocated sum is
    usedOthers plus the new quantity.  Scenario D: with count 5 and another
    zone holding 2, the allocation of 3 can be set to 1, after which it
    holds 1 and the other zone 2, and cannot be set to 4 (left=3), after
    which it still holds 3. *)
Theorem reallocate_behaviour (id quantity : Z) (s : DB) :
  0 ≤ quantity → int4 id →
  (zoneInventory s !! id = None →
     patch_zone_inventory id quantity s = (ErrorJson 404 "Not found", s))
  ∧ (∀ row fi, zoneInventory s !! id = Some row →
       floorInventory s !! zi_floorInventoryId row = Some fi →
       let availableForThis :=
         fi_count fi - usedOthers (zi_floorInventoryId row) id s in
       (quantity > availableForThis →
          patch_zone_inventory id quantity s
          = (ErrorJson 409 (not_enough availableForThis), s))
       ∧ (quantity ≤ availableForThis → int4 quantity →
            let updated := {| zi_zoneId := zi_zoneId row;
                              zi_floorInventoryId := zi_floorInventoryId row;
                              zi_quantity := quantity |} in
            let s' := (patch_zone_inventory id quantity s).2 in
            (patch_zone_inventory id quantity s).1 = Json 200 updated
            ∧ zoneInventory s' !! id = Some updated
            ∧ (∀ j, j ≠ id → zoneInventory s' !! j = zoneInventory s !! j)
            ∧ floorInventory s' = floorInventory s
            ∧ zoneObject s' = zoneObject s
            ∧ used (zi_floorInventoryId row) s'
              = usedOthers (zi_floorInventoryId row) id s + quantity))
  ∧ (let s2 := allocated 2 1 2 (allocated 1 1 3 (chair_stock 5)) in
     usedOthers 1 1 s2 = 2
     ∧ (patch_zone_inventory 1 1 s2).1
       = Json 200 {| zi_zoneId := 1; zi_floorInventoryId := 1;
                     zi_quantity := 1 |}
     ∧ quantity_of 1 (patch_zone_inventory 1 1 s2).2 = Some 1
     ∧ quantity_of 2 (patch_zone_inventory 1 1 s2).2 = Some 2
     ∧ (patch_zone_inventory 1 4 s2).1
       = ErrorJson 409 "Not enough available. left=3"
     ∧ quantity_of 1 (patch_zone_inventory 1 4 s2).2 = Some 3
     ∧ quantity_of 2 (patch_zone_inventory 1 4 s2).2 = Some 2).
Proof.
  intros Hq _. split; [|split].
  - by apply patch_zone_inventory_404.
  - intros row fi Hrow Hfi availableForThis. split.
    + intros Hgt. by apply (patch_zone_inventory_409 _ _ _ row fi).
    + intros Hle _ updated s'. subst s' updated.
      rewrite (patch_zone_inventory_200 _ _ _ row fi) by done. simpl.
      split; [done|]. split; [apply lookup_insert_eq|].
      split; [intros j Hj; by apply lookup_insert_ne|].
      split; [done|]. split; [done|].
      rewrite used_insert. simpl. rewrite decide_True by done.
      unfold usedOthers. lia.
  - vm_compute. by repeat split.
Qed.

(** The first request of Scenario D, through the decision table. *)
Lemma reallocate_behaviour_witness :
  let s2 := allocated 2 1 2 (allocated 1 1 3 (chair_stock 5)) in
  0 ≤ 1 ∧ int4 1
  ∧ (patch_zone_inventory 1 1 s2).1
    = Json 200 {| zi_zoneId := 1; zi_floorInventoryId := 1; zi_quantity := 1 |}
  ∧ zoneInventory (patch_zone_inventory 1 1 s2).2 !! 1
    = Some {| zi_zoneId := 1; zi_floorInventoryId := 1; zi_quantity := 1 |}.
Proof.
  intros s2.
  assert (int4 1) as H1 by (unfold int4; lia).
  split; [lia|]. split; [exact H1|].
  destruct (reallocate_behaviour 1 1 s2 ltac:(lia) H1) as (_ & Hpresent & _).
  destruct (Hpresent
              {| zi_zoneId := 1; zi_floorInventoryId := 1; zi_quantity := 3 |}
              {| fi_floorId := 1; fi_catalogId := "chair"; fi_count := 5 |}
              ltac:(reflexivity) ltac:(reflexivity)) as (_ & Hupdate).
  destruct Hupdate as (H200 & Hrow & _).
  - vm_compute. discriminate.
  - exact H1.
  - split; [exact H200 | exact Hrow].
Defined.

(** An allocation of 3: the Place is answered 201 and leaves quantity 4, not
    2; the Remove of that placement is answered 204 and leaves quantity 3,
    not 5. *)
Lemma place_decrements_counterexample :
  let s := (post_zone_inventory three_zones 1 1 3 (chair_stock 5)).2 in
  let s' := (place_at_origin s).2 in
  let s'' := (delete_zone_objects 1 1 s').2 in
  quantity_of 1 s = Some 3
  ∧ (place_at_origin s).1 = Json 201 (1, origin_object)
  ∧ quantity_of 1 s' = Some 4
  ∧ quantity_of 1 s' ≠ Some (3 - 1)
  ∧ (delete_zone_objects 1 1 s').1 = End 204
  ∧ quantity_of 1 s'' = Some 3
  ∧ quantity_of 1 s'' ≠ Some (4 + 1).
Proof. vm_compute. by repeat split. Qed.

(** C4, amended.  Every successful Place raises the quantity of its
    allocation by one, and every successful Remove of a placement whose
    allocation row exists lowers the quantity of that allocation by
    one. *)
Theorem coupled_counter_direction (zoneId : Z) (s s' : DB) :
  (∀ zoneInventoryId x y rotation body,
     post_zone_objects zoneId zoneInventoryId x y rotation s
     = (Json 201 body, s') →
     ∃ q, quantity_of zoneInventoryId s = Some q
          ∧ quantity_of zoneInventoryId s' = Some (q + 1))
  ∧ (∀ id obj q,
       zoneObject s !! id = Some obj →
       quantity_of (zo_zoneInventoryId obj) s = Some q →
       delete_zone_objects zoneId id s = (End 204, s') →
       quantity_of (zo_zoneInventoryId obj) s' = Some (q - 1)).
Proof.
  split.
  - intros zoneInventoryId x y rotation body Hpost.
    apply post_zone_objects_inv in Hpost as (zi & Hzi & _ & _ & _ & ->).
    exists (zi_quantity zi). unfold quantity_of. rewrite Hzi. simpl.
    by rewrite lookup_insert_eq.
  - intros id obj q Hobj Hq Hdel. unfold quantity_of in *.
    destruct (zoneInventory s !! zo_zoneInventoryId obj) as [zi|] eqn:Hzi;
      [|done].
    injection Hq as <-.
    destruct (decide (zo_zoneId obj = zoneId)) as [Hzone|Hzone].
    2: { by rewrite (delete_zone_objects_400 _ _ _ obj) in Hdel. }
    rewrite (delete_zone_objects_204 _ _ _ obj zi) in Hdel by done.
    injection Hdel as <-. simpl. by rewrite lookup_insert_eq.
Qed.

(** The same Place and Remove, through the amended statement. *)
Lemma coupled_counter_direction_witness :
  quantity_of 1 (place_at_origin (allocated 1 1 3 (chair_stock 5))).2
  = Some (3 + 1)
  ∧ quantity_of 1
      (delete_zone_objects 1 1
         (place_at_origin (allocated 1 1 3 (chair_stock 5))).2).2
    = Some (4 - 1).
Proof.
  split.
  - destruct (coupled_counter_direction 1 (allocated 1 1 3 (chair_stock 5))
                (place_at_origin (allocated 1 1 3 (chair_stock 5))).2)
      as [Hplace _].
    destruct (Hplace 1 zero zero None (1, origin_object) ltac:(reflexivity))
      as (q & Hq & Hq').
    vm_compute in Hq. injection Hq as <-. exact Hq'.
  - destruct (coupled_counter_direction 1
                (place_at_origin (allocated 1 1 3 (chair_stock 5))).2
                (delete_zone_objects 1 1
                   (place_at_origin (allocated 1 1 3 (chair_stock 5))).2).2)
      as [_ Hremove].
    apply (Hremove 1 origin_object 4); reflexivity.
Defined.

(** Scenario B on a stock of 4: an allocation of 4 with four objects placed
    on it; the fifth Place is answered 201 and the allocation then carries
    five placement rows. *)
Lemma fifth_placement_counterexample :
  let s0 := (post_zone_inventory three_zones 1 1 4 (chair_stock 4)).2 in
  let s4 := place_times 4 s0 in
  quantity_of 1 s0 = Some 4
  ∧ size (zoneObject s4) = 4%nat
  ∧ map_Forall (λ _ o, zo_zoneInventoryId o = 1) (zoneObject s4)
  ∧ (place_at_origin s4).1 = Json 201 (5, origin_object)
  ∧ size (zoneObject (place_at_origin s4).2) = 5%nat
  ∧ map_Forall (λ _ o, zo_zoneInventoryId o = 1)
      (zoneObject (place_at_origin s4).2).
Proof.
  repeat split.
  - apply (bool_decide_unpack _). vm_compute. exact I.
  - apply (bool_decide_unpack _). vm_compute. exact I.
Qed.

(** C5, amended.  Place checks no capacity.  On an allocation that exists
    and belongs to the zone of the request, a Place with ordinary
    coordinates is answered 201 however many objects the allocation carries
    already, as long as the ids of the request, the raised quantity and the
    next object id, which must be free, fit an INTEGER column: the
    placement row is inserted under the next id, in the zone and on the
    allocation of the request, the other placement rows stay, the quantity
    is raised by one, and the allocation carries one placement row more. *)
Theorem place_has_no_capacity_limit (zoneId zoneInventoryId : Z)
    (x y : spec_float) (rotation : option spec_float) (s : DB)
    (zi : ZoneInventory) :
  int4 zoneId → int4 zoneInventoryId →
  zoneInventory s !! zoneInventoryId = Some zi →
  zi_zoneId zi = zoneId →
  int4 (zi_quantity zi + 1) →
  zoneObject s !! zoneObject_id_seq s = None →
  int4 (zoneObject_id_seq s) →
  ordinary x → ordinary y → (∀ r, rotation = Some r → ordinary r) →
  let s' := (post_zone_objects zoneId zoneInventoryId x y rotation s).2 in
  ∃ obj,
    (post_zone_objects zoneId zoneInventoryId x y rotation s).1
    = Json 201 (zoneObject_id_seq s, obj)
    ∧ zo_zoneId obj = zoneId
    ∧ zo_zoneInventoryId obj = zoneInventoryId
    ∧ (∃ o, zoneObject s' !! zoneObject_id_seq s = Some o
            ∧ zo_zoneId o = zoneId
            ∧ zo_zoneInventoryId o = zoneInventoryId)
    ∧ (∀ k, k ≠ zoneObject_id_seq s → zoneObject s' !! k = zoneObject s !! k)
    ∧ quantity_of zoneInventoryId s' = Some (zi_quantity zi + 1)
    ∧ size (filter (λ kr, zo_zoneInventoryId kr.2 = zoneInventoryId)
              (zoneObject s'))
      = S (size (filter (λ kr, zo_zoneInventoryId kr.2 = zoneInventoryId)
                   (zoneObject s))).
Proof.
  intros _ _ Hzi Hzone _ Hseq _ _ _ _ s'. subst s'.
  rewrite (post_zone_objects_201 _ _ _ _ _ _ zi) by done. simpl.
  eexists. split; [reflexivity|]. simpl.
  split; [done|]. split; [done|].
  split; [eexists; split; [apply lookup_insert_eq|done]|].
  split; [intros k Hk; by apply lookup_insert_ne|].
  split.
  - unfold quantity_of. simpl. by rewrite lookup_insert_eq.
  - rewrite map_filter_insert_True by done.
    apply map_size_insert_None, map_lookup_filter_None. by left.
Qed.

(** The fifth placement of Scenario B, through the amended statement. *)
Lemma place_has_no_capacity_limit_witness :
  let s4 := place_times 4 (allocated 1 1 4 (chair_stock 4)) in
  size (zoneObject s4) = 4%nat
  ∧ quantity_of 1 s4 = Some 8
  ∧ (place_at_origin s4).1 = Json 201 (5, origin_object)
  ∧ size (filter (λ kr, zo_zoneInventoryId kr.2 = 1)
            (zoneObject (place_at_origin s4).2)) = 5%nat.
Proof.
  intros s4.
  assert (int4 1 ∧ int4 9 ∧ int4 5) as (H1 & H9 & H5)
    by (unfold int4; lia).
  destruct (place_has_no_capacity_limit 1 1 zero zero None s4
              {| zi_zoneId := 1; zi_floorInventoryId := 1; zi_quantity := 8 |})
    as (obj & H201 & _ & _ & _ & _ & _ & Hsize).
  - exact H1.
  - exact H1.
  - by vm_compute.
  - reflexivity.
  - exact H9.
  - by vm_compute.
  - exact H5.
  - exact I.
  - exact I.
  - intros r [=].
  - split; [by vm_compute|]. split; [by vm_compute|].
    split; [by vm_compute|].
    unfold place_at_origin. rewrite Hsize. by vm_compute.
Defined.

(** C6.  The stock deletion route issues its two deletions as two client
    calls outside any transaction.  On scenario C the first call alone
    leaves a committed store in which the allocations and placements of
    stock 1 are gone while stock 1 is still there; an Allocate of 5 units
    served at that point is answered 201, although it is answered 409
    before the deletion and 404 after it. *)
Theorem delete_floor_inventory_two_commits :
  let s := scenario_C in
  let between :=
    (zoneInventory_deleteMany (λ kr, zi_floorInventoryId kr.2 = 1) s).2 in
  size (zoneInventory s) = 2%nat
  ∧ size (zoneObject s) = 2%nat
  ∧ delete_floor_inventory 1 s = (End 204, (floorInventory_delete 1 between).2)
  ∧ floorInventory between !! 1
    = Some {| fi_floorId := 1; fi_catalogId := "chair"; fi_count := 5 |}
  ∧ zoneInventory between = ∅
  ∧ zoneObject between = ∅
  ∧ (post_zone_inventory three_zones 3 1 5 s).1
    = ErrorJson 409 "Not enough available. left=0"
  ∧ (post_zone_inventory three_zones 3 1 5 (delete_floor_inventory 1 s).2).1
    = ErrorJson 404 "Inventory item not found"
  ∧ (post_zone_inventory three_zones 3 1 5 between).1
    = Json 201 (3, {| zi_zoneId := 3; zi_floorInventoryId := 1;
                      zi_quantity := 5 |}).
Proof. vm_compute. by repeat split. Qed.

(** X30.  What the stock deletion route does when nothing interleaves, on
    a store that respects the foreign keys: an absent id is answered 404 and
    changes nothing; a present one is answered 204 and leaves neither the
    stock row, nor an allocation that references it, nor an object that
    references a dropped allocation. *)
Lemma delete_floor_inventory_cascades (id : Z) (s : DB) :
  fk_ok s →
  (floorInventory s !! id = None →
     delete_floor_inventory id s
     = (ErrorJson 404 "Inventory item not found", s))
  ∧ (is_Some (floorInventory s !! id) →
       delete_floor_inventory id s = (End 204, without_stock id s)
       ∧ floorInventory (without_stock id s) !! id = None
       ∧ allocations_of id (without_stock id s) = ∅
       ∧ fk_ok (without_stock id s)).
Proof.
  intros Hfk. split.
  - by apply delete_floor_inventory_404.
  - intros [fi Hfi]. repeat split.
    + by apply (delete_floor_inventory_204 _ _ fi).
    + simpl. apply lookup_delete_eq.
    + apply map_empty. intros k. apply map_lookup_filter_None. right.
      intros r Hr. simpl in Hr.
      apply map_lookup_filter_Some in Hr as [_ Hr]. done.
    + by apply without_stock_fk_ok.
    + by apply without_stock_fk_ok.
Qed.

(** Place and Move keep every quantity non-negative: Place only raises
    one, Move does not touch the allocations. *)
Lemma post_zone_objects_nonneg zoneId zoneInventoryId x y rotation (s : DB) :
  quantities_nonneg s →
  quantities_nonneg (post_zone_objects zoneId zoneInventoryId x y rotation s).2.
Proof.
  intros Hnn.
  destruct (zoneInventory s !! zoneInventoryId) as [zi|] eqn:Hzi.
  2: { by rewrite post_zone_objects_404. }
  destruct (decide (zi_zoneId zi = zoneId)) as [Hzone|Hzone].
  2: { by rewrite (post_zone_objects_400 _ _ _ _ _ _ zi). }
  destruct (zoneObject s !! zoneObject_id_seq s) as [o|] eqn:Hseq.
  { rewrite (post_zone_objects_collision _ _ _ _ _ _ zi)
      by (done || (rewrite Hseq; by eexists)). done. }
  rewrite (post_zone_objects_201 _ _ _ _ _ _ zi) by done.
  unfold quantities_nonneg. simpl.
  apply map_Forall_insert_2; [|done].
  specialize (Hnn zoneInventoryId zi Hzi). simpl in *. lia.
Qed.

Lemma patch_zone_objects_allocations zoneId id x y rotation (s : DB) :
  zoneInventory (patch_zone_objects zoneId id x y rotation s).2
  = zoneInventory s.
Proof.
  unfold patch_zone_objects. case_decide; [done|].
  unfold bind, zoneObject_findUnique.
  destruct (zoneObject s !! id) as [obj|] eqn:Hobj; [|done].
  case_decide; [done|].
  unfold zoneObject_update. by rewrite Hobj.
Qed.

(** C7.  From a stock of 5 chairs: allocate 0 to zone 1, place an object,
    re-allocate to 0, remove the object.  Every request succeeds and the
    allocation is left with quantity −1. *)
Theorem remove_drives_quantity_negative :
  let r1 := post_zone_inventory three_zones 1 1 0 (chair_stock 5) in
  let r2 := place_at_origin r1.2 in
  let r3 := patch_zone_inventory 1 0 r2.2 in
  let r4 := delete_zone_objects 1 1 r3.2 in
  r1.1 = Json 201 (1, {| zi_zoneId := 1; zi_floorInventoryId := 1;
                         zi_quantity := 0 |})
  ∧ r2.1 = Json 201 (1, origin_object)
  ∧ quantity_of 1 r2.2 = Some 1
  ∧ r3.1 = Json 200 {| zi_zoneId := 1; zi_floorInventoryId := 1;
                       zi_quantity := 0 |}
  ∧ r4.1 = End 204
  ∧ quantity_of 1 r4.2 = Some (-1).
Proof. vm_compute. by repeat split. Qed.

(** C8.  Update count, for a new count ≥ 0 when the count and the id fit an
    INTEGER column, is answered 404 exactly when the stock row is absent,
    and then changes nothing.  On a present row it is answered 200 without
    a look at the allocations: the row then holds the new count with its
    floor and its catalog entry, the other stock rows, the allocations and
    the placements are as before, and so is the allocated sum; a count
    strictly below the allocated sum is accepted like any other. *)
Theorem update_count_unvalidated (id newCount : Z) (s : DB) :
  0 ≤ newCount → int4 newCount → int4 id →
  let s' := (patch_floor_inventory id (Some newCount) s).2 in
  ((patch_floor_inventory id (Some newCount) s).1
   = ErrorJson 404 "Inventory item not found"
   ↔ floorInventory s !! id = None)
  ∧ (floorInventory s !! id = None → s' = s)
  ∧ (∀ fi, floorInventory s !! id = Some fi →
       let updated := {| fi_floorId := fi_floorId fi;
                         fi_catalogId := fi_catalogId fi;
                         fi_count := newCount |} in
       (patch_floor_inventory id (Some newCount) s).1 = Json 200 updated
       ∧ floorInventory s' !! id = Some updated
       ∧ (∀ j, j ≠ id → floorInventory s' !! j = floorInventory s !! j)
       ∧ zoneInventory s' = zoneInventory s
       ∧ zoneObject s' = zoneObject s
       ∧ used id s' = used id s
       ∧ (newCount < used id s →
            fi_count <$> floorInventory s' !! id = Some newCount
            ∧ newCount < used id s')).
Proof.
  intros Hc _ _ s'. subst s'. split; [|split].
  - split.
    + intros H404. destruct (floorInventory s !! id) as [fi|] eqn:Hfi; [|done].
      by rewrite (patch_floor_inventory_200 _ _ _ fi) in H404.
    + intros Hfi. by rewrite patch_floor_inventory_404.
  - intros Hfi. by rewrite patch_floor_inventory_404.
  - intros fi Hfi updated. subst updated.
    rewrite (patch_floor_inventory_200 _ _ _ fi) by done. simpl.
    split; [done|]. split; [apply lookup_insert_eq|].
    split; [intros j Hj; by apply lookup_insert_ne|].
    split; [done|]. split; [done|]. split; [done|].
    intros Hlt. by rewrite lookup_insert_eq.
Qed.

(** Three units allocated out of five, then the count is set to 1. *)
Lemma update_count_unvalidated_witness :
  let s := allocated 1 1 3 (chair_stock 5) in
  0 ≤ 1 ∧ int4 1
  ∧ 1 < used 1 s
  ∧ (patch_floor_inventory 1 (Some 1) s).1
    = Json 200 {| fi_floorId := 1; fi_catalogId := "chair"; fi_count := 1 |}
  ∧ fi_count <$> floorInventory (patch_floor_inventory 1 (Some 1) s).2 !! 1
    = Some 1
  ∧ 1 < used 1 (patch_floor_inventory 1 (Some 1) s).2.
Proof.
  intros s.
  assert (int4 1) as H1 by (unfold int4; lia).
  assert (1 < used 1 s) as Hlt by reflexivity.
  split; [lia|]. split; [exact H1|]. split; [exact Hlt|].
  destruct (update_count_unvalidated 1 1 s ltac:(lia) H1 H1)
    as (_ & _ & Hpresent).
  destruct (Hpresent
              {| fi_floorId := 1; fi_catalogId := "chair"; fi_count := 5 |}
              ltac:(reflexivity))
    as (H200 & _ & _ & _ & _ & _ & Hbelow).
  split; [exact H200|]. exact (Hbelow Hlt).
Defined.

(** C9.  Compute usage answers, for every stock row of the floor, its
    count, used = the sum of the quantities of the allocations that
    reference it, and available = max(count − used, 0), which is never
    negative.  The route leaves the store as it was, so asking twice in a
    row gives the same answer twice. *)
Theorem compute_usage (floorId : Z) (s : DB) :
  ∃ result,
    get_inventory_with_usage floorId s = (Json 200 result, s)
    ∧ (∀ id fi, floorInventory s !! id = Some fi → fi_floorId fi = floorId →
         {| u_id := id;
            u_floorId := floorId;
            u_catalogId := fi_catalogId fi;
            u_count := fi_count fi;
            u_used := used id s;
            u_available := Z.max (fi_count fi - used id s) 0 |} ∈ result)
    ∧ Forall (λ u, ∃ fi, floorInventory s !! u_id u = Some fi
                         ∧ fi_floorId fi = floorId
                         ∧ u_count u = fi_count fi
                         ∧ u_used u = used (u_id u) s
                         ∧ u_available u = Z.max (u_count u - u_used u) 0
                         ∧ 0 ≤ u_available u) result
    ∧ get_inventory_with_usage floorId (get_inventory_with_usage floorId s).2
      = get_inventory_with_usage floorId s.
Proof.
  rewrite get_inventory_with_usage_reads. eexists. split; [reflexivity|].
  repeat split.
  - intros id fi Hfi Hfloor.
    apply (list_elem_of_fmap_2' _ _ (id, fi)).
    + apply elem_of_map_to_list, map_lookup_filter_Some. by split.
    + unfold usage_of. simpl. by rewrite Hfloor.
  - apply Forall_fmap, Forall_forall. intros [id fi] Hin.
    apply elem_of_map_to_list, map_lookup_filter_Some in Hin as [Hfi Hfloor].
    simpl in *. exists fi. repeat split; (done || lia).
  - simpl. apply get_inventory_with_usage_reads.
Qed.

(** Count 1 with 3 units allocated: used 3, available 0. *)
Lemma compute_usage_witness :
  let s := set_floorInventory
             {[ 1 := {| fi_floorId := 1; fi_catalogId := "chair";
                        fi_count := 1 |} ]}
             (allocated 1 1 3 (chair_stock 5)) in
  ∃ result,
    get_inventory_with_usage 1 s = (Json 200 result, s)
    ∧ {| u_id := 1; u_floorId := 1; u_catalogId := "chair";
         u_count := 1; u_used := 3; u_available := 0 |} ∈ result.
Proof.
  intros s. destruct (compute_usage 1 s) as (result & Hget & Hmem & _).
  exists result. split; [exact Hget|].
  apply (Hmem 1 {| fi_floorId := 1; fi_catalogId := "chair"; fi_count := 1 |});
    reflexivity.
Defined.

(** C10.  Removing a placement right after the Place that created it
    succeeds, gives the allocation its quantity of before the Place back,
    and leaves the placements, the allocations and the stock exactly as
    they were before the Place. *)
Theorem place_remove_roundtrip (zoneId zoneInventoryId : Z) (x y : spec_float)
    (rotation : option spec_float) (s s1 : DB) (id : Z) (obj : ZoneObject) :
  post_zone_objects zoneId zoneInventoryId x y rotation s
  = (Json 201 (id, obj), s1) →
  ∃ s2, delete_zone_objects zoneId id s1 = (End 204, s2)
        ∧ quantity_of zoneInventoryId s2 = quantity_of zoneInventoryId s
        ∧ zoneObject s2 = zoneObject s
        ∧ zoneInventory s2 = zoneInventory s
        ∧ floorInventory s2 = floorInventory s.
Proof.
  intros Hpost.
  pose proof Hpost as Hbody.
  apply post_zone_objects_inv in Hpost as (zi & Hzi & Hzone & Hseq & Hid & ->).
  rewrite (post_zone_objects_201 _ _ _ _ _ _ zi) in Hbody by done.
  injection Hbody as <- <-.
  eexists. split.
  - apply (delete_zone_objects_204 _ _ _
             {| zo_zoneId := zoneId; zo_zoneInventoryId := zoneInventoryId;
                zo_x := x; zo_y := y; zo_rotation := default zero rotation |}
             (with_quantity (zi_quantity zi + 1) zi)).
    + simpl. apply lookup_insert_eq.
    + done.
    + simpl. apply lookup_insert_eq.
  - assert (zoneInventory
              (set_zoneInventory
                 (<[zoneInventoryId :=
                      with_quantity
                        (zi_quantity (with_quantity (zi_quantity zi + 1) zi) - 1)
                        (with_quantity (zi_quantity zi + 1) zi)]>
                    (zoneInventory
                       (placed zoneId zoneInventoryId x y rotation zi s)))
                 (set_zoneObject
                    (delete (zoneObject_id_seq s)
                       (zoneObject
                          (placed zoneId zoneInventoryId x y rotation zi s)))
                    (placed zoneId zoneInventoryId x y rotation zi s)))
            = zoneInventory s) as Hsame.
    { simpl. rewrite insert_insert_eq. apply insert_id. rewrite Hzi.
      f_equal. destruct zi as [z f q]. unfold with_quantity. simpl.
      f_equal. lia. }
    repeat split.
    + unfold quantity_of. simpl in *. by rewrite Hsame.
    + simpl. rewrite delete_insert_eq. by apply delete_id.
    + exact Hsame.
Qed.

(** A Place on an allocation of 3 and the Remove of that placement. *)
Lemma place_remove_roundtrip_witness :
  ∃ s2, delete_zone_objects 1 1
          (place_at_origin (allocated 1 1 3 (chair_stock 5))).2 = (End 204, s2)
        ∧ quantity_of 1 s2 = quantity_of 1 (allocated 1 1 3 (chair_stock 5))
        ∧ zoneObject s2 = zoneObject (allocated 1 1 3 (chair_stock 5))
        ∧ zoneInventory s2 = zoneInventory (allocated 1 1 3 (chair_stock 5))
        ∧ floorInventory s2 = floorInventory (allocated 1 1 3 (chair_stock 5)).
Proof.
  apply (place_remove_roundtrip 1 1 zero zero None
           (allocated 1 1 3 (chair_stock 5))
           (place_at_origin (allocated 1 1 3 (chair_stock 5))).2
           1 origin_object).
  reflexivity.
Defined.

(** * Further properties of the inventory routes *)

(** ** Refused requests *)

Lemma patch_floor_inventory_400 (id c : Z) (s : DB) :
  c < 0 →
  patch_floor_inventory id (Some c) s
  = (ErrorJson 400 "count must be integer >= 0", s).
Proof.
  intros Hc. unfold patch_floor_inventory.
  by rewrite bool_decide_eq_true_2.
Qed.

Lemma patch_floor_inventory_absent_404 (id : Z) (s : DB) :
  floorInventory s !! id = None →
  patch_floor_inventory id None s
  = (ErrorJson 404 "Inventory item not found", s).
Proof.
  intros Hfi. unfold patch_floor_inventory, floorInventory_update.
  by rewrite Hfi.
Qed.

Lemma set_floorInventory_id (s : DB) : set_floorInventory (floorInventory s) s = s.
Proof. by destruct s. Qed.

Lemma patch_floor_inventory_absent_200 (id : Z) (s : DB) fi :
  floorInventory s !! id = Some fi →
  patch_floor_inventory id None s = (Json 200 fi, s).
Proof.
  intros Hfi. unfold patch_floor_inventory, floorInventory_update.
  rewrite Hfi. by rewrite insert_id, set_floorInventory_id.
Qed.

Lemma patch_zone_objects_cases zoneId id x y rotation (s : DB) :
  (∃ status error,
     patch_zone_objects zoneId id x y rotation s = (ErrorJson status error, s))
  ∨ (∃ obj, zoneObject s !! id = Some obj ∧ zo_zoneId obj = zoneId
            ∧ ¬ (x = None ∧ y = None ∧ rotation = None)
            ∧ patch_zone_objects zoneId id x y rotation s
              = (Json 200 (move_data x y rotation obj),
                 set_zoneObject
                   (<[id := move_data x y rotation obj]> (zoneObject s)) s)).
Proof.
  unfold patch_zone_objects. case_decide as Hnone; [left; eauto|].
  unfold bind, zoneObject_findUnique.
  destruct (zoneObject s !! id) as [obj|] eqn:Hobj; [|left; eauto].
  case_decide as Hzone; [left; eauto|].
  right. exists obj. unfold zoneObject_update. rewrite Hobj.
  repeat split; [|done..].
  by destruct (decide (zo_zoneId obj = zoneId)).
Qed.

Lemma delete_zone_objects_cases zoneId id (s : DB) :
  (∃ status error,
     delete_zone_objects zoneId id s = (ErrorJson status error, s))
  ∨ (∃ obj, zoneObject s !! id = Some obj ∧ zo_zoneId obj = zoneId
            ∧ delete_zone_objects zoneId id s
              = (End 204,
                 match zoneInventory s !! zo_zoneInventoryId obj with
                 | Some zi =>
                     set_zoneInventory
                       (<[zo_zoneInventoryId obj :=
                            with_quantity (zi_quantity zi - 1) zi]>
                          (zoneInventory s))
                       (set_zoneObject (delete id (zoneObject s)) s)
                 | None => set_zoneObject (delete id (zoneObject s)) s
                 end)).
Proof.
  destruct (zoneObject s !! id) as [obj|] eqn:Hobj.
  2: { left. rewrite delete_zone_objects_404 by done. eauto. }
  destruct (decide (zo_zoneId obj = zoneId)) as [Hzone|Hzone].
  2: { left. rewrite (delete_zone_objects_400 _ _ _ obj) by done. eauto. }
  right. exists obj. repeat split; [done..|].
  destruct (zoneInventory s !! zo_zoneInventoryId obj) as [zi|] eqn:Hzi.
  - by apply (delete_zone_objects_204 _ _ _ obj zi).
  - by apply (delete_zone_objects_204_dangling _ _ _ obj).
Qed.

Lemma post_zone_objects_cases zoneId zoneInventoryId x y rotation (s : DB) :
  (refused (post_zone_objects zoneId zoneInventoryId x y rotation s).1
   ∧ (post_zone_objects zoneId zoneInventoryId x y rotation s).2 = s)
  ∨ (∃ zi, zoneInventory s !! zoneInventoryId = Some zi
           ∧ zi_zoneId zi = zoneId
           ∧ zoneObject s !! zoneObject_id_seq s = None
           ∧ post_zone_objects zoneId zoneInventoryId x y rotation s
             = (Json 201 (zoneObject_id_seq s,
                          {| zo_zoneId := zoneId;
                             zo_zoneInventoryId := zoneInventoryId;
                             zo_x := x; zo_y := y;
                             zo_rotation := default zero rotation |}),
                placed zoneId zoneInventoryId x y rotation zi s)).
Proof.
  destruct (zoneInventory s !! zoneInventoryId) as [zi|] eqn:Hzi.
  2: { left. by rewrite post_zone_objects_404. }
  destruct (decide (zi_zoneId zi = zoneId)) as [Hzone|Hzone].
  2: { left. by rewrite (post_zone_objects_400 _ _ _ _ _ _ zi). }
  destruct (zoneObject s !! zoneObject_id_seq s) as [o|] eqn:Hseq.
  { left. rewrite (post_zone_objects_collision _ _ _ _ _ _ zi)
      by (done || (rewrite Hseq; by eexists)). done. }
  right. exists zi. repeat split; [done..|]. by apply post_zone_objects_201.
Qed.



(** ** Accounting of the allocated sum *)

Lemma used_others_of (f id : Z) (s : DB) row :
  zoneInventory s !! id = Some row → zi_floorInventoryId row = f →
  sum_quantity (delete id (allocations_of f s)) = used f s - zi_quantity row.
Proof.
  intros Hrow Hf. rewrite used_others, Hrow. by rewrite decide_True.
Qed.

Lemma used_others_other (f id : Z) (s : DB) row :
  zoneInventory s !! id = Some row → zi_floorInventoryId row ≠ f →
  sum_quantity (delete id (allocations_of f s)) = used f s.
Proof.
  intros Hrow Hf. rewrite used_others, Hrow. rewrite decide_False by done. lia.
Qed.

(** X2.  A successful Allocate raises the allocated sum of its stock row by
    exactly the requested quantity, leaves the sums of the other stock
    rows, the stock table and the placements as they were, and the zone
    then holds an allocation of that stock row. *)
Theorem allocate_accounting (zones : gset Z) (zoneId f quantity : Z) (s s' : DB) body :
  post_zone_inventory zones zoneId f quantity s = (Json 201 body, s') →
  used f s' = used f s + quantity
  ∧ (∀ f', f' ≠ f → used f' s' = used f' s)
  ∧ attached zoneId f s'
  ∧ floorInventory s' = floorInventory s
  ∧ zoneObject s' = zoneObject s.
Proof.
  intros Hpost.
  apply post_zone_inventory_inv in Hpost as (fi & Hfi & Hq & Hfresh & ->).
  assert (∀ f', used f' (allocated zoneId f quantity s)
                = (if decide (f = f') then quantity else 0) + used f' s)
    as Hused.
  { intros f'.
    rewrite (used_ext f' _
               (set_zoneInventory
                  (<[zoneInventory_id_seq s :=
                       {| zi_zoneId := zoneId; zi_floorInventoryId := f;
                          zi_quantity := quantity |}]> (zoneInventory s)) s))
      by done.
    rewrite used_insert, used_others, Hfresh. simpl. lia. }
  repeat split.
  - rewrite Hused, decide_True by done. lia.
  - intros f' Hne. rewrite Hused, decide_False by done. lia.
  - exists (zoneInventory_id_seq s). eexists. split; [apply lookup_insert_eq|].
    done.
Qed.

Lemma allocate_accounting_witness :
  used 1 (post_zone_inventory three_zones 2 1 2 (allocated 1 1 3 (chair_stock 5))).2
  = used 1 (allocated 1 1 3 (chair_stock 5)) + 2.
Proof.
  apply (allocate_accounting three_zones 2 1 2 (allocated 1 1 3 (chair_stock 5)) _
           (2, {| zi_zoneId := 2; zi_floorInventoryId := 1; zi_quantity := 2 |})).
  reflexivity.
Defined.

(** X3.  A successful Re-allocate replaces the old quantity by the new one
    in the allocated sum of the stock row, keeps the zone and the stock
    row of the allocation, and leaves the other sums, the stock table and
    the placements as they were. *)
Theorem reallocate_accounting (id quantity : Z) (s s' : DB) body :
  patch_zone_inventory id quantity s = (Json 200 body, s') →
  ∃ row, zoneInventory s !! id = Some row
         ∧ zoneInventory s' !! id = Some (with_quantity quantity row)
         ∧ used (zi_floorInventoryId row) s'
           = used (zi_floorInventoryId row) s - zi_quantity row + quantity
         ∧ (∀ f', f' ≠ zi_floorInventoryId row → used f' s' = used f' s)
         ∧ floorInventory s' = floorInventory s
         ∧ zoneObject s' = zoneObject s.
Proof.
  intros Hpatch.
  apply patch_zone_inventory_inv in Hpatch as (row & fi & Hrow & Hfi & Hq & ->).
  exists row. repeat split; [done| |..].
  - simpl. apply lookup_insert_eq.
  - rewrite used_insert. simpl. rewrite decide_True by done.
    rewrite (used_others_of _ _ _ row) by done. lia.
  - intros f' Hne. rewrite used_insert. simpl.
    rewrite decide_False by done.
    rewrite (used_others_other _ _ _ row) by done. lia.
Qed.

Lemma reallocate_accounting_witness :
  ∃ row, zoneInventory (allocated 2 1 2 (allocated 1 1 3 (chair_stock 5))) !! 1
         = Some row
         ∧ used 1 (patch_zone_inventory 1 1
                     (allocated 2 1 2 (allocated 1 1 3 (chair_stock 5)))).2
           = used 1 (allocated 2 1 2 (allocated 1 1 3 (chair_stock 5)))
             - zi_quantity row + 1.
Proof.
  destruct (reallocate_accounting 1 1
              (allocated 2 1 2 (allocated 1 1 3 (chair_stock 5)))
              (patch_zone_inventory 1 1
                 (allocated 2 1 2 (allocated 1 1 3 (chair_stock 5)))).2
              {| zi_zoneId := 1; zi_floorInventoryId := 1; zi_quantity := 1 |}
              ltac:(reflexivity))
    as (row & Hrow & _ & Hused & _).
  exists row. split; [exact Hrow|].
  pose proof Hrow as Hrow'. vm_compute in Hrow'. injection Hrow' as <-.
  exact Hused.
Defined.

(** X4.  Deallocate answers 404 exactly when the allocation is absent.
    When it succeeds the allocation row is gone, the placement rows that
    referenced it are gone with it and the other placement rows stay, and
    the allocated sum of its stock row drops by its quantity. *)
Theorem deallocate_cascades (id : Z) (s : DB) :
  (zoneInventory s !! id = None
   ↔ (delete_zone_inventory id s).1 = ErrorJson 404 "Not found")
  ∧ (∀ row, zoneInventory s !! id = Some row →
       let s' := (delete_zone_inventory id s).2 in
       (delete_zone_inventory id s).1 = End 204
       ∧ zoneInventory s' = delete id (zoneInventory s)
       ∧ (∀ k o, zoneObject s' !! k = Some o
                 ↔ zoneObject s !! k = Some o ∧ zo_zoneInventoryId o ≠ id)
       ∧ placements_of id s' = ∅
       ∧ floorInventory s' = floorInventory s
       ∧ used (zi_floorInventoryId row) s'
         = used (zi_floorInventoryId row) s - zi_quantity row).
Proof.
  split.
  - split.
    + intros Hnone. by rewrite delete_zone_inventory_404.
    + destruct (zoneInventory s !! id) as [row|] eqn:Hrow; [|done].
      by rewrite (delete_zone_inventory_204 _ _ row).
  - intros row Hrow s'. subst s'.
    rewrite (delete_zone_inventory_204 _ _ row) by done. simpl.
    destruct (zoneInventory_drop_singleton id row s) as [Hzi Hfl].
    assert (∀ k o, zoneObject (zoneInventory_drop {[id := row]} s) !! k = Some o
                   ↔ zoneObject s !! k = Some o ∧ zo_zoneInventoryId o ≠ id)
      as Hobjects.
    { intros k o. simpl. rewrite map_lookup_filter_Some. simpl.
      rewrite lookup_singleton_None. split; intros [Ho Hne]; split; congruence. }
    split; [done|]. split; [done|]. split; [exact Hobjects|].
    split; [|split; [done|]].
    + apply map_empty. intros k. apply map_lookup_filter_None. right.
      intros o Ho. simpl. apply Hobjects in Ho. tauto.
    + rewrite (used_delete _ id s) by done. unfold usedOthers.
      by rewrite (used_others_of _ _ _ row).
Qed.

Lemma deallocate_cascades_witness :
  let s := (place_at_origin (allocated 1 1 3 (chair_stock 5))).2 in
  (delete_zone_inventory 1 s).1 = End 204
  ∧ placements_of 1 (delete_zone_inventory 1 s).2 = ∅
  ∧ used 1 (delete_zone_inventory 1 s).2 = used 1 s - 4.
Proof.
  intros s.
  destruct (deallocate_cascades 1 s) as [_ Hpresent].
  destruct (Hpresent
              {| zi_zoneId := 1; zi_floorInventoryId := 1; zi_quantity := 4 |}
              ltac:(reflexivity))
    as (H204 & _ & _ & Hplacements & _ & Hused).
  split; [exact H204|]. split; [exact Hplacements | exact Hused].
Defined.

(** X5.  Placements move the allocated sum of the stock row: a successful
    Place raises it by one without looking at the count, so a Place on a
    stock row that is allocated in full leaves it overcommitted; a
    successful Remove of a placement whose allocation exists lowers it by
    one. *)
Theorem placements_move_used (zoneId : Z) (s s' : DB) :
  (∀ zoneInventoryId x y rotation body,
     post_zone_objects zoneId zoneInventoryId x y rotation s
     = (Json 201 body, s') →
     ∃ zi, zoneInventory s !! zoneInventoryId = Some zi
           ∧ used (zi_floorInventoryId zi) s'
             = used (zi_floorInventoryId zi) s + 1
           ∧ floorInventory s' = floorInventory s
           ∧ (∀ fi, floorInventory s !! zi_floorInventoryId zi = Some fi →
                used (zi_floorInventoryId zi) s = fi_count fi →
                ¬ no_overcommit s'))
  ∧ (∀ id obj zi,
       zoneObject s !! id = Some obj →
       zoneInventory s !! zo_zoneInventoryId obj = Some zi →
       delete_zone_objects zoneId id s = (End 204, s') →
       used (zi_floorInventoryId zi) s' = used (zi_floorInventoryId zi) s - 1
       ∧ floorInventory s' = floorInventory s).
Proof.
  split.
  - intros zoneInventoryId x y rotation body Hpost.
    apply post_zone_objects_inv in Hpost as (zi & Hzi & _ & _ & _ & ->).
    exists zi.
    assert (used (zi_floorInventoryId zi)
              (placed zoneId zoneInventoryId x y rotation zi s)
            = used (zi_floorInventoryId zi) s + 1) as Hused.
    { rewrite (used_ext _ _
                 (set_zoneInventory
                    (<[zoneInventoryId := with_quantity (zi_quantity zi + 1) zi]>
                       (zoneInventory s)) s)) by done.
      rewrite used_insert. simpl. rewrite decide_True by done.
      rewrite (used_others_of _ _ _ zi) by done. lia. }
    split; [done|]. split; [done|]. split; [done|].
    intros fi Hfi Hfull Hno.
    specialize (Hno (zi_floorInventoryId zi) fi Hfi). simpl in Hno. lia.
  - intros id obj zi Hobj Hzi Hdel.
    destruct (decide (zo_zoneId obj = zoneId)) as [Hzone|Hzone].
    2: { by rewrite (delete_zone_objects_400 _ _ _ obj) in Hdel. }
    rewrite (delete_zone_objects_204 _ _ _ obj zi) in Hdel by done.
    injection Hdel as <-. split; [|done].
    rewrite (used_ext _ _
               (set_zoneInventory
                  (<[zo_zoneInventoryId obj :=
                       with_quantity (zi_quantity zi - 1) zi]>
                     (zoneInventory s)) s)) by done.
    rewrite used_insert. simpl. rewrite decide_True by done.
    rewrite (used_others_of _ _ _ zi) by done. lia.
Qed.

(** All five chairs allocated to zone 1; one Place later six are used. *)
Lemma placements_move_used_witness :
  let s := allocated 1 1 5 (chair_stock 5) in
  used 1 s = 5
  ∧ ∃ zi, zoneInventory s !! 1 = Some zi
          ∧ used (zi_floorInventoryId zi) (place_at_origin s).2
            = used (zi_floorInventoryId zi) s + 1
          ∧ ¬ no_overcommit (place_at_origin s).2.
Proof.
  intros s. split; [reflexivity|].
  destruct (placements_move_used 1 s (place_at_origin s).2) as [Hplace _].
  destruct (Hplace 1 zero zero None (1, origin_object) ltac:(reflexivity))
    as (zi & Hzi & Hused & _ & Hover).
  exists zi. split; [exact Hzi|]. split; [exact Hused|].
  vm_compute in Hzi. injection Hzi as <-.
  apply (Hover {| fi_floorId := 1; fi_catalogId := "chair"; fi_count := 5 |});
    reflexivity.
Defined.

(** ** Placement rows against the quantity *)

Lemma placements_of_insert (a k : Z) (o : ZoneObject) (s : DB) :
  placements_of a (set_zoneObject (<[k := o]> (zoneObject s)) s)
  = if decide (zo_zoneInventoryId o = a)
    then <[k := o]> (placements_of a s)
    else delete k (placements_of a s).
Proof.
  unfold placements_of. simpl. rewrite map_filter_insert. simpl.
  case_decide; [done|]. by rewrite map_filter_delete.
Qed.

Lemma placements_of_delete (a k : Z) (s : DB) :
  placements_of a (set_zoneObject (delete k (zoneObject s)) s)
  = delete k (placements_of a s).
Proof. unfold placements_of. simpl. by rewrite map_filter_delete. Qed.

Lemma placements_of_ext (a : Z) (s1 s2 : DB) :
  zoneObject s1 = zoneObject s2 → placements_of a s1 = placements_of a s2.
Proof. unfold placements_of. by intros ->. Qed.

Lemma placements_of_lookup (a k : Z) (s : DB) :
  placements_of a s !! k
  = match zoneObject s !! k with
    | Some o => if decide (zo_zoneInventoryId o = a) then Some o else None
    | None => None
    end.
Proof.
  unfold placements_of. destruct (zoneObject s !! k) as [o|] eqn:Ho.
  - case_decide.
    + by apply map_lookup_filter_Some.
    + apply map_lookup_filter_None. right. intros o' Ho'. simpl. congruence.
  - apply map_lookup_filter_None. by left.
Qed.

Lemma size_placements_pos (a k : Z) (s : DB) o :
  zoneObject s !! k = Some o → zo_zoneInventoryId o = a →
  (0 < size (placements_of a s))%nat.
Proof.
  intros Ho Ha.
  assert (placements_of a s !! k = Some o) as Hk.
  { rewrite placements_of_lookup, Ho. by rewrite decide_True. }
  destruct (size (placements_of a s)) eqn:Hsize; [|lia].
  apply map_size_empty_inv in Hsize. rewrite Hsize in Hk.
  by rewrite lookup_empty in Hk.
Qed.

(** X6.  Placement rows and quantity move together: for every allocation,
    quantity minus the number of its placement rows is the same before and
    after any Place, Move or Remove request, accepted or refused. *)
Theorem placements_keep_slack (op : placement_op) (a : Z) (s : DB) :
  slack a (placement_step op s) = slack a s.
Proof.
  destruct op as [zoneId zoneInventoryId x y rotation
                 |zoneId id x y rotation|zoneId id]; simpl.
  - destruct (post_zone_objects_cases zoneId zoneInventoryId x y rotation s)
      as [[_ ->]|(zi & Hzi & Hzone & Hseq & ->)]; [done|]. simpl.
    unfold slack, quantity_of.
    rewrite (placements_of_ext a _
               (set_zoneObject
                  (<[zoneObject_id_seq s :=
                       {| zo_zoneId := zoneId;
                          zo_zoneInventoryId := zoneInventoryId;
                          zo_x := x; zo_y := y;
                          zo_rotation := default zero rotation |}]>
                     (zoneObject s)) s)) by done.
    rewrite placements_of_insert. simpl.
    assert (placements_of a s !! zoneObject_id_seq s = None) as Hnone.
    { by rewrite placements_of_lookup, Hseq. }
    destruct (decide (zoneInventoryId = a)) as [->|Hne].
    + rewrite lookup_insert_eq, Hzi. simpl.
      rewrite map_size_insert_None by done. f_equal. lia.
    + rewrite lookup_insert_ne by done. by rewrite delete_id.
  - destruct (patch_zone_objects_cases zoneId id x y rotation s)
      as [(? & ? & ->)|(obj & Hobj & _ & _ & ->)]; [done|]. simpl.
    unfold slack, quantity_of. simpl. f_equal.
    rewrite placements_of_insert. simpl.
    pose proof (placements_of_lookup a id s) as Hlook. rewrite Hobj in Hlook.
    case_decide.
    + rewrite map_size_insert_Some; [done|]. rewrite Hlook. by eexists.
    + by rewrite delete_id.
  - destruct (delete_zone_objects_cases zoneId id s)
      as [(? & ? & ->)|(obj & Hobj & _ & ->)]; [done|]. simpl.
    pose proof (placements_of_lookup a id s) as Hlook. rewrite Hobj in Hlook.
    destruct (zoneInventory s !! zo_zoneInventoryId obj) as [zi|] eqn:Hzi.
    + unfold slack, quantity_of. simpl.
      rewrite (placements_of_ext a _
                 (set_zoneObject (delete id (zoneObject s)) s)) by done.
      rewrite placements_of_delete.
      destruct (decide (zo_zoneInventoryId obj = a)) as [Ha|Ha].
      * subst a. rewrite lookup_insert_eq, Hzi. simpl.
        rewrite map_size_delete_Some by (rewrite Hlook; by eexists).
        pose proof (size_placements_pos _ id s obj Hobj eq_refl).
        f_equal. lia.
      * rewrite lookup_insert_ne by done. by rewrite delete_id.
    + unfold slack, quantity_of. simpl. rewrite placements_of_delete.
      destruct (decide (zo_zoneInventoryId obj = a)) as [Ha|Ha].
      * subst a. by rewrite Hzi.
      * by rewrite delete_id.
Qed.

(** ** What the routes keep *)

Lemma post_zone_inventory_not_attached {zones : gset Z} (zoneId f quantity : Z) (s s' : DB) body :
  post_zone_inventory zones zoneId f quantity s = (Json 201 body, s') →
  ¬ attached zoneId f s.
Proof.
  intros Hpost Hatt.
  pose proof Hpost as Hinv.
  apply post_zone_inventory_inv in Hinv as (fi & Hfi & Hq & _ & _).
  rewrite (post_zone_inventory_409_attached _ _ _ _ fi) in Hpost
    by (done || lia).
  done.
Qed.

Lemma delete_floor_inventory_state (id : Z) (s : DB) :
  (delete_floor_inventory id s).2
  = match floorInventory s !! id with
    | Some _ => without_stock id s
    | None => zoneInventory_drop (allocations_of id s) s
    end.
Proof.
  destruct (floorInventory s !! id) as [fi|] eqn:Hfi.
  - by rewrite (delete_floor_inventory_204 _ _ fi).
  - unfold delete_floor_inventory, bind, zoneInventory_deleteMany.
    fold (allocations_of id s). cbv zeta.
    unfold floorInventory_delete. simpl. by rewrite Hfi.
Qed.

Lemma step_effect {zones : gset Z} (r : request) (s : DB) : effect s (step zones r s).
Proof.
  destruct r as [[zoneId f quantity|id quantity|id]
                |[zoneId zoneInventoryId x y rotation
                 |zoneId id x y rotation|zoneId id]
                |id count|id]; simpl.
  - destruct (post_zone_inventory_cases (zones:=zones) zoneId f quantity s)
      as [(body & s' & Hpost)|(? & ? & ->)]; [|constructor].
    rewrite Hpost. simpl.
    pose proof (post_zone_inventory_not_attached _ _ _ _ _ _ Hpost).
    apply post_zone_inventory_inv in Hpost as (fi & Hfi & _ & Hfresh & ->).
    by apply (effect_allocate s zoneId f quantity fi).
  - destruct (patch_zone_inventory_cases id quantity s)
      as [(body & s' & Hpatch)|[(? & ? & ->)|(? & ->)]]; [|constructor..].
    rewrite Hpatch. simpl.
    apply patch_zone_inventory_inv in Hpatch as (row & fi & Hrow & _ & _ & ->).
    by apply effect_quantity.
  - destruct (zoneInventory s !! id) as [row|] eqn:Hrow.
    + rewrite (delete_zone_inventory_204 _ _ row) by done. simpl.
      apply effect_drop. by apply map_singleton_subseteq_l.
    + rewrite delete_zone_inventory_404 by done. constructor.
  - destruct (post_zone_objects_cases zoneId zoneInventoryId x y rotation s)
      as [[_ ->]|(zi & Hzi & _ & Hseq & ->)]; [constructor|].
    by apply effect_place.
  - destruct (patch_zone_objects_cases zoneId id x y rotation s)
      as [(? & ? & ->)|(obj & Hobj & _ & _ & ->)]; [constructor|].
    by apply effect_move.
  - destruct (delete_zone_objects_cases zoneId id s)
      as [(? & ? & ->)|(obj & Hobj & _ & ->)]; [constructor|]. simpl.
    destruct (zoneInventory s !! zo_zoneInventoryId obj) as [zi|] eqn:Hzi.
    + by apply (effect_remove_decrement s id obj zi).
    + by apply (effect_remove s id obj).
  - destruct count as [c|].
    + destruct (decide (c < 0)) as [Hc|Hc].
      { rewrite patch_floor_inventory_400 by done. constructor. }
      destruct (floorInventory s !! id) as [fi|] eqn:Hfi.
      * rewrite (patch_floor_inventory_200 _ _ _ fi) by (done || lia).
        apply effect_count; [done | lia].
      * rewrite patch_floor_inventory_404 by (done || lia). constructor.
    + destruct (floorInventory s !! id) as [fi|] eqn:Hfi.
      * rewrite (patch_floor_inventory_absent_200 _ _ fi) by done. constructor.
      * rewrite patch_floor_inventory_absent_404 by done. constructor.
  - rewrite delete_floor_inventory_state.
    destruct (floorInventory s !! id) as [fi|] eqn:Hfi.
    + by apply (effect_delete_stock s id fi).
    + apply effect_drop. apply map_filter_subseteq.
Qed.

Lemma is_Some_insert_keep {A} (m : gmap Z A) (i j : Z) (x : A) :
  is_Some (m !! j) → is_Some (<[i := x]> m !! j).
Proof. intros Hj. apply lookup_insert_is_Some. destruct (decide (i = j)); auto. Qed.

Lemma effect_fk_ok (s s' : DB) : fk_ok s → effect s s' → fk_ok s'.
Proof.
  intros [Hzi Hzo] Heff.
  destruct Heff as [|zoneId f quantity fi Hfi Hfresh Hatt
                    |id quantity row Hrow
                    |gone Hgone
                    |zoneId zoneInventoryId x y rotation zi Hrow Hseq
                    |id obj x y rotation Hobj
                    |id obj Hobj
                    |id obj zi Hobj Hrow
                    |id count fi Hfi
                    |id fi Hfi].
  - done.
  - split.
    + intros k r Hr. simpl in *.
      apply lookup_insert_Some in Hr as [[_ <-]|[_ Hr]]; simpl.
      * by rewrite Hfi.
      * by apply (Hzi k r).
    + intros k o Ho. simpl in *. apply is_Some_insert_keep. by apply (Hzo k o).
  - split.
    + intros k r Hr. simpl in *.
      apply lookup_insert_Some in Hr as [[_ <-]|[_ Hr]]; simpl.
      * by apply (Hzi id row).
      * by apply (Hzi k r).
    + intros k o Ho. simpl in *. apply is_Some_insert_keep. by apply (Hzo k o).
  - split.
    + intros k r Hr. simpl in *.
      apply lookup_difference_Some in Hr as [Hr _]. by apply (Hzi k r).
    + intros k o Ho. simpl in *.
      apply map_lookup_filter_Some in Ho as [Ho Hnone]. simpl in Hnone.
      apply lookup_difference_is_Some. split; [|done]. by apply (Hzo k o).
  - split.
    + intros k r Hr. simpl in *.
      apply lookup_insert_Some in Hr as [[_ <-]|[_ Hr]]; simpl.
      * by apply (Hzi zoneInventoryId zi).
      * by apply (Hzi k r).
    + intros k o Ho. simpl in *.
      apply lookup_insert_Some in Ho as [[_ <-]|[_ Ho]]; simpl.
      * rewrite lookup_insert_eq. by eexists.
      * apply is_Some_insert_keep. by apply (Hzo k o).
  - split; [done|].
    intros k o Ho. simpl in *.
    apply lookup_insert_Some in Ho as [[_ <-]|[_ Ho]]; simpl.
    + by apply (Hzo id obj).
    + by apply (Hzo k o).
  - split; [done|].
    intros k o Ho. simpl in *.
    apply lookup_delete_Some in Ho as [_ Ho]. by apply (Hzo k o).
  - split.
    + intros k r Hr. simpl in *.
      apply lookup_insert_Some in Hr as [[_ <-]|[_ Hr]]; simpl.
      * by apply (Hzi (zo_zoneInventoryId obj) zi).
      * by apply (Hzi k r).
    + intros k o Ho. simpl in *.
      apply lookup_delete_Some in Ho as [_ Ho].
      apply is_Some_insert_keep. by apply (Hzo k o).
  - split; [|done].
    intros k r Hr. simpl in *. apply is_Some_insert_keep. by apply (Hzi k r).
  - by apply without_stock_fk_ok.
Qed.

Lemma effect_seq_ok (s s' : DB) : seq_ok s → effect s s' → seq_ok s'.
Proof.
  intros [Hzi Hzo] Heff.
  destruct Heff as [|zoneId f quantity fi Hfi Hfresh Hatt
                    |id quantity row Hrow
                    |gone Hgone
                    |zoneId zoneInventoryId x y rotation zi Hrow Hseq
                    |id obj x y rotation Hobj
                    |id obj Hobj
                    |id obj zi Hobj Hrow
                    |id count fi Hfi
                    |id fi Hfi].
  - done.
  - split; [|done].
    intros k r Hr. simpl in *.
    apply lookup_insert_Some in Hr as [[<- _]|[_ Hr]]; [lia|].
    specialize (Hzi k r Hr). simpl in Hzi. lia.
  - split; [|done].
    intros k r Hr. simpl in *.
    apply lookup_insert_Some in Hr as [[<- _]|[_ Hr]].
    + by apply (Hzi id row).
    + by apply (Hzi k r).
  - split.
    + intros k r Hr. simpl in *.
      apply lookup_difference_Some in Hr as [Hr _]. by apply (Hzi k r).
    + intros k o Ho. simpl in *.
      apply map_lookup_filter_Some in Ho as [Ho _]. by apply (Hzo k o).
  - split.
    + intros k r Hr. simpl in *.
      apply lookup_insert_Some in Hr as [[<- _]|[_ Hr]].
      * by apply (Hzi zoneInventoryId zi).
      * by apply (Hzi k r).
    + intros k o Ho. simpl in *.
      apply lookup_insert_Some in Ho as [[<- _]|[_ Ho]]; [lia|].
      specialize (Hzo k o Ho). simpl in Hzo. lia.
  - split; [done|].
    intros k o Ho. simpl in *.
    apply lookup_insert_Some in Ho as [[<- _]|[_ Ho]].
    + by apply (Hzo id obj).
    + by apply (Hzo k o).
  - split; [done|].
    intros k o Ho. simpl in *.
    apply lookup_delete_Some in Ho as [_ Ho]. by apply (Hzo k o).
  - split.
    + intros k r Hr. simpl in *.
      apply lookup_insert_Some in Hr as [[<- _]|[_ Hr]].
      * by apply (Hzi (zo_zoneInventoryId obj) zi).
      * by apply (Hzi k r).
    + intros k o Ho. simpl in *.
      apply lookup_delete_Some in Ho as [_ Ho]. by apply (Hzo k o).
  - done.
  - split.
    + intros k r Hr. simpl in *.
      apply map_lookup_filter_Some in Hr as [Hr _]. by apply (Hzi k r).
    + intros k o Ho. simpl in *.
      apply map_lookup_filter_Some in Ho as [Ho _]. by apply (Hzo k o).
Qed.

Lemma unique_pairs_insert_same (s : DB) (id : Z) (row row' : ZoneInventory) :
  unique_pairs s → zoneInventory s !! id = Some row →
  zi_zoneId row' = zi_zoneId row →
  zi_floorInventoryId row' = zi_floorInventoryId row →
  ∀ i j ri rj,
    <[id := row']> (zoneInventory s) !! i = Some ri →
    <[id := row']> (zoneInventory s) !! j = Some rj →
    zi_zoneId ri = zi_zoneId rj →
    zi_floorInventoryId ri = zi_floorInventoryId rj → i = j.
Proof.
  intros Huniq Hrow Hz Hf i j ri rj Hi Hj Hzone Hstock.
  apply lookup_insert_Some in Hi as [[<- <-]|[Hni Hi]];
    apply lookup_insert_Some in Hj as [[<- <-]|[Hnj Hj]].
  - done.
  - apply (Huniq id j row rj); congruence.
  - apply (Huniq i id ri row); congruence.
  - by apply (Huniq i j ri rj).
Qed.

Lemma unique_pairs_subseteq (s : DB) (m : gmap Z ZoneInventory) :
  unique_pairs s → m ⊆ zoneInventory s →
  ∀ i j ri rj, m !! i = Some ri → m !! j = Some rj →
    zi_zoneId ri = zi_zoneId rj →
    zi_floorInventoryId ri = zi_floorInventoryId rj → i = j.
Proof.
  intros Huniq Hsub i j ri rj Hi Hj. apply (Huniq i j ri rj).
  - by apply (lookup_weaken m).
  - by apply (lookup_weaken m).
Qed.

Lemma effect_unique_pairs (s s' : DB) :
  unique_pairs s → effect s s' → unique_pairs s'.
Proof.
  intros Huniq Heff.
  destruct Heff as [|zoneId f quantity fi Hfi Hfresh Hatt
                    |id quantity row Hrow
                    |gone Hgone
                    |zoneId zoneInventoryId x y rotation zi Hrow Hseq
                    |id obj x y rotation Hobj
                    |id obj Hobj
                    |id obj zi Hobj Hrow
                    |id count fi Hfi
                    |id fi Hfi]; try done.
  - intros i j ri rj Hi Hj Hzone Hstock. simpl in *.
    apply lookup_insert_Some in Hi as [[<- <-]|[Hni Hi]];
      apply lookup_insert_Some in Hj as [[<- <-]|[Hnj Hj]]; simpl in *.
    + done.
    + exfalso. apply Hatt. exists j, rj. by repeat split.
    + exfalso. apply Hatt. exists i, ri. by repeat split.
    + by apply (Huniq i j ri rj).
  - unfold unique_pairs. simpl.
    by apply (unique_pairs_insert_same s id row).
  - unfold unique_pairs. simpl.
    apply (unique_pairs_subseteq s); [done|].
    by apply map_subseteq_difference_l.
  - unfold unique_pairs. simpl.
    by apply (unique_pairs_insert_same s zoneInventoryId zi).
  - unfold unique_pairs. simpl.
    by apply (unique_pairs_insert_same s (zo_zoneInventoryId obj) zi).
  - unfold unique_pairs. simpl.
    apply (unique_pairs_subseteq s); [done|].
    apply map_filter_subseteq.
Qed.

(** X7.  Referential integrity is kept by every writing route of the
    inventory: if every allocation references an existing stock row and
    every placement an existing allocation, the same holds after any
    request. *)
Theorem requests_keep_references (zones : gset Z) (r : request) (s : DB) :
  fk_ok s → fk_ok (step zones r s).
Proof. intros Hfk. apply (effect_fk_ok s); [done | apply step_effect]. Qed.

(** X8.  The id sequences stay ahead of the ids in use under every
    request, and while they are, a request that runs alone never fails on
    a primary key: Allocate does not answer with the duplicate-key error
    and Place does not pass a unique-constraint error on to the default
    handler. *)
Theorem requests_keep_sequences (zones : gset Z) (r : request) (s : DB) :
  seq_ok s →
  seq_ok (step zones r s)
  ∧ (∀ zoneId f quantity,
       (post_zone_inventory zones zoneId f quantity s).1
       ≠ ErrorJson 409 "Duplicate (zoneId,floorInventoryId)")
  ∧ (∀ zoneId zoneInventoryId x y rotation,
       (post_zone_objects zoneId zoneInventoryId x y rotation s).1
       ≠ Next (PrismaError P2002)).
Proof.
  intros Hseq. split; [|split].
  - apply (effect_seq_ok s); [done | apply step_effect].
  - intros zoneId f quantity.
    assert (zoneInventory s !! zoneInventory_id_seq s = None) as Hfresh.
    { destruct (zoneInventory s !! zoneInventory_id_seq s) as [r0|] eqn:Hr;
        [|done].
      pose proof (proj1 Hseq _ _ Hr) as Hlt. simpl in Hlt. lia. }
    destruct (decide (quantity < 0)) as [Hneg|Hq].
    { by rewrite post_zone_inventory_400. }
    destruct (floorInventory s !! f) as [fi|] eqn:Hfi.
    2: { by rewrite post_zone_inventory_404 by (done || lia). }
    destruct (decide (quantity > fi_count fi - used f s)) as [Hgt|Hle].
    { rewrite (post_zone_inventory_409_left _ _ _ _ fi) by (done || lia).
      simpl. unfold not_enough. intros [= Heq]. }
    destruct (decide (attached zoneId f s)) as [Hatt|Hatt].
    { by rewrite (post_zone_inventory_409_attached _ _ _ _ fi)
        by (done || lia). }
    destruct (decide (zoneId ∈ zones)) as [Hzone|Hzone].
    + by rewrite (post_zone_inventory_201 _ _ _ _ fi) by (done || lia).
    + by rewrite (post_zone_inventory_no_zone _ _ _ _ fi) by (done || lia).
  - intros zoneId zoneInventoryId x y rotation.
    assert (zoneObject s !! zoneObject_id_seq s = None) as Hfresh.
    { destruct (zoneObject s !! zoneObject_id_seq s) as [o|] eqn:Ho; [|done].
      pose proof (proj2 Hseq _ _ Ho) as Hlt. simpl in Hlt. lia. }
    destruct (zoneInventory s !! zoneInventoryId) as [zi|] eqn:Hzi.
    2: { by rewrite post_zone_objects_404. }
    destruct (decide (zi_zoneId zi = zoneId)) as [Hzone|Hzone].
    2: { by rewrite (post_zone_objects_400 _ _ _ _ _ _ zi). }
    by rewrite (post_zone_objects_201 _ _ _ _ _ _ zi).
Qed.

(** X9.  A zone never holds two allocations of the same stock row: if no
    two allocation rows share their (zone, stock row) pair, none do after
    any request. *)
Theorem requests_keep_pairs_unique (zones : gset Z) (r : request) (s : DB) :
  unique_pairs s → unique_pairs (step zones r s).
Proof.
  intros Huniq. apply (effect_unique_pairs s); [done | apply step_effect].
Qed.

(** Scenario C after the deletion of its stock row. *)
Lemma requests_keep_references_witness :
  fk_ok scenario_C ∧ fk_ok (step three_zones (DeleteStock 1) scenario_C).
Proof.
  assert (fk_ok scenario_C) as Hfk.
  { split; apply (bool_decide_unpack _); vm_compute; exact I. }
  split; [exact Hfk|].
  exact (requests_keep_references three_zones (DeleteStock 1) scenario_C Hfk).
Defined.

Lemma requests_keep_sequences_witness :
  seq_ok scenario_C
  ∧ seq_ok (step three_zones (Placement (Place 1 1 zero zero None)) scenario_C)
  ∧ (post_zone_inventory three_zones 3 1 0 scenario_C).1
    ≠ ErrorJson 409 "Duplicate (zoneId,floorInventoryId)"
  ∧ (post_zone_objects 1 1 zero zero None scenario_C).1
    ≠ Next (PrismaError P2002).
Proof.
  assert (seq_ok scenario_C) as Hseq.
  { split; apply (bool_decide_unpack _); vm_compute; exact I. }
  destruct (requests_keep_sequences three_zones
              (Placement (Place 1 1 zero zero None)) scenario_C Hseq)
    as (Hkept & Hdup & Hkey).
  split; [exact Hseq|]. split; [exact Hkept|].
  split; [exact (Hdup 3 1 0) | exact (Hkey 1 1 zero zero None)].
Defined.

(** Zones 1 and 2 hold an allocation of stock row 1 each, and a second
    allocation of the stock row is asked for zone 1: it is refused, and
    each of the two pairs is still held by one row. *)
Lemma requests_keep_pairs_unique_witness :
  let s := allocated 2 1 2 (allocated 1 1 3 (chair_stock 5)) in
  size (zoneInventory s) = 2%nat
  ∧ attached 1 1 s
  ∧ unique_pairs s
  ∧ (post_zone_inventory three_zones 1 1 0 s).1
    = ErrorJson 409 "Already attached, use PATCH"
  ∧ size (zoneInventory (step three_zones (Ledger (Allocate 1 1 0)) s)) = 2%nat
  ∧ unique_pairs (step three_zones (Ledger (Allocate 1 1 0)) s).
Proof.
  intros s.
  assert (unique_pairs s) as Huniq.
  { intros i j ri rj Hi Hj Hzone _. subst s. simpl in Hi, Hj.
    apply lookup_insert_Some in Hi as [[<- <-]|[_ Hi]];
      apply lookup_insert_Some in Hj as [[<- <-]|[_ Hj]].
    - reflexivity.
    - apply lookup_insert_Some in Hj as [[<- <-]|[_ Hj]]; [done|].
      by rewrite lookup_empty in Hj.
    - apply lookup_insert_Some in Hi as [[<- <-]|[_ Hi]]; [done|].
      by rewrite lookup_empty in Hi.
    - apply lookup_insert_Some in Hi as [[<- <-]|[_ Hi]];
        [|by rewrite lookup_empty in Hi].
      apply lookup_insert_Some in Hj as [[<- <-]|[_ Hj]];
        [|by rewrite lookup_empty in Hj].
      reflexivity. }
  split; [by vm_compute|].
  split; [exists 1; eexists; split; [by vm_compute|done]|].
  split; [exact Huniq|].
  split; [by vm_compute|]. split; [by vm_compute|].
  exact (requests_keep_pairs_unique three_zones (Ledger (Allocate 1 1 0)) s Huniq).
Defined.

(** The stock deletion of Scenario C when nothing interleaves. *)
Lemma delete_floor_inventory_cascades_witness :
  fk_ok scenario_C
  ∧ delete_floor_inventory 1 scenario_C = (End 204, without_stock 1 scenario_C)
  ∧ allocations_of 1 (without_stock 1 scenario_C) = ∅
  ∧ fk_ok (without_stock 1 scenario_C).
Proof.
  assert (fk_ok scenario_C) as Hfk.
  { split; apply (bool_decide_unpack _); vm_compute; exact I. }
  destruct (delete_floor_inventory_cascades 1 scenario_C Hfk) as [_ Hpresent].
  destruct Hpresent as (H204 & _ & Hnone & Hfk').
  { vm_compute. by eexists. }
  split; [exact Hfk|]. split; [exact H204|]. split; [exact Hnone | exact Hfk'].
Defined.

(** ** Stock rows *)

Lemma effect_counts_nonneg (s s' : DB) :
  counts_nonneg s → effect s s' → counts_nonneg s'.
Proof.
  intros Hnn Heff. unfold counts_nonneg in *.
  destruct Heff as [|zoneId f quantity fi Hfi Hfresh Hatt
                    |id quantity row Hrow
                    |gone Hgone
                    |zoneId zoneInventoryId x y rotation zi Hrow Hseq
                    |id obj x y rotation Hobj
                    |id obj Hobj
                    |id obj zi Hobj Hrow
                    |id count fi Hfi Hcount
                    |id fi Hfi]; try exact Hnn.
  - simpl. by apply map_Forall_insert_2.
  - simpl. by apply map_Forall_delete.
Qed.

Lemma effect_stock_rows (s s' : DB) (k : Z) (fi' : FloorInventory) :
  effect s s' → floorInventory s' !! k = Some fi' →
  ∃ fi, floorInventory s !! k = Some fi
        ∧ fi_floorId fi' = fi_floorId fi
        ∧ fi_catalogId fi' = fi_catalogId fi.
Proof.
  intros Heff.
  destruct Heff as [|zoneId f quantity fi Hfi Hfresh Hatt
                    |id quantity row Hrow
                    |gone Hgone
                    |zoneId zoneInventoryId x y rotation zi Hrow Hseq
                    |id obj x y rotation Hobj
                    |id obj Hobj
                    |id obj zi Hobj Hrow
                    |id count fi Hfi Hcount
                    |id fi Hfi]; try (intros Hk; by exists fi').
  - simpl. intros Hk.
    apply lookup_insert_Some in Hk as [[<- <-]|[_ Hk]];
      [by exists fi | by exists fi'].
  - simpl. intros Hk. apply lookup_delete_Some in Hk as [_ Hk]. by exists fi'.
Qed.

(** X27.  No allocation, placement, count or stock deletion request makes
    a stock count negative, creates a stock row, or moves a stock row to
    another floor or catalog entry:
    if all counts are at least 0 they still are after the request, and
    every stock row after the request is a row of before with the same
    floor and the same catalog entry. *)
Theorem requests_keep_stock_sound (zones : gset Z) (r : request) (s : DB) :
  counts_nonneg s →
  counts_nonneg (step zones r s)
  ∧ (∀ k fi', floorInventory (step zones r s) !! k = Some fi' →
       ∃ fi, floorInventory s !! k = Some fi
             ∧ fi_floorId fi' = fi_floorId fi
             ∧ fi_catalogId fi' = fi_catalogId fi).
Proof.
  intros Hnn. split.
  - apply (effect_counts_nonneg s); [done | apply step_effect].
  - intros k fi'. apply effect_stock_rows, step_effect.
Qed.

(** A negative count is asked for on the five chairs, and refused. *)
Lemma requests_keep_stock_sound_witness :
  counts_nonneg (chair_stock 5)
  ∧ counts_nonneg (step three_zones (UpdateCount 1 (Some (-3))) (chair_stock 5)).
Proof.
  assert (counts_nonneg (chair_stock 5)) as Hnn.
  { apply map_Forall_singleton. simpl. lia. }
  split; [exact Hnn|].
  exact (proj1 (requests_keep_stock_sound three_zones
                  (UpdateCount 1 (Some (-3)))
                  (chair_stock 5) Hnn)).
Defined.

(** ** Non-negative quantities *)

Lemma ledger_step_nonneg {zones : gset Z} (op : ledger_op) (s : DB) :
  quantities_nonneg s → quantities_nonneg (ledger_step zones op s).
Proof.
  intros Hnn. destruct op as [zoneId f quantity|id quantity|id]; simpl.
  - destruct (post_zone_inventory_cases (zones:=zones) zoneId f quantity s)
      as [(body & s' & Hpost)|(? & ? & ->)]; [|done].
    rewrite Hpost. simpl.
    apply post_zone_inventory_inv in Hpost as (fi & _ & Hq & Hfresh & ->).
    unfold quantities_nonneg, allocated. simpl.
    apply map_Forall_insert; [done|]. split; [simpl; lia | done].
  - destruct (patch_zone_inventory_cases id quantity s)
      as [(body & s' & Hpatch)|[(? & ? & ->)|(? & ->)]]; [|done..].
    rewrite Hpatch. simpl.
    apply patch_zone_inventory_inv in Hpatch as (row & fi & _ & _ & Hq & ->).
    unfold quantities_nonneg. simpl.
    apply map_Forall_insert_2; [simpl; lia | done].
  - destruct (zoneInventory s !! id) as [row|] eqn:Hrow.
    2: { by rewrite delete_zone_inventory_404. }
    rewrite (delete_zone_inventory_204 _ _ row) by done. simpl.
    destruct (zoneInventory_drop_singleton id row s) as [Hzi _].
    unfold quantities_nonneg. rewrite Hzi. by apply map_Forall_delete.
Qed.

(** X10.  No quantity goes below zero unless a Remove takes it there:
    from a store without negative quantities, every request leaves a store
    without negative quantities, except a Remove of a placement whose
    allocation holds no positive quantity. *)
Theorem only_remove_makes_quantities_negative (zones : gset Z) (r : request) (s : DB) :
  quantities_nonneg s →
  (∀ zoneId id obj zi,
     r = Placement (Remove zoneId id) →
     zoneObject s !! id = Some obj →
     zoneInventory s !! zo_zoneInventoryId obj = Some zi →
     1 ≤ zi_quantity zi) →
  quantities_nonneg (step zones r s).
Proof.
  intros Hnn Hremove.
  destruct r as [op
                |[zoneId zoneInventoryId x y rotation
                 |zoneId id x y rotation|zoneId id]
                |id count|id]; simpl.
  - by apply ledger_step_nonneg.
  - by apply post_zone_objects_nonneg.
  - unfold quantities_nonneg. by rewrite patch_zone_objects_allocations.
  - destruct (delete_zone_objects_cases zoneId id s)
      as [(? & ? & ->)|(obj & Hobj & _ & ->)]; [done|]. simpl.
    destruct (zoneInventory s !! zo_zoneInventoryId obj) as [zi|] eqn:Hzi;
      [|done].
    unfold quantities_nonneg. simpl.
    apply map_Forall_insert_2; [|done]. simpl.
    specialize (Hremove zoneId id obj zi eq_refl Hobj Hzi). lia.
  - pose proof (step_effect (zones:=zones) (UpdateCount id count) s) as Heff. simpl in Heff.
    assert (zoneInventory (patch_floor_inventory id count s).2
            = zoneInventory s) as Hsame.
    { destruct count as [c|].
      - destruct (decide (c < 0)) as [Hc|Hc].
        { by rewrite patch_floor_inventory_400. }
        destruct (floorInventory s !! id) as [fi|] eqn:Hfi.
        + by rewrite (patch_floor_inventory_200 _ _ _ fi) by (done || lia).
        + by rewrite patch_floor_inventory_404 by (done || lia).
      - destruct (floorInventory s !! id) as [fi|] eqn:Hfi.
        + by rewrite (patch_floor_inventory_absent_200 _ _ fi).
        + by rewrite patch_floor_inventory_absent_404. }
    unfold quantities_nonneg. by rewrite Hsame.
  - rewrite delete_floor_inventory_state.
    destruct (floorInventory s !! id) as [fi|] eqn:Hfi.
    + unfold quantities_nonneg. simpl.
      intros k r Hr. apply map_lookup_filter_Some in Hr as [Hr _].
      by apply (Hnn k r).
    + unfold quantities_nonneg. simpl.
      intros k r Hr. apply lookup_difference_Some in Hr as [Hr _].
      by apply (Hnn k r).
Qed.

(** A Remove on an allocation that still holds quantity 4. *)
Lemma only_remove_makes_quantities_negative_witness :
  let s := (place_at_origin (allocated 1 1 3 (chair_stock 5))).2 in
  quantities_nonneg s ∧ quantities_nonneg (step three_zones (Placement (Remove 1 1)) s).
Proof.
  intros s.
  assert (quantities_nonneg s) as Hnn.
  { unfold quantities_nonneg. apply (bool_decide_unpack _). vm_compute.
    exact I. }
  split; [exact Hnn|].
  apply (only_remove_makes_quantities_negative three_zones
           (Placement (Remove 1 1)) s Hnn).
  intros zoneId id obj zi [= <- <-] Hobj Hzi.
  vm_compute in Hobj. injection Hobj as <-.
  vm_compute in Hzi. injection Hzi as <-. simpl. lia.
Defined.

(** ** Round trips and compositions *)

(** X11.  Deallocating an allocation right after the Allocate that created
    it succeeds and leaves the allocations, the placements and the stock
    exactly as they were before the Allocate, on a store whose placements
    all reference existing allocations. *)
Theorem allocate_deallocate_roundtrip (zones : gset Z) (zoneId f quantity : Z) (s s1 : DB)
    (id : Z) (row : ZoneInventory) :
  fk_ok s →
  post_zone_inventory zones zoneId f quantity s = (Json 201 (id, row), s1) →
  ∃ s2, delete_zone_inventory id s1 = (End 204, s2)
        ∧ zoneInventory s2 = zoneInventory s
        ∧ zoneObject s2 = zoneObject s
        ∧ floorInventory s2 = floorInventory s.
Proof.
  intros [_ Hzo] Hpost.
  pose proof Hpost as Hbody.
  pose proof (post_zone_inventory_zone _ _ _ _ _ _ Hpost) as Hzone.
  apply post_zone_inventory_inv in Hpost as (fi & Hfi & Hq & Hfresh & ->).
  destruct (decide (attached zoneId f s)) as [Hatt|Hatt].
  { by rewrite (post_zone_inventory_409_attached _ _ _ _ fi) in Hbody
      by (done || lia). }
  rewrite (post_zone_inventory_201 _ _ _ _ fi) in Hbody by (done || lia).
  injection Hbody as <- <-.
  eexists. split.
  - apply delete_zone_inventory_204. simpl. apply lookup_insert_eq.
  - destruct (zoneInventory_drop_singleton (zoneInventory_id_seq s)
                {| zi_zoneId := zoneId; zi_floorInventoryId := f;
                   zi_quantity := quantity |}
                (allocated zoneId f quantity s)) as [Hzi Hfl].
    split; [|split].
    + rewrite Hzi. simpl. rewrite delete_insert_eq. by apply delete_id.
    + simpl. apply map_filter_id. intros k o Ho. simpl.
      apply lookup_singleton_None. intros Heq.
      destruct (Hzo k o Ho) as [r Hr]. simpl in Hr. congruence.
    + by rewrite Hfl.
Qed.

Lemma allocate_deallocate_roundtrip_witness :
  fk_ok scenario_C
  ∧ ∃ s2, delete_zone_inventory 3 (post_zone_inventory three_zones 3 1 0 scenario_C).2
          = (End 204, s2)
          ∧ zoneInventory s2 = zoneInventory scenario_C
          ∧ zoneObject s2 = zoneObject scenario_C
          ∧ floorInventory s2 = floorInventory scenario_C.
Proof.
  assert (fk_ok scenario_C) as Hfk.
  { split; apply (bool_decide_unpack _); vm_compute; exact I. }
  split; [exact Hfk|].
  apply (allocate_deallocate_roundtrip three_zones 3 1 0 scenario_C _ 3
           {| zi_zoneId := 3; zi_floorInventoryId := 1; zi_quantity := 0 |} Hfk).
  reflexivity.
Defined.

(** X12.  Update count followed by Compute usage: after a count c ≥ 0 that
    fits an INTEGER column is set for a stock row of the floor, whose id
    fits the column too, the usage entry of that row reports count c, the
    same used figure as before, and available max(c − used, 0). *)
Theorem usage_after_update_count (id c : Z) (s : DB) (fi : FloorInventory) :
  0 ≤ c → int4 c → int4 id → floorInventory s !! id = Some fi →
  let s' := (patch_floor_inventory id (Some c) s).2 in
  ∃ result,
    get_inventory_with_usage (fi_floorId fi) s' = (Json 200 result, s')
    ∧ {| u_id := id;
         u_floorId := fi_floorId fi;
         u_catalogId := fi_catalogId fi;
         u_count := c;
         u_used := used id s;
         u_available := Z.max (c - used id s) 0 |} ∈ result.
Proof.
  intros Hc _ _ Hfi s'. subst s'.
  rewrite (patch_floor_inventory_200 _ _ _ fi) by done. simpl.
  rewrite get_inventory_with_usage_reads. eexists. split; [reflexivity|].
  apply (list_elem_of_fmap_2' _ _ (id, with_count c fi)).
  - apply elem_of_map_to_list, map_lookup_filter_Some. simpl. split; [|done].
    apply lookup_insert_eq.
  - unfold usage_of. simpl. f_equal.
Qed.

Lemma usage_after_update_count_witness :
  let s := allocated 1 1 3 (chair_stock 5) in
  ∃ result,
    get_inventory_with_usage 1 (patch_floor_inventory 1 (Some 1) s).2
    = (Json 200 result, (patch_floor_inventory 1 (Some 1) s).2)
    ∧ {| u_id := 1; u_floorId := 1; u_catalogId := "chair";
         u_count := 1; u_used := 3; u_available := 0 |} ∈ result.
Proof.
  intros s.
  exact (usage_after_update_count 1 1 s
           {| fi_floorId := 1; fi_catalogId := "chair"; fi_count := 5 |}
           ltac:(lia) ltac:(unfold int4; lia) ltac:(unfold int4; lia)
           ltac:(reflexivity)).
Defined.

(** X13.  Compute usage lists every stock row of the floor once: the ids
    in the answer are pairwise distinct, there are as many entries as the
    floor has stock rows, and an id is listed exactly when it is the id of
    a stock row of the floor. *)
Theorem usage_lists_each_row_once (floorId : Z) (s : DB) :
  ∃ result,
    (get_inventory_with_usage floorId s).1 = Json 200 result
    ∧ NoDup (u_id <$> result)
    ∧ length result
      = size (filter (λ kr, fi_floorId kr.2 = floorId) (floorInventory s))
    ∧ (∀ id, id ∈ u_id <$> result
             ↔ ∃ fi, floorInventory s !! id = Some fi
                     ∧ fi_floorId fi = floorId).
Proof.
  rewrite get_inventory_with_usage_reads. eexists. split; [reflexivity|].
  assert (u_id <$> (usage_of s <$> map_to_list
                      (filter (λ kr, fi_floorId kr.2 = floorId)
                         (floorInventory s)))
          = (map_to_list
               (filter (λ kr, fi_floorId kr.2 = floorId)
                  (floorInventory s))).*1) as Hids.
  { rewrite <- list_fmap_compose. by apply list_fmap_ext. }
  split; [|split].
  - rewrite Hids. apply NoDup_fst_map_to_list.
  - by rewrite length_fmap, length_map_to_list.
  - intros id. rewrite Hids. rewrite list_elem_of_fmap. split.
    + intros ([k fi] & -> & Hin).
      apply elem_of_map_to_list, map_lookup_filter_Some in Hin. eauto.
    + intros (fi & Hfi & Hfloor). exists (id, fi). split; [done|].
      by apply elem_of_map_to_list, map_lookup_filter_Some.
Qed.

(** ** Move: PATCH .../zones/:zoneId/objects/:id *)

Lemma move_data_twice x y rotation (o : ZoneObject) :
  move_data x y rotation (move_data x y rotation o) = move_data x y rotation o.
Proof.
  unfold move_data. simpl. by destruct x, y, rotation.
Qed.

(** X14.  Move is local and idempotent: it never changes the allocations
    or the stock, any other placement, or the zone and the allocation of
    the placement it moves; coordinates it is not given stay; and sending
    the same request again gives the same answer and the same store. *)
Theorem move_is_local_and_idempotent (zoneId id : Z)
    (x y rotation : option spec_float) (s : DB) :
  let s' := (patch_zone_objects zoneId id x y rotation s).2 in
  zoneInventory s' = zoneInventory s
  ∧ floorInventory s' = floorInventory s
  ∧ (∀ k, k ≠ id → zoneObject s' !! k = zoneObject s !! k)
  ∧ (∀ o', zoneObject s' !! id = Some o' →
       ∃ o, zoneObject s !! id = Some o
            ∧ zo_zoneId o' = zo_zoneId o
            ∧ zo_zoneInventoryId o' = zo_zoneInventoryId o
            ∧ (x = None → zo_x o' = zo_x o)
            ∧ (y = None → zo_y o' = zo_y o)
            ∧ (rotation = None → zo_rotation o' = zo_rotation o))
  ∧ patch_zone_objects zoneId id x y rotation s'
    = patch_zone_objects zoneId id x y rotation s.
Proof.
  intros s'. subst s'.
  destruct (patch_zone_objects_cases zoneId id x y rotation s)
    as [(status & error & Herr)|(obj & Hobj & Hzone & Hsome & Hok)].
  - rewrite Herr. simpl. repeat split; try done.
    intros o' Ho'. exists o'. by repeat split.
  - rewrite Hok. simpl. split; [done|]. split; [done|]. split; [|split].
    + intros k Hk. by rewrite lookup_insert_ne.
    + intros o' Ho'. rewrite lookup_insert_eq in Ho'. injection Ho' as <-.
      exists obj. repeat split; try done; by intros ->.
    + destruct (patch_zone_objects_cases zoneId id x y rotation
                  (set_zoneObject
                     (<[id := move_data x y rotation obj]> (zoneObject s)) s))
        as [(status & error & Herr)|(obj' & Hobj' & _ & _ & Hok')].
      * exfalso. revert Herr. unfold patch_zone_objects.
        rewrite decide_False by done.
        unfold bind, zoneObject_findUnique. simpl.
        rewrite lookup_insert_eq. simpl.
        rewrite decide_False by (by intros ?).
        unfold zoneObject_update. simpl. rewrite lookup_insert_eq. done.
      * rewrite Hok'. simpl in Hobj'. rewrite lookup_insert_eq in Hobj'.
        injection Hobj' as <-. rewrite move_data_twice. simpl.
        by rewrite insert_insert_eq.
Qed.

(** * Properties of the plan routes *)

Section plan_properties.
Import Plan.

(** ** What each route does to the store *)

Lemma post_floors_cases (officeId floorNumber : Z) (s : Site) :
  (refused (post_floors officeId floorNumber s).1
   ∧ (post_floors officeId floorNumber s).2 = s)
  ∨ (is_Some (office s !! officeId)
     ∧ floor s !! floor_id_seq s = None
     ∧ layer s !! layer_id_seq s = None
     ∧ filter (λ kr, fl_officeId kr.2 = officeId ∧ fl_number kr.2 = floorNumber)
         (floor s) = ∅
     ∧ post_floors officeId floorNumber s
       = (Json 201 (floor_id_seq s),
          {| office := office s;
             floor :=
               <[floor_id_seq s :=
                   {| fl_number := floorNumber; fl_officeId := officeId;
                      fl_planImageUrl := None;
                      fl_firesafeImageUrl := None |}]> (floor s);
             layer :=
               <[layer_id_seq s :=
                   {| la_name := "Пожарный план";
                      la_floorId := floor_id_seq s;
                      la_type := firesafe |}]> (layer s);
             zone := zone s;
             office_id_seq := office_id_seq s;
             floor_id_seq := floor_id_seq s + 1;
             layer_id_seq := layer_id_seq s + 1;
             zone_id_seq := zone_id_seq s;
             inventory := inventory s |})).
Proof.
  unfold post_floors, catch, bind, transaction, floor_create.
  destruct (decide (is_Some (floor s !! floor_id_seq s))) as [Hf|Hf];
    [left; done|].
  destruct (decide (filter (λ kr, fl_officeId kr.2 = officeId
                                  ∧ fl_number kr.2 = floorNumber) (floor s) = ∅))
    as [Huniq|Huniq]; [|left; done].
  destruct (office s !! officeId) as [o|] eqn:Ho; [|left; done].
  unfold layer_create. simpl.
  destruct (decide (is_Some (layer s !! layer_id_seq s))) as [Hl|Hl];
    [left; done|].
  rewrite lookup_insert_eq. simpl. right.
  split; [by eexists|]. split; [by apply eq_None_not_Some|].
  split; [by apply eq_None_not_Some|]. done.
Qed.

Lemma delete_floor_cases (officeId floorId : Z) (s : Site) :
  ((floor s !! floorId = None
    ∨ ∃ f, floor s !! floorId = Some f ∧ fl_officeId f ≠ officeId)
   ∧ delete_floor officeId floorId s = (ErrorJson 404 "Floor not found", s))
  ∨ (∃ f, floor s !! floorId = Some f ∧ fl_officeId f = officeId
          ∧ delete_floor officeId floorId s
            = (End 204, drop_floors {[floorId := f]} s)).
Proof.
  unfold delete_floor, bind, floor_findFirst.
  destruct (floor s !! floorId) as [f|] eqn:Hf; [|left; split; [by left|done]].
  case_decide as Hoffice.
  - right. exists f. split; [done|]. split; [done|].
    unfold catch, bind, floor_delete. by rewrite Hf.
  - left. split; [right; eauto|done].
Qed.

Lemma floor_update_cases (id : Z) (data : Floor → Floor) (s : Site) :
  (floor s !! id = None ∧ floor_update id data s = (Throw (PrismaError P2025), s))
  ∨ (∃ f, floor s !! id = Some f
          ∧ floor_update id data s
            = (Return (data f), set_floor (<[id := data f]> (floor s)) s)).
Proof.
  unfold floor_update. destruct (floor s !! id) as [f|]; [right; eauto|left; done].
Qed.

Lemma post_layers_cases (floorId : Z) (name : option string) (s : Site) :
  (refused (post_layers floorId name s).1 ∧ (post_layers floorId name s).2 = s)
  ∨ (∃ n, name = Some n ∧ n ≠ ""
          ∧ is_Some (floor s !! floorId)
          ∧ layer s !! layer_id_seq s = None
          ∧ post_layers floorId name s
            = (Json 201 (layer_id_seq s, n),
               {| office := office s; floor := floor s;
                  layer :=
                    <[layer_id_seq s :=
                        {| la_name := n; la_floorId := floorId;
                           la_type := custom |}]> (layer s);
                  zone := zone s;
                  office_id_seq := office_id_seq s;
                  floor_id_seq := floor_id_seq s;
                  layer_id_seq := layer_id_seq s + 1;
                  zone_id_seq := zone_id_seq s;
                  inventory := inventory s |})).
Proof.
  unfold post_layers. destruct name as [n|]; [|left; done].
  case_decide as Hn; [left; done|].
  unfold layer_create. simpl.
  destruct (decide (is_Some (layer s !! layer_id_seq s))) as [Hl|Hl];
    [left; done|].
  destruct (floor s !! floorId) as [f|] eqn:Hf; [|left; done].
  right. exists n. split; [done|]. split; [done|]. split; [by eexists|].
  split; [by apply eq_None_not_Some | done].
Qed.

Lemma delete_layer_cases (floorId layerId : Z) (s : Site) :
  (refused (delete_layer floorId layerId s).1
   ∧ (delete_layer floorId layerId s).2 = s)
  ∨ (∃ l, layer s !! layerId = Some l ∧ la_floorId l = floorId
          ∧ la_type l ≠ firesafe
          ∧ delete_layer floorId layerId s
            = (End 204, drop_layers {[layerId := l]} s)).
Proof.
  unfold delete_layer, bind, layer_findFirst.
  destruct (layer s !! layerId) as [l|] eqn:Hl; [|left; done].
  case_decide as Hfloor; [|left; done].
  case_decide as Htype; [left; done|].
  right. exists l. unfold layer_delete. rewrite Hl. done.
Qed.

Lemma post_zones_cases (layerId : Z) (name description : string)
    (status : option string) (coordinates : option (list json)) (s : Site) :
  (refused (post_zones layerId name description status coordinates s).1
   ∧ (post_zones layerId name description status coordinates s).2 = s)
  ∨ (∃ c st l,
       coordinates = Some c ∧ (6 ≤ length c)%nat
       ∧ parse_status (default "free" status) = Some st
       ∧ layer s !! layerId = Some l ∧ la_type l = custom
       ∧ is_Some (floor s !! la_floorId l)
       ∧ zone s !! zone_id_seq s = None
       ∧ post_zones layerId name description status coordinates s
         = (Json 201 (zone_id_seq s, c),
            {| office := office s; floor := floor s; layer := layer s;
               zone :=
                 <[zone_id_seq s :=
                     {| zn_name := name; zn_description := description;
                        zn_status := st; zn_coordinates := c;
                        zn_layerId := layerId;
                        zn_floorId := la_floorId l |}]> (zone s);
               office_id_seq := office_id_seq s;
               floor_id_seq := floor_id_seq s;
               layer_id_seq := layer_id_seq s;
               zone_id_seq := zone_id_seq s + 1;
               inventory := inventory s |})).
Proof.
  unfold post_zones. destruct coordinates as [c|]; [|left; done].
  case_decide as Hlen; [left; done|].
  destruct (parse_status (default "free" status)) as [st|] eqn:Hst;
    [|left; done].
  unfold bind, layer_findUnique.
  destruct (layer s !! layerId) as [l|] eqn:Hl; [|left; done].
  case_decide as Htype; [left; done|].
  unfold zone_create. simpl.
  destruct (decide (is_Some (zone s !! zone_id_seq s))) as [Hz|Hz];
    [left; done|].
  rewrite Hl.
  destruct (floor s !! la_floorId l) as [f|] eqn:Hf; [|left; done].
  right. exists c, st, l. split; [done|]. split; [lia|]. split; [done|].
  split; [done|]. split; [by destruct (la_type l)|]. split; [by eexists|].
  split; [by apply eq_None_not_Some | done].
Qed.

Lemma patch_zone_cases (layerId zoneId : Z)
    (name description status : option string)
    (coordinates : option (list json)) (s : Site) :
  (refused (patch_zone layerId zoneId name description status coordinates s).1
   ∧ (patch_zone layerId zoneId name description status coordinates s).2 = s)
  ∨ (∃ z parsed,
       zone s !! zoneId = Some z ∧ zn_layerId z = layerId
       ∧ parsed = mjoin (parse_status <$> status)
       ∧ (is_Some status → is_Some parsed)
       ∧ (∀ c, coordinates = Some c → (6 ≤ length c)%nat)
       ∧ patch_zone layerId zoneId name description status coordinates s
         = (Json 200 zoneId,
            set_zone
              (<[zoneId := zone_data name description parsed coordinates z]>
                 (zone s)) s)).
Proof.
  unfold patch_zone, bind, zone_findFirst.
  destruct (zone s !! zoneId) as [z|] eqn:Hz; [|left; done].
  case_decide as Hlayer; [|left; done].
  destruct status as [st|]; simpl;
    [destruct (parse_status st) as [v|] eqn:Hst; simpl; [|left; done]|];
    (destruct coordinates as [c|];
       [case_bool_decide as Hlen; [left; done|]|]);
    destruct name as [n|], description as [d|]; try (left; done);
    right; eexists z, _; unfold zone_update; rewrite Hz; simpl;
    (split; [done|]); (split; [done|]); (split; [reflexivity|]);
    (split; [first [by intros [? ?] | by (intros _; eexists)]|]);
    (split; [first [intros c' [= <-]; lia | by intros c' [=]]|]);
    done.
Qed.

Lemma lookup_difference_filter {A} (Q : Z * A → Prop) `{!∀ kr, Decision (Q kr)}
    (m : gmap Z A) (k : Z) (x : A) :
  (m ∖ filter Q m) !! k = Some x ↔ m !! k = Some x ∧ ¬ Q (k, x).
Proof.
  rewrite lookup_difference_Some, map_lookup_filter_None. split.
  - intros [Hk [Hn|Hn]]; [congruence|]. split; [done|]. by apply Hn.
  - intros [Hk Hn]. split; [done|]. right. intros x' Hx'.
    by assert (x' = x) as -> by congruence.
Qed.

Lemma filter_key_singleton {A} (Q : A → Prop) `{!∀ x, Decision (Q x)}
    (m : gmap Z A) (i : Z) :
  filter (λ kr : Z * A, kr.1 = i ∧ Q kr.2) m
  = match m !! i with
    | Some x => if decide (Q x) then {[i := x]} else ∅
    | None => ∅
    end.
Proof.
  apply map_eq. intros k. apply option_eq. intros y.
  rewrite map_lookup_filter_Some. simpl.
  destruct (m !! i) as [x|] eqn:Hi.
  - case_decide as HQ.
    + rewrite lookup_singleton_Some. split.
      * intros [Hk [-> _]]. split; congruence.
      * intros [<- <-]. done.
    + rewrite lookup_empty. split; [|done].
      intros [Hk [-> Hy]]. assert (y = x) as -> by congruence. done.
  - rewrite lookup_empty. split; [|done]. intros [Hk [-> _]]. congruence.
Qed.

Lemma set_zoneObject_id (d : DB) : set_zoneObject (zoneObject d) d = d.
Proof. by destruct d. Qed.

Lemma drop_zones_empty (s : Site) : drop_zones ∅ s = s.
Proof.
  unfold drop_zones.
  assert (filter (λ kr : Z * ZoneInventory,
                    is_Some ((∅ : gmap Z Zone) !! zi_zoneId kr.2))
            (zoneInventory (inventory s)) = ∅) as ->.
  { apply map_empty. intros k. apply map_lookup_filter_None. right.
    intros r _ [? Hk]. simpl in Hk. by rewrite lookup_empty in Hk. }
  rewrite zoneInventory_drop_empty.
  rewrite (map_filter_id _ (zoneObject (inventory s)))
    by (intros; apply lookup_empty).
  rewrite set_zoneObject_id, map_difference_empty.
  by destruct s.
Qed.

Lemma delete_zone_cases (layerId zoneId : Z) (s : Site) :
  ((zone s !! zoneId = None
    ∨ ∃ z, zone s !! zoneId = Some z ∧ zn_layerId z ≠ layerId)
   ∧ delete_zone layerId zoneId s = (ErrorJson 404 "Zone not found", s))
  ∨ (∃ z, zone s !! zoneId = Some z ∧ zn_layerId z = layerId
          ∧ delete_zone layerId zoneId s
            = (End 204, drop_zones {[zoneId := z]} s)).
Proof.
  unfold delete_zone, zone_deleteMany.
  pose proof (filter_key_singleton (λ z, zn_layerId z = layerId) (zone s) zoneId)
    as Hgone.
  simpl in Hgone. rewrite Hgone. clear Hgone. cbv zeta.
  destruct (zone s !! zoneId) as [z|] eqn:Hz.
  - destruct (decide (zn_layerId z = layerId)) as [Hlayer|Hlayer].
    + right. exists z. by rewrite map_size_singleton.
    + left. rewrite map_size_empty, drop_zones_empty. simpl.
      split; [right; eauto|done].
  - left. rewrite map_size_empty, drop_zones_empty. simpl.
    split; [by left|done].
Qed.

Lemma gate_cases {A} (auth : authorization) (h : Site → response A * Site)
    (s : Site) :
  (refused (authRequired auth (requireRole admins auth h) s).1
   ∧ (authRequired auth (requireRole admins auth h) s).2 = s
   ∧ ¬ ∃ role, auth = Verified role ∧ role ∈ admins)
  ∨ ((∃ role, auth = Verified role ∧ role ∈ admins)
     ∧ authRequired auth (requireRole admins auth h) s = h s).
Proof.
  destruct auth as [| |role]; simpl.
  - left. repeat split; try done. by intros (? & ? & _).
  - left. repeat split; try done. by intros (? & ? & _).
  - case_decide as Hrole.
    + right. split; [eauto|done].
    + left. repeat split; try done. intros (? & [= <-] & ?). done.
Qed.

Lemma post_offices_cases (name address city country : option string) (s : Site) :
  (refused (post_offices name address city country s).1
   ∧ (post_offices name address city country s).2 = s)
  ∨ (∃ o, office s !! office_id_seq s = None
          ∧ name = Some (of_name o) ∧ address = Some (of_address o)
          ∧ city = Some (of_city o) ∧ country = Some (of_country o)
          ∧ of_name o ≠ "" ∧ of_address o ≠ ""
          ∧ of_city o ≠ "" ∧ of_country o ≠ ""
          ∧ post_offices name address city country s
            = (Json 201 (office_id_seq s),
               {| office := <[office_id_seq s := o]> (office s);
                  floor := floor s; layer := layer s; zone := zone s;
                  office_id_seq := office_id_seq s + 1;
                  floor_id_seq := floor_id_seq s;
                  layer_id_seq := layer_id_seq s;
                  zone_id_seq := zone_id_seq s;
                  inventory := inventory s |})).
Proof.
  unfold post_offices.
  destruct name as [n|], address as [a|], city as [c|], country as [k|];
    try (left; done).
  case_decide as Hempty; [left; done|].
  unfold office_create.
  destruct (decide (is_Some (office s !! office_id_seq s))) as [Ho|Ho];
    [left; done|].
  right.
  exists {| of_name := n; of_address := a; of_city := c; of_country := k |}.
  simpl. split; [by apply eq_None_not_Some|].
  repeat (split; [first [done | by (intros ->; apply Hempty; tauto)]|]). done.
Qed.

Lemma put_office_cases (id : Z) (name address city country : option string)
    (s : Site) :
  (refused (put_office id name address city country s).1
   ∧ (put_office id name address city country s).2 = s)
  ∨ (∃ o, office s !! id = Some o
          ∧ put_office id name address city country s
            = (Json 200 (),
               set_office
                 (<[id := office_data name address city country o]> (office s))
                 s)).
Proof.
  unfold put_office. case_decide as Hnone; [left; done|].
  unfold office_update.
  destruct (office s !! id) as [o|] eqn:Ho; [right; eauto|left; done].
Qed.

Lemma delete_office_cases (id : Z) (s : Site) :
  (refused (delete_office id s).1 ∧ (delete_office id s).2 = s)
  ∨ (∃ o, office s !! id = Some o
          ∧ filter (λ kr, fl_officeId kr.2 = id) (floor s) = ∅
          ∧ delete_office id s = (End 204, drop_offices {[id := o]} s)).
Proof.
  unfold delete_office, bind, floor_count.
  case_decide as Hcount; [left; done|].
  unfold office_delete.
  destruct (office s !! id) as [o|] eqn:Ho; [|left; done].
  right. exists o. split; [done|]. split; [|done].
  apply map_size_empty_inv. lia.
Qed.

Lemma plan_step_effect (r : plan_request) (s : Site) :
  plan_effect s (plan_step r s).
Proof.
  destruct r as [auth name address city country
                |auth id name address city country
                |auth id
                |officeId floorNumber
                |auth officeId floorId
                |floorId file|floorId file
                |floorId name
                |floorId layerId
                |layerId name description status coordinates
                |layerId zoneId name description status coordinates
                |layerId zoneId]; simpl.
  - unfold route_post_offices.
    destruct (gate_cases auth (post_offices name address city country) s)
      as [(_ & -> & _)|[_ ->]]; [constructor|].
    destruct (post_offices_cases name address city country s)
      as [[_ ->]|(o & Hfresh & _ & _ & _ & _ & _ & _ & _ & _ & ->)];
      [constructor|].
    by apply plan_effect_office.
  - unfold route_put_office.
    destruct (gate_cases auth (put_office id name address city country) s)
      as [(_ & -> & _)|[_ ->]]; [constructor|].
    destruct (put_office_cases id name address city country s)
      as [[_ ->]|(o & Ho & ->)]; [constructor|].
    by apply (plan_effect_office_update s id o).
  - unfold route_delete_office.
    destruct (gate_cases auth (delete_office id) s)
      as [(_ & -> & _)|[_ ->]]; [constructor|].
    destruct (delete_office_cases id s) as [[_ ->]|(o & Ho & Hnone & ->)];
      [constructor|].
    by apply plan_effect_office_delete.
  - destruct (post_floors_cases officeId floorNumber s)
      as [[_ ->]|(Ho & Hf & Hl & Huniq & ->)]; [constructor|].
    by apply plan_effect_floor.
  - unfold route_delete_floor.
    destruct (gate_cases auth (delete_floor officeId floorId) s)
      as [(_ & -> & _)|[_ ->]]; [constructor|].
    destruct (delete_floor_cases officeId floorId s)
      as [[_ ->]|(f & Hf & _ & ->)]; [constructor|].
    by apply plan_effect_floor_delete.
  - unfold post_plan_image. destruct file as [rel|]; [|constructor].
    destruct (floor_update_cases floorId (with_planImageUrl (toPublicUrl rel)) s)
      as [[_ ->]|(f & Hf & ->)]; [constructor|].
    by apply (plan_effect_floor_update s floorId f).
  - unfold post_firesafe_image. destruct file as [rel|]; [|constructor].
    destruct (floor_update_cases floorId
                (with_firesafeImageUrl (toPublicUrl rel)) s)
      as [[_ ->]|(f & Hf & ->)]; [constructor|].
    by apply (plan_effect_floor_update s floorId f).
  - destruct (post_layers_cases floorId name s)
      as [[_ ->]|(n & _ & _ & Hf & Hl & ->)]; [constructor|].
    by apply plan_effect_layer.
  - destruct (delete_layer_cases floorId layerId s)
      as [[_ ->]|(l & Hl & _ & Htype & ->)]; [constructor|].
    by apply plan_effect_layer_delete.
  - destruct (post_zones_cases layerId name description status coordinates s)
      as [[_ ->]|(c & st & l & _ & Hlen & _ & Hl & Htype & _ & Hz & ->)];
      [constructor|].
    by apply (plan_effect_zone s
                {| zn_name := name; zn_description := description;
                   zn_status := st; zn_coordinates := c;
                   zn_layerId := layerId; zn_floorId := la_floorId l |} l).
  - destruct (patch_zone_cases layerId zoneId name description status
                coordinates s)
      as [[_ ->]|(z & parsed & Hz & _ & _ & _ & Hlen & ->)]; [constructor|].
    apply (plan_effect_zone_update s zoneId z); [done..|].
    simpl. destruct coordinates as [c|]; simpl; [|done].
    intros _. by apply Hlen.
  - destruct (delete_zone_cases layerId zoneId s)
      as [[_ ->]|(z & Hz & _ & ->)]; [constructor|].
    apply plan_effect_zone_delete. by apply map_singleton_subseteq_l.
Qed.

(** ** Tables after a cascading delete *)

Lemma not_is_Some_None {A} (o : option A) : ¬ is_Some o ↔ o = None.
Proof. split; [apply eq_None_not_Some | intros -> [? ?]; done]. Qed.

Lemma drop_floors_floor (gone : gmap Z Floor) (s : Site) :
  floor (drop_floors gone s) = floor s ∖ gone.
Proof. reflexivity. Qed.

Lemma drop_offices_tables (gone : gmap Z Office) (s : Site) :
  let floors := filter (λ kr : Z * Floor, is_Some (gone !! fl_officeId kr.2))
                  (floor s) in
  office (drop_offices gone s) = office s ∖ gone
  ∧ floor (drop_offices gone s) = floor (drop_floors floors s)
  ∧ layer (drop_offices gone s) = layer (drop_floors floors s)
  ∧ zone (drop_offices gone s) = zone (drop_floors floors s).
Proof.
  intros floors. subst floors. unfold drop_offices.
  generalize (drop_floors
                (filter (λ kr : Z * Floor, is_Some (gone !! fl_officeId kr.2))
                   (floor s)) s) as s'.
  intros s'. by repeat split.
Qed.

Lemma drop_layers_zone (gone : gmap Z Layer) (s : Site) (k : Z) (z : Zone) :
  zone (drop_layers gone s) !! k = Some z
  ↔ zone s !! k = Some z ∧ gone !! zn_layerId z = None.
Proof.
  unfold drop_layers, drop_zones. simpl.
  rewrite lookup_difference_filter. simpl. by rewrite not_is_Some_None.
Qed.

Lemma drop_floors_layer (gone : gmap Z Floor) (s : Site) (k : Z) (l : Layer) :
  layer (drop_floors gone s) !! k = Some l
  ↔ layer s !! k = Some l ∧ gone !! la_floorId l = None.
Proof.
  unfold drop_floors, drop_layers, drop_zones. simpl.
  rewrite lookup_difference_filter. simpl. by rewrite not_is_Some_None.
Qed.

Lemma drop_floors_zone_eq (gone : gmap Z Floor) (s : Site) :
  zone (drop_floors gone s)
  = zone (drop_layers
            (filter (λ kr, is_Some (gone !! la_floorId kr.2)) (layer s)) s)
    ∖ filter (λ kr, is_Some (gone !! zn_floorId kr.2))
        (zone (drop_layers
                 (filter (λ kr, is_Some (gone !! la_floorId kr.2)) (layer s))
                 s)).
Proof. reflexivity. Qed.

Lemma drop_floors_zone (gone : gmap Z Floor) (s : Site) (k : Z) (z : Zone) :
  zone (drop_floors gone s) !! k = Some z →
  zone s !! k = Some z ∧ gone !! zn_floorId z = None.
Proof.
  rewrite drop_floors_zone_eq.
  rewrite lookup_difference_filter, drop_layers_zone. simpl.
  rewrite not_is_Some_None. tauto.
Qed.

Lemma drop_floors_zone_layer (gone : gmap Z Floor) (s : Site) (k : Z) (z : Zone)
    (l : Layer) :
  zone s !! k = Some z → layer s !! zn_layerId z = Some l →
  gone !! zn_floorId z = None → gone !! la_floorId l = None →
  zone (drop_floors gone s) !! k = Some z.
Proof.
  intros Hz Hl Hzf Hlf.
  rewrite drop_floors_zone_eq.
  apply lookup_difference_filter. rewrite drop_layers_zone. simpl.
  rewrite not_is_Some_None.
  split; [|done]. split; [done|].
  apply map_lookup_filter_None. right. intros l' Hl' [g Hg]. simpl in Hg.
  assert (l' = l) as -> by congruence. congruence.
Qed.

Lemma floors_of_office_gone (id : Z) (o : Office) (s : Site) :
  filter (λ kr, fl_officeId kr.2 = id) (floor s) = ∅ →
  filter (λ kr : Z * Floor,
            is_Some (({[id := o]} : gmap Z Office) !! fl_officeId kr.2))
    (floor s) = ∅.
Proof.
  intros Hnone. apply map_empty. intros k. apply map_lookup_filter_None.
  right. intros f Hf [o' Ho']. simpl in Ho'.
  apply lookup_singleton_Some in Ho' as [Heq _].
  assert (filter (λ kr, fl_officeId kr.2 = id) (floor s) !! k = Some f) as Hin.
  { by apply map_lookup_filter_Some. }
  rewrite Hnone in Hin. by rewrite lookup_empty in Hin.
Qed.

Lemma drop_floors_empty_layer (s : Site) : layer (drop_floors ∅ s) = layer s.
Proof.
  apply map_eq. intros k. apply option_eq. intros l.
  rewrite drop_floors_layer. rewrite lookup_empty. tauto.
Qed.

Lemma drop_floors_empty_zone (s : Site) : zone (drop_floors ∅ s) = zone s.
Proof.
  rewrite drop_floors_zone_eq.
  apply map_eq. intros k. apply option_eq. intros z.
  rewrite lookup_difference_filter, drop_layers_zone. simpl.
  rewrite not_is_Some_None, lookup_empty. split; [tauto|].
  intros Hz. split; [|done]. split; [done|].
  apply map_lookup_filter_None. right. intros l' _ [g Hg]. simpl in Hg.
  by rewrite lookup_empty in Hg.
Qed.

(** ** The shape of the plan *)

Lemma plan_effect_ok (s s' : Site) : plan_ok s → plan_effect s s' → plan_ok s'.
Proof.
  intros (Hfl & Hla & Hzn) Heff.
  destruct Heff as [|o Hfresh
                    |id o o' Ho
                    |id o Ho Hnone
                    |officeId number Ho Hf Hl Huniq
                    |id f f' Hf Hoffice Hnumber
                    |id f Hf
                    |floorId name Hf Hl
                    |id l Hl Htype
                    |z l Hl Htype Hfloor Hz Hlen
                    |id z z' Hz Hlayer Hfloor Hlen
                    |gone Hgone].
  - done.
  - split; [|done].
    intros k f Hf. simpl in *. apply is_Some_insert_keep. by apply (Hfl k f).
  - split; [|done].
    intros k f Hf. simpl in *. apply is_Some_insert_keep. by apply (Hfl k f).
  - destruct (drop_offices_tables {[id := o]} s) as (Hto & Htf & Htl & Htz).
    rewrite (floors_of_office_gone id o s Hnone) in Htf, Htl, Htz.
    rewrite drop_floors_floor, map_difference_empty in Htf.
    rewrite drop_floors_empty_layer in Htl.
    rewrite drop_floors_empty_zone in Htz.
    unfold plan_ok. rewrite Hto, Htf, Htl, Htz.
    split; [|done].
    intros k f Hf. simpl.
    apply lookup_difference_is_Some. split; [by apply (Hfl k f)|].
    apply lookup_singleton_None. intros Heq.
    assert (filter (λ kr, fl_officeId kr.2 = id) (floor s) !! k = Some f)
      as Hin by (by apply map_lookup_filter_Some).
    rewrite Hnone in Hin. by rewrite lookup_empty in Hin.
  - split; [|split].
    + intros k f Hk. simpl in *.
      apply lookup_insert_Some in Hk as [[_ <-]|[_ Hk]]; [done|].
      by apply (Hfl k f).
    + intros k l Hk. simpl in *.
      apply lookup_insert_Some in Hk as [[_ <-]|[_ Hk]]; simpl.
      * rewrite lookup_insert_eq. by eexists.
      * apply is_Some_insert_keep. by apply (Hla k l).
    + intros k z Hk. simpl in *.
      destruct (Hzn k z Hk) as (l & Hzl & Hzf & Hzt). exists l.
      split; [|done]. rewrite lookup_insert_ne; [done|]. congruence.
  - split; [|split; [|done]].
    + intros k g Hk. simpl in *.
      apply lookup_insert_Some in Hk as [[_ <-]|[_ Hk]].
      * rewrite Hoffice. by apply (Hfl id f).
      * by apply (Hfl k g).
    + intros k l Hk. simpl in *. apply is_Some_insert_keep. by apply (Hla k l).
  - split; [|split].
    + intros k g Hk. rewrite drop_floors_floor in Hk.
      apply lookup_difference_Some in Hk as [Hk _]. by apply (Hfl k g).
    + intros k l Hk. apply drop_floors_layer in Hk as [Hk Hnone].
      rewrite drop_floors_floor.
      apply lookup_difference_is_Some. split; [by apply (Hla k l) | done].
    + intros k z Hk. apply drop_floors_zone in Hk as [Hk Hnone].
      destruct (Hzn k z Hk) as (l & Hzl & Hzf & Hzt). exists l.
      split; [|done]. apply drop_floors_layer. split; [done|]. congruence.
  - split; [done|]. split.
    + intros k l Hk. simpl in *.
      apply lookup_insert_Some in Hk as [[_ <-]|[_ Hk]]; [done|].
      by apply (Hla k l).
    + intros k z Hk. simpl in *.
      destruct (Hzn k z Hk) as (l & Hzl & Hzf & Hzt). exists l.
      split; [|done]. rewrite lookup_insert_ne; [done|]. congruence.
  - split; [done|]. split.
    + intros k l' Hk. simpl in *.
      apply lookup_difference_Some in Hk as [Hk _]. by apply (Hla k l').
    + intros k z Hk. apply drop_layers_zone in Hk as [Hk Hnone].
      destruct (Hzn k z Hk) as (l' & Hzl & Hzf & Hzt). exists l'.
      split; [|done]. simpl. by apply lookup_difference_Some.
  - split; [done|]. split; [done|].
    intros k z' Hk. simpl in *.
    apply lookup_insert_Some in Hk as [[_ <-]|[_ Hk]].
    + exists l. by repeat split.
    + by apply (Hzn k z').
  - split; [done|]. split; [done|].
    intros k z0 Hk. simpl in *.
    apply lookup_insert_Some in Hk as [[_ <-]|[_ Hk]].
    + rewrite Hlayer, Hfloor. by apply (Hzn id z).
    + by apply (Hzn k z0).
  - split; [done|]. split; [done|].
    intros k z Hk. simpl in *.
    apply lookup_difference_Some in Hk as [Hk _]. by apply (Hzn k z).
Qed.

Lemma one_firesafe_ext (s s' : Site) :
  (∀ floorId, is_Some (floor s' !! floorId) → is_Some (floor s !! floorId)) →
  (∀ floorId k, is_Some (floor s' !! floorId) →
     (firesafe_layer s' floorId k ↔ firesafe_layer s floorId k)) →
  one_firesafe s → one_firesafe s'.
Proof.
  intros Hfloor Hlayer Hone floorId Hf.
  destruct (Hone floorId (Hfloor floorId Hf)) as [l Hl]. exists l.
  intros k. rewrite Hlayer by done. apply Hl.
Qed.

Lemma one_firesafe_same (s s' : Site) :
  (∀ floorId, is_Some (floor s' !! floorId) → is_Some (floor s !! floorId)) →
  layer s' = layer s →
  one_firesafe s → one_firesafe s'.
Proof.
  intros Hfloor Hlayer. apply one_firesafe_ext; [done|].
  intros floorId k _. unfold firesafe_layer. by rewrite Hlayer.
Qed.

Lemma plan_effect_one_firesafe (s s' : Site) :
  plan_ok s → one_firesafe s → plan_effect s s' → one_firesafe s'.
Proof.
  intros (Hfl & Hla & Hzn) Hone Heff.
  destruct Heff as [|o Hfresh
                    |id o o' Ho
                    |id o Ho Hnone
                    |officeId number Ho Hf Hl Huniq
                    |id f f' Hf Hoffice Hnumber
                    |id f Hf
                    |floorId name Hf Hl
                    |id l Hl Htype
                    |z l Hl Htype Hfloor Hz Hlen
                    |id z z' Hz Hlayer Hfloor Hlen
                    |gone Hgone].
  - done.
  - by apply (one_firesafe_same s).
  - by apply (one_firesafe_same s).
  - destruct (drop_offices_tables {[id := o]} s) as (_ & Htf & Htl & _).
    rewrite (floors_of_office_gone id o s Hnone) in Htf, Htl.
    rewrite drop_floors_floor, map_difference_empty in Htf.
    rewrite drop_floors_empty_layer in Htl.
    apply (one_firesafe_same s); [|done|done].
    intros floorId. by rewrite Htf.
  - intros floorId Hfloor. simpl in Hfloor.
    destruct (decide (floorId = floor_id_seq s)) as [->|Hne].
    + exists (layer_id_seq s). intros k. unfold firesafe_layer. simpl. split.
      * intros (l & Hk & Hkf & Hkt).
        apply lookup_insert_Some in Hk as [[<- _]|[_ Hk]]; [done|].
        exfalso. destruct (Hla k l Hk) as [g Hg]. simpl in Hg. congruence.
      * intros ->. eexists. rewrite lookup_insert_eq. done.
    + rewrite lookup_insert_ne in Hfloor by done.
      destruct (Hone floorId Hfloor) as [l0 Hl0]. exists l0. intros k.
      rewrite <- Hl0. unfold firesafe_layer. simpl. split.
      * intros (l & Hk & Hkf & Hkt).
        apply lookup_insert_Some in Hk as [[_ <-]|[_ Hk]]; [done|]. eauto.
      * intros (l & Hk & Hkf & Hkt). exists l. split; [|done].
        rewrite lookup_insert_ne; [done|]. congruence.
  - apply (one_firesafe_same s); [|done|done].
    intros floorId. simpl. rewrite lookup_insert_is_Some.
    intros [<-|[_ ?]]; [by eexists|done].
  - apply (one_firesafe_ext s); [| |done].
    + intros floorId. rewrite drop_floors_floor.
      rewrite lookup_difference_is_Some. tauto.
    + intros floorId k. rewrite drop_floors_floor.
      rewrite lookup_difference_is_Some, lookup_singleton_None.
      intros [_ Hne]. unfold firesafe_layer.
      setoid_rewrite drop_floors_layer. setoid_rewrite lookup_singleton_None.
      split.
      * intros (l & [Hk _] & Hkf & Hkt). eauto.
      * intros (l & Hk & Hkf & Hkt). exists l. repeat split; try done.
        congruence.
  - apply (one_firesafe_ext s); [done| |done].
    intros fid k _. unfold firesafe_layer. simpl. split.
    + intros (l & Hk & Hkf & Hkt).
      apply lookup_insert_Some in Hk as [[_ <-]|[_ Hk]]; [done|]. eauto.
    + intros (l & Hk & Hkf & Hkt). exists l. split; [|done].
      rewrite lookup_insert_ne; [done|]. congruence.
  - apply (one_firesafe_ext s); [done| |done].
    intros fid k _. unfold firesafe_layer. simpl. split.
    + intros (l' & Hk & Hkf & Hkt).
      apply lookup_difference_Some in Hk as [Hk _]. eauto.
    + intros (l' & Hk & Hkf & Hkt). exists l'. split; [|done].
      apply lookup_difference_Some. split; [done|].
      apply lookup_singleton_None. intros <-. congruence.
  - by apply (one_firesafe_same s).
  - by apply (one_firesafe_same s).
  - by apply (one_firesafe_same s).
Qed.

Lemma plan_effect_floor_numbers (s s' : Site) :
  floor_numbers_unique s → plan_effect s s' → floor_numbers_unique s'.
Proof.
  intros Huniq Heff.
  assert (∀ m : gmap Z Floor, m ⊆ floor s →
            ∀ i j fi fj, m !! i = Some fi → m !! j = Some fj →
              fl_officeId fi = fl_officeId fj →
              fl_number fi = fl_number fj → i = j) as Hsub.
  { intros m Hm i j fi fj Hi Hj. apply (Huniq i j fi fj).
    - by apply (lookup_weaken m).
    - by apply (lookup_weaken m). }
  destruct Heff as [|o Hfresh
                    |id o o' Ho
                    |id o Ho Hnone
                    |officeId number Ho Hf Hl Hnew
                    |id f f' Hf Hoffice Hnumber
                    |id f Hf
                    |floorId name Hf Hl
                    |id l Hl Htype
                    |z l Hl Htype Hfloor Hz Hlen
                    |id z z' Hz Hlayer Hfloor Hlen
                    |gone Hgone]; try done.
  - destruct (drop_offices_tables {[id := o]} s) as (_ & Htf & _).
    unfold floor_numbers_unique. rewrite Htf, drop_floors_floor.
    apply Hsub. by apply map_subseteq_difference_l.
  - intros i j fi fj Hi Hj Hoff Hnum. simpl in *.
    assert (∀ k g, floor s !! k = Some g → fl_officeId g = officeId →
                   fl_number g = number → False) as Hclash.
    { intros k g Hk Hgo Hgn.
      assert (filter (λ kr, fl_officeId kr.2 = officeId ∧ fl_number kr.2 = number)
                (floor s) !! k = Some g) as Hin
        by (by apply map_lookup_filter_Some).
      rewrite Hnew in Hin. by rewrite lookup_empty in Hin. }
    apply lookup_insert_Some in Hi as [[<- <-]|[Hni Hi]];
      apply lookup_insert_Some in Hj as [[<- <-]|[Hnj Hj]]; simpl in *.
    + done.
    + exfalso. by apply (Hclash j fj).
    + exfalso. by apply (Hclash i fi).
    + by apply (Huniq i j fi fj).
  - intros i j fi fj Hi Hj Hoff Hnum. simpl in *.
    apply lookup_insert_Some in Hi as [[<- <-]|[Hni Hi]];
      apply lookup_insert_Some in Hj as [[<- <-]|[Hnj Hj]].
    + done.
    + apply (Huniq id j f fj); congruence.
    + apply (Huniq i id fi f); congruence.
    + by apply (Huniq i j fi fj).
  - unfold floor_numbers_unique. rewrite drop_floors_floor.
    apply Hsub. by apply map_subseteq_difference_l.
Qed.

Lemma plan_effect_polygons (s s' : Site) :
  zones_are_polygons s → plan_effect s s' → zones_are_polygons s'.
Proof.
  intros Hpoly Heff.
  destruct Heff as [|o Hfresh
                    |id o o' Ho
                    |id o Ho Hnone
                    |officeId number Ho Hf Hl Hnew
                    |id f f' Hf Hoffice Hnumber
                    |id f Hf
                    |floorId name Hf Hl
                    |id l Hl Htype
                    |z l Hl Htype Hfloor Hz Hlen
                    |id z z' Hz Hlayer Hfloor Hlen
                    |gone Hgone]; try done.
  - destruct (drop_offices_tables {[id := o]} s) as (_ & _ & _ & Htz).
    intros k z Hk. rewrite Htz in Hk.
    apply drop_floors_zone in Hk as [Hk _]. by apply (Hpoly k z).
  - intros k z Hk. apply drop_floors_zone in Hk as [Hk _]. by apply (Hpoly k z).
  - intros k z Hk. apply drop_layers_zone in Hk as [Hk _]. by apply (Hpoly k z).
  - unfold zones_are_polygons. simpl. by apply map_Forall_insert_2.
  - unfold zones_are_polygons. simpl. apply map_Forall_insert_2; [|done].
    apply Hlen. by apply (Hpoly id z).
  - intros k z Hk. simpl in Hk.
    apply lookup_difference_Some in Hk as [Hk _]. by apply (Hpoly k z).
Qed.

(** X15.  The plan keeps its shape under every request on offices,
    floors, layers and zones: every floor belongs to an existing office,
    every layer to an existing floor, and every zone to an existing custom
    layer and to the floor of that layer. *)
Theorem plan_requests_keep_shape (r : plan_request) (s : Site) :
  plan_ok s → plan_ok (plan_step r s).
Proof. intros Hok. apply (plan_effect_ok s); [done | apply plan_step_effect]. Qed.

(** X16.  Every floor has exactly one firesafe layer, whatever the
    requests: the one its creation gives it, which no route deletes and
    beside which no route adds a second. *)
Theorem floors_keep_one_firesafe_layer (r : plan_request) (s : Site) :
  plan_ok s → one_firesafe s → one_firesafe (plan_step r s).
Proof.
  intros Hok Hone.
  apply (plan_effect_one_firesafe s); [done | done | apply plan_step_effect].
Qed.

(** X17.  No two floors of an office ever share their number. *)
Theorem floor_numbers_stay_unique (r : plan_request) (s : Site) :
  floor_numbers_unique s → floor_numbers_unique (plan_step r s).
Proof.
  intros Huniq.
  apply (plan_effect_floor_numbers s); [done | apply plan_step_effect].
Qed.

(** X18.  Every stored zone keeps at least six coordinates (three
    points): no request stores a shorter list. *)
Theorem zones_stay_polygons (r : plan_request) (s : Site) :
  zones_are_polygons s → zones_are_polygons (plan_step r s).
Proof.
  intros Hpoly. apply (plan_effect_polygons s); [done | apply plan_step_effect].
Qed.

Lemma demo_site_ok : plan_ok demo_site.
Proof.
  split; [|split].
  - apply map_Forall_singleton. simpl. by eexists.
  - apply map_Forall_insert_2; [simpl; by eexists|].
    apply map_Forall_singleton. simpl. by eexists.
  - apply map_Forall_insert_2; [|apply map_Forall_singleton]; simpl;
      eexists; (split; [reflexivity|]); done.
Qed.

Lemma demo_site_one_firesafe : one_firesafe demo_site.
Proof.
  intros floorId [f Hf]. simpl in Hf.
  apply lookup_singleton_Some in Hf as [<- _].
  exists 1. intros k. unfold firesafe_layer. simpl. split.
  - intros (l & Hk & _ & Htype).
    apply lookup_insert_Some in Hk as [[<- _]|[_ Hk]]; [done|].
    apply lookup_singleton_Some in Hk as [_ <-]. done.
  - intros ->. eexists. by rewrite lookup_insert_eq.
Qed.

(** The custom layer of the demo store is deleted. *)
Lemma plan_requests_keep_shape_witness :
  plan_ok demo_site ∧ plan_ok (plan_step (DeleteLayer 1 2) demo_site).
Proof.
  split; [exact demo_site_ok|].
  exact (plan_requests_keep_shape (DeleteLayer 1 2) demo_site demo_site_ok).
Defined.

(** A second floor is added to the demo store. *)
Lemma floors_keep_one_firesafe_layer_witness :
  plan_ok demo_site ∧ one_firesafe demo_site
  ∧ one_firesafe (plan_step (PostFloor 1 4) demo_site).
Proof.
  split; [exact demo_site_ok|]. split; [exact demo_site_one_firesafe|].
  exact (floors_keep_one_firesafe_layer (PostFloor 1 4) demo_site
           demo_site_ok demo_site_one_firesafe).
Defined.

Lemma floor_numbers_stay_unique_witness :
  floor_numbers_unique demo_site
  ∧ floor_numbers_unique (plan_step (PostFloor 1 4) demo_site).
Proof.
  assert (floor_numbers_unique demo_site) as Huniq.
  { intros i j fi fj Hi Hj _ _. simpl in Hi, Hj.
    apply lookup_singleton_Some in Hi as [<- _].
    apply lookup_singleton_Some in Hj as [<- _]. reflexivity. }
  split; [exact Huniq|].
  exact (floor_numbers_stay_unique (PostFloor 1 4) demo_site Huniq).
Defined.

Lemma zones_stay_polygons_witness :
  zones_are_polygons demo_site
  ∧ zones_are_polygons
      (plan_step (PatchZone 2 1 None None None (Some triangle)) demo_site).
Proof.
  assert (zones_are_polygons demo_site) as Hpoly.
  { apply map_Forall_insert_2; [|apply map_Forall_singleton]; simpl; lia. }
  split; [exact Hpoly|].
  exact (zones_stay_polygons (PatchZone 2 1 None None None (Some triangle))
           demo_site Hpoly).
Defined.

(** ** The role gate *)

(** X19.  The routes reserved to administrators (create, update and delete
    an office, delete a floor) change nothing unless the request carries a
    verified token with role WORKSPACE_ADMIN or PROJECT_ADMIN: without a
    verified token they answer 401, with another role 403. *)
Theorem admin_routes_are_gated (auth : authorization) (s : Site) :
  (¬ ∃ role, auth = Verified role ∧ role ∈ admins) →
  let status := match auth with Verified _ => 403 | _ => 401 end in
  (∀ name address city country,
     ∃ error, route_post_offices auth name address city country s
              = (ErrorJson status error, s))
  ∧ (∀ id name address city country,
       ∃ error, route_put_office auth id name address city country s
                = (ErrorJson status error, s))
  ∧ (∀ id, ∃ error, route_delete_office auth id s
                    = (ErrorJson status error, s))
  ∧ (∀ officeId floorId,
       ∃ error, route_delete_floor auth officeId floorId s
                = (ErrorJson status error, s)).
Proof.
  intros Hnot status. subst status.
  unfold route_post_offices, route_put_office, route_delete_office,
    route_delete_floor, authRequired, requireRole.
  destruct auth as [| |role]; try (repeat split; intros; eexists; reflexivity).
  destruct (decide (role ∈ admins)) as [Hin|Hin];
    [exfalso; apply Hnot; eauto|].
  repeat split; intros; eexists; reflexivity.
Qed.

Lemma admin_routes_are_gated_witness :
  ∃ error, route_delete_floor (Verified "USER") 1 1 demo_site
           = (ErrorJson 403 error, demo_site).
Proof.
  destruct (admin_routes_are_gated (Verified "USER") demo_site)
    as (_ & _ & _ & Hfloor).
  - intros (role & [= <-] & Hin). vm_compute in Hin.
    apply elem_of_cons in Hin as [Hin|Hin]; [discriminate|].
    apply elem_of_cons in Hin as [Hin|Hin]; [discriminate|].
    by apply elem_of_nil in Hin.
  - exact (Hfloor 1 1).
Defined.

(** ** Plan images *)

Lemma toPublicUrl_set (rel : string) : not_set (Some (toPublicUrl rel)) = false.
Proof. reflexivity. Qed.

(** X20.  The URL of an uploaded plan image is the one served afterwards:
    on an existing floor the upload answers the public URL of the file,
    the next read of the plan image answers that URL, and the firesafe
    image is what it was.  On a missing floor the upload is passed to the
    default error handler, not answered 404, and no table changes; the
    file itself was written before the handler ran, and the files are not
    part of the store. *)
Theorem plan_image_roundtrip (floorId : Z) (rel : string) (s : Site) :
  (is_Some (floor s !! floorId) →
     let s' := (post_plan_image floorId (Some rel) s).2 in
     (post_plan_image floorId (Some rel) s).1 = Json 200 (toPublicUrl rel)
     ∧ get_plan_image floorId s' = (Json 200 (Some (toPublicUrl rel)), s')
     ∧ (get_firesafe_image floorId s').1 = (get_firesafe_image floorId s).1)
  ∧ (floor s !! floorId = None →
       post_plan_image floorId (Some rel) s = (Next (PrismaError P2025), s)).
Proof.
  split.
  - intros [f Hf] s'. subst s'.
    unfold post_plan_image, floor_update. rewrite Hf. simpl.
    split; [done|]. split.
    + unfold get_plan_image, floor_findUnique. simpl.
      rewrite lookup_insert_eq. unfold with_planImageUrl at 1.
      cbn [fl_planImageUrl]. by rewrite toPublicUrl_set.
    + unfold get_firesafe_image, floor_findUnique. simpl.
      rewrite lookup_insert_eq, Hf. simpl.
      by destruct (not_set (fl_firesafeImageUrl f)).
  - intros Hf. unfold post_plan_image, floor_update. by rewrite Hf.
Qed.

Lemma plan_image_roundtrip_witness :
  (get_plan_image 1 (post_plan_image 1 (Some "floors/1/17.png") demo_site).2).1
  = Json 200 (Some "/uploads/floors/1/17.png").
Proof.
  destruct (plan_image_roundtrip 1 "floors/1/17.png" demo_site) as [Hset _].
  destruct Hset as (_ & Hget & _).
  - vm_compute. by eexists.
  - rewrite Hget. reflexivity.
Defined.

(** ** Paging and roles of the user routes *)

(** X21.  The page size of the user list is always between 1 and 200 and
    the offset is never negative: a limit within 1..200 is taken as it is,
    a larger one gives 200, a negative one gives 1, and an unreadable or
    zero limit gives 50; an unreadable or negative offset gives 0. *)
Theorem paging_is_clamped (limit offset : option Z) :
  1 ≤ take limit ≤ 200
  ∧ 0 ≤ skip offset
  ∧ (∀ n, limit = Some n → 1 ≤ n ≤ 200 → take limit = n)
  ∧ (∀ n, limit = Some n → 200 < n → take limit = 200)
  ∧ (∀ n, limit = Some n → n < 0 → take limit = 1)
  ∧ (limit = None ∨ limit = Some 0 → take limit = 50)
  ∧ (∀ n, offset = Some n → 0 ≤ n → skip offset = n)
  ∧ (offset = None ∨ (∃ n, offset = Some n ∧ n < 0) → skip offset = 0).
Proof.
  unfold take, skip, or_default.
  split; [lia|]. split; [lia|].
  split; [intros n -> Hn; case_decide; lia|].
  split; [intros n -> Hn; case_decide; lia|].
  split; [intros n -> Hn; case_decide; lia|].
  split; [intros [->| ->]; simpl; lia|].
  split; [intros n -> Hn; case_decide; lia|].
  intros [->|(n & -> & Hn)]; [simpl; lia|]. case_decide; lia.
Qed.

(** X22.  The role a registration is given is always one of USER,
    WORKSPACE_ADMIN and PROJECT_ADMIN: the first user ever registered is a
    PROJECT_ADMIN whatever the request asks for, a later one gets the role
    it asks for when that is one of the three, and USER otherwise. *)
Theorem registration_role (usersCount : nat) (role : option string) :
  finalRole usersCount role ∈ ["USER"; "WORKSPACE_ADMIN"; "PROJECT_ADMIN"]
  ∧ (usersCount = 0%nat → finalRole usersCount role = "PROJECT_ADMIN")
  ∧ (∀ r, usersCount ≠ 0%nat → role = Some r →
       r ∈ ["USER"; "WORKSPACE_ADMIN"; "PROJECT_ADMIN"] →
       finalRole usersCount role = r)
  ∧ (usersCount ≠ 0%nat →
       (∀ r, role = Some r →
          r ∉ ["USER"; "WORKSPACE_ADMIN"; "PROJECT_ADMIN"]) →
       finalRole usersCount role = "USER").
Proof.
  unfold finalRole. split; [|split; [|split]].
  - case_decide; [set_solver|].
    destruct role as [r|]; [|set_solver]. case_decide; [done|set_solver].
  - intros ->. done.
  - intros r Hne -> Hin. rewrite decide_False by done. by rewrite decide_True.
  - intros Hne Hnot. rewrite decide_False by done.
    destruct role as [r|]; [|done]. rewrite decide_False; [done|]. by apply Hnot.
Qed.

(** ** Cascades into the inventory *)

Lemma drop_zones_zoneInventory (gone : gmap Z Zone) (s : Site) (k : Z)
    (r : ZoneInventory) :
  zoneInventory (inventory (drop_zones gone s)) !! k = Some r
  ↔ zoneInventory (inventory s) !! k = Some r ∧ gone !! zi_zoneId r = None.
Proof.
  unfold drop_zones. simpl.
  rewrite lookup_difference_filter. simpl. by rewrite not_is_Some_None.
Qed.

Lemma drop_zones_zoneObject (gone : gmap Z Zone) (s : Site) (k : Z)
    (o : ZoneObject) :
  zoneObject (inventory (drop_zones gone s)) !! k = Some o
  ↔ zoneObject (inventory s) !! k = Some o
    ∧ gone !! zo_zoneId o = None
    ∧ (∀ r, zoneInventory (inventory s) !! zo_zoneInventoryId o = Some r →
         gone !! zi_zoneId r = None).
Proof.
  unfold drop_zones. simpl.
  rewrite !map_lookup_filter_Some. simpl.
  rewrite map_lookup_filter_None. simpl. split.
  - intros [[Ho Hparent] Hzone]. split; [done|]. split; [done|].
    intros r Hr. destruct Hparent as [Hn|Hn]; [congruence|].
    apply not_is_Some_None. by apply Hn.
  - intros (Ho & Hzone & Hparent). split; [|done]. split; [done|].
    right. intros r Hr. apply not_is_Some_None. by apply Hparent.
Qed.

Lemma drop_zones_floorInventory (gone : gmap Z Zone) (s : Site) :
  floorInventory (inventory (drop_zones gone s)) = floorInventory (inventory s).
Proof. unfold drop_zones. by simpl. Qed.

Lemma drop_zones_fk_ok (gone : gmap Z Zone) (s : Site) :
  fk_ok (inventory s) → fk_ok (inventory (drop_zones gone s)).
Proof.
  intros [Hzi Hzo]. split.
  - intros k r Hr. apply drop_zones_zoneInventory in Hr as [Hr _].
    rewrite drop_zones_floorInventory. by apply (Hzi k r).
  - intros k o Ho. apply drop_zones_zoneObject in Ho as (Ho & _ & Hparent).
    destruct (Hzo k o Ho) as [r Hr]. exists r.
    apply drop_zones_zoneInventory. split; [done|]. by apply Hparent.
Qed.

Lemma drop_layers_inventory (gone : gmap Z Layer) (s : Site) :
  inventory (drop_layers gone s)
  = inventory (drop_zones
                 (filter (λ kr, is_Some (gone !! zn_layerId kr.2)) (zone s)) s).
Proof. reflexivity. Qed.

Lemma floorInventory_drop_fk_ok (gone : gmap Z FloorInventory) (d : DB) :
  fk_ok d → fk_ok (floorInventory_drop gone d).
Proof.
  intros [Hzi Hzo]. unfold floorInventory_drop. split.
  - intros k r Hr. simpl in *.
    apply lookup_difference_filter in Hr as [Hr Hkeep]. simpl in Hkeep.
    apply lookup_difference_is_Some. split; [by apply (Hzi k r)|].
    by apply not_is_Some_None.
  - intros k o Ho. simpl in *.
    apply map_lookup_filter_Some in Ho as [Ho Hkeep]. simpl in Hkeep.
    apply lookup_difference_is_Some. split; [by apply (Hzo k o) | done].
Qed.

Lemma drop_floors_inventory (gone : gmap Z Floor) (s : Site) :
  let s1 := drop_layers
              (filter (λ kr, is_Some (gone !! la_floorId kr.2)) (layer s)) s in
  let s2 := drop_zones
              (filter (λ kr, is_Some (gone !! zn_floorId kr.2)) (zone s1)) s1 in
  inventory (drop_floors gone s)
  = floorInventory_drop
      (filter (λ kr, is_Some (gone !! fi_floorId kr.2))
         (floorInventory (inventory s2)))
      (inventory s2).
Proof. reflexivity. Qed.

Lemma drop_layers_fk_ok (gone : gmap Z Layer) (s : Site) :
  fk_ok (inventory s) → fk_ok (inventory (drop_layers gone s)).
Proof. intros Hfk. rewrite drop_layers_inventory. by apply drop_zones_fk_ok. Qed.

Lemma drop_floors_fk_ok (gone : gmap Z Floor) (s : Site) :
  fk_ok (inventory s) → fk_ok (inventory (drop_floors gone s)).
Proof.
  intros Hfk. rewrite drop_floors_inventory. cbv zeta.
  apply floorInventory_drop_fk_ok, drop_zones_fk_ok. by apply drop_layers_fk_ok.
Qed.

Lemma drop_offices_eq (gone : gmap Z Office) (s : Site) :
  drop_offices gone s
  = set_office (office s ∖ gone)
      (drop_floors
         (filter (λ kr, is_Some (gone !! fl_officeId kr.2)) (floor s)) s).
Proof. reflexivity. Qed.

Lemma set_office_inventory (X : gmap Z Office) (s : Site) :
  inventory (set_office X s) = inventory s.
Proof. reflexivity. Qed.

Lemma drop_offices_inventory (gone : gmap Z Office) (s : Site) :
  inventory (drop_offices gone s)
  = inventory (drop_floors
                 (filter (λ kr, is_Some (gone !! fl_officeId kr.2)) (floor s)) s).
Proof. rewrite drop_offices_eq. apply set_office_inventory. Qed.

Lemma plan_effect_fk_ok (s s' : Site) :
  fk_ok (inventory s) → plan_effect s s' → fk_ok (inventory s').
Proof.
  intros Hfk Heff.
  destruct Heff as [|o Hfresh
                    |id o o' Ho
                    |id o Ho Hnone
                    |officeId number Ho Hf Hl Hnew
                    |id f f' Hf Hoffice Hnumber
                    |id f Hf
                    |floorId name Hf Hl
                    |id l Hl Htype
                    |z l Hl Htype Hfloor Hz Hlen
                    |id z z' Hz Hlayer Hfloor Hlen
                    |gone Hgone]; try done.
  - rewrite drop_offices_inventory. by apply drop_floors_fk_ok.
  - by apply drop_floors_fk_ok.
  - by apply drop_layers_fk_ok.
  - by apply drop_zones_fk_ok.
Qed.

(** X23.  Deleting offices, floors, layers and zones never leaves the
    inventory with a dangling reference: if every allocation references an
    existing stock row and every placement an existing allocation, the
    same holds after any request on the plan. *)
Theorem plan_requests_keep_references (r : plan_request) (s : Site) :
  fk_ok (inventory s) → fk_ok (inventory (plan_step r s)).
Proof.
  intros Hfk. apply (plan_effect_fk_ok s); [done | apply plan_step_effect].
Qed.

Lemma plan_requests_keep_references_witness :
  fk_ok (inventory demo_site)
  ∧ fk_ok (inventory (plan_step (DeleteFloor admin 1 1) demo_site)).
Proof.
  assert (fk_ok (inventory demo_site)) as Hfk.
  { split; apply (bool_decide_unpack _); vm_compute; exact I. }
  split; [exact Hfk|].
  exact (plan_requests_keep_references (DeleteFloor admin 1 1) demo_site Hfk).
Defined.

(** X24.  Deleting a zone answers 404, and changes nothing, exactly when
    the layer has no such zone.  Otherwise it answers 204; the zone row is
    gone, the allocations of the zone are gone and all others stay, every
    placement in the zone or on one of its allocations is gone, and the
    stock rows are untouched. *)
Theorem delete_zone_cascades (layerId zoneId : Z) (s : Site) :
  ((zone s !! zoneId = None
    ∨ ∃ z, zone s !! zoneId = Some z ∧ zn_layerId z ≠ layerId) →
   delete_zone layerId zoneId s = (ErrorJson 404 "Zone not found", s))
  ∧ (∀ z, zone s !! zoneId = Some z → zn_layerId z = layerId →
       let s' := (delete_zone layerId zoneId s).2 in
       (delete_zone layerId zoneId s).1 = End 204
       ∧ zone s' = delete zoneId (zone s)
       ∧ layer s' = layer s
       ∧ (∀ k r, zoneInventory (inventory s') !! k = Some r
                 ↔ zoneInventory (inventory s) !! k = Some r
                   ∧ zi_zoneId r ≠ zoneId)
       ∧ (∀ k o, zoneObject (inventory s') !! k = Some o
                 ↔ zoneObject (inventory s) !! k = Some o
                   ∧ zo_zoneId o ≠ zoneId
                   ∧ (∀ r, zoneInventory (inventory s)
                             !! zo_zoneInventoryId o = Some r →
                        zi_zoneId r ≠ zoneId))
       ∧ floorInventory (inventory s') = floorInventory (inventory s)).
Proof.
  split.
  - intros Habsent.
    destruct (delete_zone_cases layerId zoneId s)
      as [[_ ->]|(z & Hz & Hlayer & _)]; [done|].
    destruct Habsent as [Hnone|(z' & Hz' & Hne)]; congruence.
  - intros z Hz Hlayer s'. subst s'.
    destruct (delete_zone_cases layerId zoneId s)
      as [[Habsent _]|(z' & Hz' & _ & ->)].
    { destruct Habsent as [Hnone|(z' & Hz' & Hne)]; congruence. }
    assert (z' = z) as -> by congruence. simpl.
    split; [done|]. split; [apply difference_singleton|]. split; [done|].
    split; [|split].
    + intros k r.
      change (zoneInventory
                (inventory (drop_zones {[zoneId := z]} s)) !! k = Some r
              ↔ zoneInventory (inventory s) !! k = Some r
                ∧ zi_zoneId r ≠ zoneId).
      rewrite drop_zones_zoneInventory, lookup_singleton_None.
      split; (intros [Hr Hne]; split; [exact Hr | congruence]).
    + intros k o.
      change (zoneObject (inventory (drop_zones {[zoneId := z]} s)) !! k = Some o
              ↔ zoneObject (inventory s) !! k = Some o
                ∧ zo_zoneId o ≠ zoneId
                ∧ (∀ r, zoneInventory (inventory s)
                          !! zo_zoneInventoryId o = Some r →
                     zi_zoneId r ≠ zoneId)).
      rewrite drop_zones_zoneObject, lookup_singleton_None.
      split.
      * intros (Ho & Hne & Hparent). split; [exact Ho|].
        split; [congruence|]. intros r Hr Heq.
        specialize (Hparent r Hr). apply lookup_singleton_None in Hparent.
        congruence.
      * intros (Ho & Hne & Hparent). split; [exact Ho|].
        split; [congruence|]. intros r Hr.
        apply lookup_singleton_None. specialize (Hparent r Hr). congruence.
    + done.
Qed.

(** Zone 1 of the demo store, with its allocation and its placement. *)
Lemma delete_zone_cascades_witness :
  let s' := (delete_zone 2 1 demo_site).2 in
  (delete_zone 2 1 demo_site).1 = End 204
  ∧ zoneInventory (inventory s') !! 1 = None
  ∧ zoneInventory (inventory s') !! 2
    = Some {| zi_zoneId := 2; zi_floorInventoryId := 1; zi_quantity := 2 |}.
Proof.
  destruct (delete_zone_cascades 2 1 demo_site) as [_ Hpresent].
  destruct (Hpresent
              {| zn_name := "A"; zn_description := "";
                 zn_status := free; zn_coordinates := triangle;
                 zn_layerId := 2; zn_floorId := 1 |}
              ltac:(reflexivity) ltac:(reflexivity))
    as (H204 & _ & _ & Halloc & _).
  split; [exact H204|]. split.
  - destruct (zoneInventory (inventory (delete_zone 2 1 demo_site).2) !! 1)
      as [r|] eqn:Hr; [|reflexivity].
    apply Halloc in Hr as [Hr Hne]. vm_compute in Hr. injection Hr as Hr.
    subst r. by contradict Hne.
  - apply Halloc. split; [by vm_compute|]. simpl. lia.
Defined.

Lemma floorInventory_drop_floorInventory (gone : gmap Z FloorInventory)
    (d : DB) :
  floorInventory (floorInventory_drop gone d) = floorInventory d ∖ gone.
Proof. reflexivity. Qed.

Lemma floorInventory_drop_zoneInventory (gone : gmap Z FloorInventory) (d : DB)
    (k : Z) (r : ZoneInventory) :
  zoneInventory (floorInventory_drop gone d) !! k = Some r
  ↔ zoneInventory d !! k = Some r ∧ gone !! zi_floorInventoryId r = None.
Proof.
  unfold floorInventory_drop. simpl.
  rewrite lookup_difference_filter. simpl. by rewrite not_is_Some_None.
Qed.

Lemma drop_layers_zoneInventory (gone : gmap Z Layer) (s : Site) (k : Z)
    (r : ZoneInventory) :
  zoneInventory (inventory (drop_layers gone s)) !! k = Some r
  ↔ zoneInventory (inventory s) !! k = Some r
    ∧ (∀ z, zone s !! zi_zoneId r = Some z → gone !! zn_layerId z = None).
Proof.
  rewrite drop_layers_inventory, drop_zones_zoneInventory.
  rewrite map_lookup_filter_None. simpl. split.
  - intros [Hr Hzone]. split; [done|]. intros z Hz.
    destruct Hzone as [Hn|Hn]; [congruence|].
    apply not_is_Some_None. by apply Hn.
  - intros [Hr Hzone]. split; [done|]. right. intros z Hz.
    apply not_is_Some_None. by apply Hzone.
Qed.

Lemma drop_layers_floorInventory (gone : gmap Z Layer) (s : Site) :
  floorInventory (inventory (drop_layers gone s)) = floorInventory (inventory s).
Proof. by rewrite drop_layers_inventory, drop_zones_floorInventory. Qed.

Lemma drop_floors_floorInventory (gone : gmap Z Floor) (s : Site) (k : Z)
    (fi : FloorInventory) :
  floorInventory (inventory (drop_floors gone s)) !! k = Some fi
  ↔ floorInventory (inventory s) !! k = Some fi ∧ gone !! fi_floorId fi = None.
Proof.
  rewrite drop_floors_inventory. cbv zeta.
  rewrite floorInventory_drop_floorInventory.
  rewrite drop_zones_floorInventory, drop_layers_floorInventory.
  rewrite lookup_difference_filter. simpl. by rewrite not_is_Some_None.
Qed.

Lemma drop_floors_zoneInventory (gone : gmap Z Floor) (s : Site) (k : Z)
    (r : ZoneInventory) :
  zoneInventory (inventory (drop_floors gone s)) !! k = Some r →
  zoneInventory (inventory s) !! k = Some r
  ∧ (∀ fi, floorInventory (inventory s) !! zi_floorInventoryId r = Some fi →
       gone !! fi_floorId fi = None)
  ∧ (∀ z, zone s !! zi_zoneId r = Some z → gone !! zn_floorId z = None).
Proof.
  rewrite drop_floors_inventory. cbv zeta.
  rewrite floorInventory_drop_zoneInventory.
  rewrite drop_zones_floorInventory, drop_layers_floorInventory.
  rewrite drop_zones_zoneInventory, drop_layers_zoneInventory.
  rewrite !map_lookup_filter_None. cbn [snd].
  intros [[[Hr Hlayers] Hzones] Hstock]. split; [done|]. split.
  - intros fi Hfi. destruct Hstock as [Hn|Hn]; [congruence|].
    apply not_is_Some_None. by apply Hn.
  - intros z Hz. apply not_is_Some_None.
    assert (zone (drop_layers
                    (filter (λ kr, is_Some (gone !! la_floorId kr.2)) (layer s))
                    s) !! zi_zoneId r = Some z) as Hin.
    { apply drop_layers_zone. split; [done|]. by apply Hlayers. }
    destruct Hzones as [Hn|Hn]; [congruence | by apply (Hn z)].
Qed.

(** X25.  Deleting a floor answers 404, and changes nothing, when the
    office has no such floor.  Otherwise it answers 204 and nothing that
    belonged to the floor is left: the floor row is gone, exactly the layers
    and the stock rows of other floors stay, and no zone of the floor and no
    allocation of its stock or in one of its zones remains.  The offices are
    untouched. *)
Theorem delete_floor_cascades (officeId floorId : Z) (s : Site) :
  ((floor s !! floorId = None
    ∨ ∃ f, floor s !! floorId = Some f ∧ fl_officeId f ≠ officeId) →
   delete_floor officeId floorId s = (ErrorJson 404 "Floor not found", s))
  ∧ (∀ f, floor s !! floorId = Some f → fl_officeId f = officeId →
       let s' := (delete_floor officeId floorId s).2 in
       (delete_floor officeId floorId s).1 = End 204
       ∧ floor s' = delete floorId (floor s)
       ∧ office s' = office s
       ∧ (∀ k l, layer s' !! k = Some l
                 ↔ layer s !! k = Some l ∧ la_floorId l ≠ floorId)
       ∧ (∀ k z, zone s' !! k = Some z →
            zone s !! k = Some z ∧ zn_floorId z ≠ floorId)
       ∧ (∀ k fi, floorInventory (inventory s') !! k = Some fi
                  ↔ floorInventory (inventory s) !! k = Some fi
                    ∧ fi_floorId fi ≠ floorId)
       ∧ (∀ k r, zoneInventory (inventory s') !! k = Some r →
            zoneInventory (inventory s) !! k = Some r
            ∧ (∀ fi, floorInventory (inventory s)
                       !! zi_floorInventoryId r = Some fi →
                 fi_floorId fi ≠ floorId)
            ∧ (∀ z, zone s !! zi_zoneId r = Some z → zn_floorId z ≠ floorId))).
Proof.
  split.
  - intros Habsent.
    destruct (delete_floor_cases officeId floorId s)
      as [[_ ->]|(f & Hf & Hoffice & _)]; [done|].
    destruct Habsent as [Hnone|(f' & Hf' & Hne)]; congruence.
  - intros f Hf Hoffice s'. subst s'.
    destruct (delete_floor_cases officeId floorId s)
      as [[Habsent _]|(f' & Hf' & _ & ->)].
    { destruct Habsent as [Hnone|(f' & Hf' & Hne)]; congruence. }
    assert (f' = f) as -> by congruence.
    cbn [fst snd].
    assert (∀ j : Z, ({[floorId := f]} : gmap Z Floor) !! j = None ↔ j ≠ floorId)
      as Hgone.
    { intros j. rewrite lookup_singleton_None. split; congruence. }
    split; [done|].
    split; [rewrite drop_floors_floor; apply difference_singleton|].
    split; [reflexivity|].
    split; [|split; [|split]].
    + intros k l. by rewrite drop_floors_layer, Hgone.
    + intros k z Hz. apply drop_floors_zone in Hz. by rewrite Hgone in Hz.
    + intros k fi. by rewrite drop_floors_floorInventory, Hgone.
    + intros k r Hr. apply drop_floors_zoneInventory in Hr as (Hr & Hstock & Hzone).
      split; [done|]. split.
      * intros fi Hfi. apply Hgone. by apply Hstock.
      * intros z Hz. apply Hgone. by apply Hzone.
Qed.

(** Floor 1 of the demo store, which holds the only stock row. *)
Lemma delete_floor_cascades_witness :
  let s' := (delete_floor 1 1 demo_site).2 in
  (delete_floor 1 1 demo_site).1 = End 204
  ∧ floor s' = delete 1 (floor demo_site)
  ∧ floorInventory (inventory s') !! 1 = None.
Proof.
  destruct (delete_floor_cascades 1 1 demo_site) as [_ Hpresent].
  destruct (Hpresent
              {| fl_number := 3; fl_officeId := 1;
                 fl_planImageUrl := None; fl_firesafeImageUrl := None |}
              ltac:(reflexivity) ltac:(reflexivity))
    as (H204 & Hfloor & _ & _ & _ & Hstock & _).
  split; [exact H204|]. split; [exact Hfloor|].
  destruct (floorInventory (inventory (delete_floor 1 1 demo_site).2) !! 1)
    as [fi|] eqn:Hfi; [|reflexivity].
  apply Hstock in Hfi as [Hfi Hne]. vm_compute in Hfi. injection Hfi as Hfi.
  subst fi. by contradict Hne.
Defined.

(** X26.  Deleting a layer is refused with 400 for the fire-safety layer
    and with 404 when the floor has no such layer, and then changes
    nothing.  Otherwise it answers 204: the layer row is gone, exactly the
    zones of other layers stay, and exactly the allocations outside the
    zones of the layer stay.  Floors and stock rows are untouched. *)
Theorem delete_layer_cascades (floorId layerId : Z) (s : Site) :
  ((layer s !! layerId = None
    ∨ ∃ l, layer s !! layerId = Some l ∧ la_floorId l ≠ floorId) →
   delete_layer floorId layerId s = (ErrorJson 404 "Layer not found", s))
  ∧ (∀ l, layer s !! layerId = Some l → la_floorId l = floorId →
       la_type l = firesafe →
       delete_layer floorId layerId s
       = (ErrorJson 400 "Cannot delete firesafe layer", s))
  ∧ (∀ l, layer s !! layerId = Some l → la_floorId l = floorId →
       la_type l ≠ firesafe →
       let s' := (delete_layer floorId layerId s).2 in
       (delete_layer floorId layerId s).1 = End 204
       ∧ layer s' = delete layerId (layer s)
       ∧ floor s' = floor s
       ∧ (∀ k z, zone s' !! k = Some z
                 ↔ zone s !! k = Some z ∧ zn_layerId z ≠ layerId)
       ∧ (∀ k r, zoneInventory (inventory s') !! k = Some r
                 ↔ zoneInventory (inventory s) !! k = Some r
                   ∧ (∀ z, zone s !! zi_zoneId r = Some z →
                        zn_layerId z ≠ layerId))
       ∧ floorInventory (inventory s') = floorInventory (inventory s)).
Proof.
  split; [|split].
  - intros Habsent. unfold delete_layer, bind, layer_findFirst.
    destruct Habsent as [->|(l & -> & Hne)]; [done|].
    by rewrite decide_False.
  - intros l Hl Hfloor Htype. unfold delete_layer, bind, layer_findFirst.
    rewrite Hl. rewrite decide_True by done. by rewrite decide_True.
  - intros l Hl Hfloor Htype s'. subst s'.
    destruct (delete_layer_cases floorId layerId s)
      as [[Hrefused Hsame]|(l' & Hl' & _ & _ & ->)].
    { exfalso. revert Hrefused. unfold delete_layer, bind, layer_findFirst.
      rewrite Hl. rewrite decide_True by done. rewrite decide_False by done.
      unfold layer_delete. by rewrite Hl. }
    assert (l' = l) as -> by congruence.
    cbn [fst snd].
    assert (∀ j : Z, ({[layerId := l]} : gmap Z Layer) !! j = None ↔ j ≠ layerId)
      as Hgone.
    { intros j. rewrite lookup_singleton_None. split; congruence. }
    split; [done|].
    split; [apply difference_singleton|].
    split; [reflexivity|].
    split; [|split].
    + intros k z. by rewrite drop_layers_zone, Hgone.
    + intros k r. rewrite drop_layers_zoneInventory.
      by setoid_rewrite Hgone.
    + apply drop_layers_floorInventory.
Qed.

(** The custom layer of the demo store, which holds both zones. *)
Lemma delete_layer_cascades_witness :
  let s' := (delete_layer 1 2 demo_site).2 in
  (delete_layer 1 2 demo_site).1 = End 204
  ∧ layer s' = delete 2 (layer demo_site)
  ∧ zone s' !! 1 = None.
Proof.
  destruct (delete_layer_cascades 1 2 demo_site) as (_ & _ & Hpresent).
  destruct (Hpresent
              {| la_name := "Desks"; la_floorId := 1; la_type := custom |}
              ltac:(reflexivity) ltac:(reflexivity) ltac:(discriminate))
    as (H204 & Hlayer & _ & Hzone & _).
  split; [exact H204|]. split; [exact Hlayer|].
  destruct (zone (delete_layer 1 2 demo_site).2 !! 1) as [z|] eqn:Hz;
    [|reflexivity].
  apply Hzone in Hz as [Hz Hne]. vm_compute in Hz. injection Hz as Hz.
  subst z. by contradict Hne.
Defined.

(** ** Reading back what was written *)

Lemma zones_of_insert (layerId id : Z) (z : Zone) (s s' : Site) :
  zone s' = <[id := z]> (zone s) → zn_layerId z = layerId →
  zones_of layerId s' = <[id := zone_view z]> (zones_of layerId s).
Proof.
  intros Hzone Hlayer. unfold zones_of. rewrite Hzone.
  rewrite map_filter_insert_True by done. by rewrite fmap_insert.
Qed.

(** X28.  What the layer read lists follows the zone writes.  When a zone
    is created (201), the next read of its layer answers the layer with the
    zones listed before plus the new one, under the id the creation
    answered, with the name, the description and the status that were sent
    and as many coordinates as were sent; the id was not listed before.
    When a zone is deleted (204), the next read of its layer lists the
    zones of before without it. *)
Theorem layer_read_follows_zone_writes (layerId : Z) (s : Site) :
  (∀ name description status coordinates id c s',
     post_zones layerId name description status coordinates s
     = (Json 201 (id, c), s') →
     ∃ l st v,
       layer s !! layerId = Some l
       ∧ parse_status (default "free" status) = Some st
       ∧ zones_of layerId s !! id = None
       ∧ zv_name v = name
       ∧ zv_description v = description
       ∧ zv_status v = st
       ∧ length (zv_coordinates v) = length c
       ∧ get_layer (la_floorId l) layerId s'
         = (Json 200
              (ZonesView layerId (la_name l) custom
                 (<[id := v]> (zones_of layerId s))),
            s'))
  ∧ (∀ zoneId l s',
       delete_zone layerId zoneId s = (End 204, s') →
       layer s !! layerId = Some l → la_type l = custom →
       get_layer (la_floorId l) layerId s'
       = (Json 200
            (ZonesView layerId (la_name l) custom
               (delete zoneId (zones_of layerId s))),
          s')).
Proof.
  split.
  - intros name description status coordinates id c s' Hpost.
    destruct (post_zones_cases layerId name description status coordinates s)
      as [[Hrefused _]|(c' & st & l & -> & Hlen & Hst & Hl & Htype & Hf & Hfresh
                        & Heq)].
    { rewrite Hpost in Hrefused. done. }
    rewrite Heq in Hpost. injection Hpost as Hid Hc Hs'. subst id c s'.
    exists l, st,
      {| zv_name := name; zv_description := description;
         zv_status := st; zv_coordinates := c' |}.
    split; [done|]. split; [done|]. split.
    { unfold zones_of. rewrite lookup_fmap.
      rewrite (proj2 (map_lookup_filter_None _ _ _)); [done|]. by left. }
    split; [done|]. split; [done|]. split; [done|]. split; [done|].
    unfold get_layer, layer_findFirst. cbn [layer].
    rewrite Hl. rewrite decide_True by done. rewrite Htype.
    rewrite decide_False by done.
    f_equal. f_equal. f_equal.
    by rewrite (zones_of_insert layerId (zone_id_seq s)
                  {| zn_name := name; zn_description := description;
                     zn_status := st; zn_coordinates := c';
                     zn_layerId := layerId; zn_floorId := la_floorId l |} s).
  - intros zoneId l s' Hdelete Hl Htype.
    destruct (delete_zone_cases layerId zoneId s)
      as [[_ Heq]|(z & Hz & Hlayer & Heq)]; rewrite Heq in Hdelete;
      [done|].
    injection Hdelete as <-.
    unfold get_layer, layer_findFirst.
    assert (layer (drop_zones {[zoneId := z]} s) = layer s) as -> by done.
    rewrite Hl. rewrite decide_True by done. rewrite Htype.
    rewrite decide_False by done.
    f_equal. f_equal. f_equal.
    unfold zones_of.
    assert (zone (drop_zones {[zoneId := z]} s) = delete zoneId (zone s)) as ->.
    { unfold drop_zones. simpl. apply difference_singleton. }
    by rewrite map_filter_delete, fmap_delete.
Qed.

(** A zone named C is created on the custom layer of the demo store and
    the layer is read; zone 1 is deleted and the layer is read. *)
Lemma layer_read_follows_zone_writes_witness :
  (∃ v, zv_name v = "C"
        ∧ (get_layer 1 2
             (post_zones 2 "C" "" None (Some triangle) demo_site).2).1
          = Json 200 (ZonesView 2 "Desks" custom
                        (<[3 := v]> (zones_of 2 demo_site))))
  ∧ (get_layer 1 2 (delete_zone 2 1 demo_site).2).1
    = Json 200 (ZonesView 2 "Desks" custom (delete 1 (zones_of 2 demo_site))).
Proof.
  destruct (layer_read_follows_zone_writes 2 demo_site) as [Hcreate Hdelete].
  split.
  - assert (post_zones 2 "C" "" None (Some triangle) demo_site
            = (Json 201 (3, triangle),
               (post_zones 2 "C" "" None (Some triangle) demo_site).2))
      as H201 by (by vm_compute).
    destruct (Hcreate "C" "" None (Some triangle) 3 triangle _ H201)
      as (l & st & v & Hl & _ & _ & Hname & _ & _ & _ & Hget).
    exists v. split; [exact Hname|].
    vm_compute in Hl. injection Hl as <-. exact (f_equal fst Hget).
  - assert (delete_zone 2 1 demo_site
            = (End 204, (delete_zone 2 1 demo_site).2))
      as H204 by (by vm_compute).
    exact (f_equal fst
             (Hdelete 1
                {| la_name := "Desks"; la_floorId := 1; la_type := custom |}
                (delete_zone 2 1 demo_site).2 H204 eq_refl eq_refl)).
Defined.

(** X29.  The URL of an uploaded fire-safety image is the one served
    afterwards: on an existing floor the upload answers the public URL of
    the file, the next read of the fire-safety image answers that URL, the
    read of any fire-safety layer of the floor shows it as its image, and
    the plan image is what it was.  On a missing floor the upload is passed
    to the default error handler and no table changes; the file itself was
    written before the handler ran, and the files are not part of the
    store. *)
Theorem firesafe_image_roundtrip (floorId : Z) (rel : string) (s : Site) :
  (is_Some (floor s !! floorId) →
     let s' := (post_firesafe_image floorId (Some rel) s).2 in
     (post_firesafe_image floorId (Some rel) s).1 = Json 200 (toPublicUrl rel)
     ∧ get_firesafe_image floorId s' = (Json 200 (Some (toPublicUrl rel)), s')
     ∧ (∀ layerId l,
          layer s !! layerId = Some l → la_floorId l = floorId →
          la_type l = firesafe →
          get_layer floorId layerId s'
          = (Json 200 (FiresafeView layerId (la_name l)
                         (Some (toPublicUrl rel))), s'))
     ∧ (get_plan_image floorId s').1 = (get_plan_image floorId s).1)
  ∧ (floor s !! floorId = None →
       post_firesafe_image floorId (Some rel) s
       = (Next (PrismaError P2025), s)).
Proof.
  split.
  - intros [f Hf] s'. subst s'.
    unfold post_firesafe_image, floor_update. rewrite Hf. simpl.
    split; [done|]. split; [|split].
    + unfold get_firesafe_image, floor_findUnique. simpl.
      rewrite lookup_insert_eq. unfold with_firesafeImageUrl at 1.
      cbn [fl_firesafeImageUrl]. by rewrite toPublicUrl_set.
    + intros layerId l Hl Hfloor Htype.
      unfold get_layer, layer_findFirst. simpl.
      rewrite Hl. rewrite decide_True by done. rewrite decide_True by done.
      rewrite Hfloor. by rewrite lookup_insert_eq.
    + unfold get_plan_image, floor_findUnique. simpl.
      rewrite lookup_insert_eq, Hf. simpl.
      by destruct (not_set (fl_planImageUrl f)).
  - intros Hf. unfold post_firesafe_image, floor_update. by rewrite Hf.
Qed.

Lemma firesafe_image_roundtrip_witness :
  (get_layer 1 1
     (post_firesafe_image 1 (Some "floors/1/18.png") demo_site).2).1
  = Json 200 (FiresafeView 1 "Пожарный план" (Some "/uploads/floors/1/18.png")).
Proof.
  destruct (firesafe_image_roundtrip 1 "floors/1/18.png" demo_site)
    as [Hset _].
  destruct Hset as (_ & _ & Hlayer & _).
  - vm_compute. by eexists.
  - rewrite (Hlayer 1 {| la_name := "Пожарный план"; la_floorId := 1;
                         la_type := firesafe |});
      reflexivity.
Defined.

End plan_properties.
